(** * The routing core of the Fusion 360 MCP server

    A shallow embedding of [mcp_server/router.py], of the four provider
    adapters under [mcp_server/llm_clients/] and of the pydantic models
    under [mcp_server/schema/], followed by the properties of the
    routing / retry / fallback / payload-extraction core.

    Conventions of the embedding.
    - A Python [str] is a Rocq [string] holding its UTF-8 encoding.  The
      characters the code searches for (braces, the colon) are ASCII, so
      searching and slicing commute with the encoding.
    - A Python exception is a value of [PyExc]; a call that may raise
      returns a [result].
    - The outside world (provider APIs, the clock, [asyncio.sleep]) is an
      oracle, a function of the history of effects so far, and every
      effect the router performs is appended to that history.
    - A Python [float] is kept as the decimal number its literal denotes:
      no claim computes with floats, they are only passed through.
    - Interpreter resource limits (recursion depth, the integer-literal
      digit limit) and exceptions outside the [Exception] hierarchy
      (cancellation, interrupts) are outside the model. *)

From Stdlib Require Import String Ascii List ZArith NArith Bool Lia.
Import ListNotations.

#[local] Open Scope string_scope.
#[local] Open Scope Z_scope.
#[local] Set Warnings "-register-all".

(* ================================================================== *)
(** * Python values                                                    *)
(* ================================================================== *)

Module Py.

(** Exceptions, by class.  All of them derive from [Exception]. *)
Inductive PyExc : Type :=
| Exception (msg : string)
| AttributeError (msg : string)
| TypeError (msg : string)
| ValidationError (model field : string).

(** [str(e)].  For a pydantic [ValidationError] only the head line of
    the report is kept. *)
Definition str_exc (e : PyExc) : string :=
  match e with
  | Exception m | AttributeError m | TypeError m => m
  | ValidationError model field =>
      "1 validation error for " ++ model ++ ": " ++ field
  end.

Inductive result (A : Type) : Type :=
| Ok (a : A)
| Raise (e : PyExc).
Arguments Ok {A} a.
Arguments Raise {A} e.

(** Floats, kept as written: [(-1)^neg * mant * 10^exp10]. *)
Inductive Float : Type :=
| FDec (neg : bool) (mant : N) (exp10 : Z)
| FNaN
| FInf (neg : bool).

Definition float_of_Z (z : Z) : Float :=
  FDec (z <? 0) (Z.abs_N z) 0.

Definition float_is_zero (f : Float) : bool :=
  match f with FDec _ m _ => N.eqb m 0 | _ => false end.

(** The integer a float denotes, when it has no fractional part
    (pydantic's lax [float] to [int]). *)
Definition float_as_int (f : Float) : option Z :=
  match f with
  | FDec neg m e =>
      let z := if neg then Z.opp (Z.of_N m) else Z.of_N m in
      if 0 <=? e then Some (z * 10 ^ e)
      else if Z.eqb (z mod 10 ^ (- e)) 0 then Some (z / 10 ^ (- e))
      else None
  | _ => None
  end.

(** Characters that cannot be written inside a literal. *)
Definition dquote : ascii := Eval cbv in ascii_of_nat 34.
Definition LF : ascii := Eval cbv in ascii_of_nat 10.
Definition CR : ascii := Eval cbv in ascii_of_nat 13.
Definition TAB : ascii := Eval cbv in ascii_of_nat 9.
Definition BS : ascii := Eval cbv in ascii_of_nat 8.
Definition FF : ascii := Eval cbv in ascii_of_nat 12.
Definition nl : string := String LF EmptyString.
Definition dq : string := String dquote EmptyString.

(** [c in s] for a one-character [c]. *)
Fixpoint contains_char (c : ascii) (s : string) : bool :=
  match s with
  | EmptyString => false
  | String a r => Ascii.eqb a c || contains_char c r
  end.

(** [s.find(c)]: the lowest index of [c], or [-1]. *)
Fixpoint find (c : ascii) (s : string) : Z :=
  match s with
  | EmptyString => -1
  | String a r =>
      if Ascii.eqb a c then 0
      else let i := find c r in if i =? -1 then -1 else i + 1
  end.

(** [s.rfind(c)]: the highest index of [c], or [-1]. *)
Fixpoint rfind (c : ascii) (s : string) : Z :=
  match s with
  | EmptyString => -1
  | String a r =>
      let i := rfind c r in
      if i =? -1 then (if Ascii.eqb a c then 0 else -1) else i + 1
  end.

(** [s[a:b]] for non-negative [a] and [b]. *)
Definition slice (s : string) (a b : Z) : string :=
  substring (Z.to_nat a) (Z.to_nat (b - a)) s.

(** [s.split(c, 1)]: at most one split, at the first [c]. *)
Fixpoint split1 (c : ascii) (s : string) : list string :=
  match s with
  | EmptyString => [EmptyString]
  | String a r =>
      if Ascii.eqb a c then [EmptyString; r]
      else match split1 c r with
           | h :: t => String a h :: t
           | [] => []
           end
  end.

(** [sub in s]. *)
Fixpoint contains (sub s : string) : bool :=
  String.prefix sub s ||
  match s with
  | String _ r => contains sub r
  | EmptyString => false
  end.

(** [s.lower()], on ASCII letters. *)
Definition lower_char (c : ascii) : ascii :=
  let n := N_of_ascii c in
  if (65 <=? n)%N && (n <=? 90)%N then ascii_of_N (n + 32) else c.

Fixpoint lower (s : string) : string :=
  match s with
  | String c r => String (lower_char c) (lower r)
  | EmptyString => EmptyString
  end.

(** [s.split(c)[-1]]: what follows the last [c]. *)
Fixpoint last_part (c : ascii) (s : string) : string :=
  match s with
  | EmptyString => EmptyString
  | String a r =>
      if contains_char c s then
        (if Ascii.eqb a c && negb (contains_char c r) then r else last_part c r)
      else s
  end.

(** [sep.join(l)]. *)
Fixpoint join (sep : string) (l : list string) : string :=
  match l with
  | [] => EmptyString
  | [x] => x
  | x :: r => x ++ sep ++ join sep r
  end.

End Py.
Export Py.

(* ================================================================== *)
(** * [json.loads]                                                     *)
(* ================================================================== *)

Module Json.

(** What [json.loads] returns: [None], [bool], [int], [float], [str],
    [list], and [dict] in insertion order. *)
Inductive JSON : Type :=
| JNull
| JBool (b : bool)
| JInt (z : Z)
| JFloat (f : Float)
| JStr (s : string)
| JList (l : list JSON)
| JDict (kvs : list (string * JSON)).

(** [k in d] and [d[k]] / [d.get(k)]. *)
Fixpoint dict_get (kvs : list (string * JSON)) (k : string) : option JSON :=
  match kvs with
  | [] => None
  | (k', v) :: r => if String.eqb k' k then Some v else dict_get r k
  end.

Definition dict_has (kvs : list (string * JSON)) (k : string) : bool :=
  match dict_get kvs k with Some _ => true | None => false end.

(** [d[k] = v]: an existing key keeps its place. *)
Fixpoint dict_set (kvs : list (string * JSON)) (k : string) (v : JSON)
  : list (string * JSON) :=
  match kvs with
  | [] => [(k, v)]
  | (k', v') :: r =>
      if String.eqb k' k then (k', v) :: r else (k', v') :: dict_set r k v
  end.

(** [dict(pairs)]. *)
Definition dict_of_pairs (pairs : list (string * JSON)) : list (string * JSON) :=
  fold_left (fun d kv => dict_set d (fst kv) (snd kv)) pairs [].

(** Truth value of a payload, as [if result.get("json"):] tests it. *)
Definition truthy (j : JSON) : bool :=
  match j with
  | JNull => false
  | JBool b => b
  | JInt z => negb (z =? 0)
  | JFloat f => negb (float_is_zero f)
  | JStr s => negb (String.eqb s EmptyString)
  | JList l => match l with [] => false | _ => true end
  | JDict kvs => match kvs with [] => false | _ => true end
  end.

(** ** Scanner *)

Definition is_ws (c : ascii) : bool :=
  Ascii.eqb c " " || Ascii.eqb c TAB || Ascii.eqb c LF || Ascii.eqb c CR.

Fixpoint skip_ws (s : string) : string :=
  match s with
  | String c r => if is_ws c then skip_ws r else s
  | EmptyString => s
  end.

Definition digit_val (c : ascii) : option N :=
  let n := N_of_ascii c in
  if (48 <=? n)%N && (n <=? 57)%N then Some (n - 48)%N else None.

Definition hex_val (c : ascii) : option N :=
  let n := N_of_ascii c in
  if (48 <=? n)%N && (n <=? 57)%N then Some (n - 48)%N
  else if (65 <=? n)%N && (n <=? 70)%N then Some (n - 55)%N
  else if (97 <=? n)%N && (n <=? 102)%N then Some (n - 87)%N
  else None.

(** The longest run of digits at the head of [s]: its value on top of
    [acc], its length, and the rest. *)
Fixpoint digits (s : string) (acc : N) (len : nat) : N * nat * string :=
  match s with
  | String c r =>
      match digit_val c with
      | Some d => digits r (acc * 10 + d)%N (S len)
      | None => (acc, len, s)
      end
  | EmptyString => (acc, len, s)
  end.

(** [NUMBER_RE]: an optional minus sign, then either a lone 0 or a
    non-zero digit followed by digits; then, optionally, a dot with at
    least one digit; then, optionally, e or E, a sign and at least one
    digit. *)
Definition match_int (s : string) : option (bool * N * string) :=
  let '(neg, s1) := match s with
                    | String "-" r => (true, r)
                    | _ => (false, s)
                    end in
  match s1 with
  | String c r =>
      match digit_val c with
      | Some 0%N => Some (neg, 0%N, r)
      | Some d => let '(n, _, r') := digits r d 1 in Some (neg, n, r')
      | None => None
      end
  | EmptyString => None
  end.

Definition match_frac (s : string) : option (N * nat * string) :=
  match s with
  | String "." r =>
      let '(n, len, r') := digits r 0 0 in
      match len with O => None | _ => Some (n, len, r') end
  | _ => None
  end.

Definition match_exp (s : string) : option (Z * string) :=
  match s with
  | String c r =>
      if Ascii.eqb c "e" || Ascii.eqb c "E" then
        let '(neg, r1) := match r with
                          | String "-" r1 => (true, r1)
                          | String "+" r1 => (false, r1)
                          | _ => (false, r)
                          end in
        let '(n, len, r') := digits r1 0 0 in
        match len with
        | O => None
        | _ => Some (if neg then Z.opp (Z.of_N n) else Z.of_N n, r')
        end
      else None
  | EmptyString => None
  end.

Definition match_number (s : string) : option (JSON * string) :=
  match match_int s with
  | None => None
  | Some (neg, n, r) =>
      let frac := match_frac r in
      let r1 := match frac with Some (_, _, r1) => r1 | None => r end in
      let exp := match_exp r1 in
      let r2 := match exp with Some (_, r2) => r2 | None => r1 end in
      match frac, exp with
      | None, None =>
          Some (JInt (if neg then Z.opp (Z.of_N n) else Z.of_N n), r2)
      | _, _ =>
          let '(fm, fl) := match frac with
                           | Some (m, l, _) => (m, l)
                           | None => (0%N, O)
                           end in
          let e := match exp with Some (e, _) => e | None => 0 end in
          Some (JFloat (FDec neg (n * 10 ^ N.of_nat fl + fm)%N
                             (e - Z.of_nat fl)), r2)
      end
  end.

(** [s.startswith(p)] with the rest. *)
Fixpoint strip_prefix (p s : string) : option string :=
  match p, s with
  | EmptyString, _ => Some s
  | String a p', String b s' =>
      if Ascii.eqb a b then strip_prefix p' s' else None
  | String _ _, EmptyString => None
  end.

(** UTF-8 (surrogates included, as CPython keeps them in a [str]). *)
Definition byte (n : N) : ascii := ascii_of_N n.

Definition utf8 (u : N) : string :=
  if (u <? 128)%N then String (byte u) EmptyString
  else if (u <? 2048)%N then
    String (byte (192 + u / 64)) (String (byte (128 + u mod 64)) EmptyString)
  else if (u <? 65536)%N then
    String (byte (224 + u / 4096))
      (String (byte (128 + (u / 64) mod 64))
         (String (byte (128 + u mod 64)) EmptyString))
  else
    String (byte (240 + u / 262144))
      (String (byte (128 + (u / 4096) mod 64))
         (String (byte (128 + (u / 64) mod 64))
            (String (byte (128 + u mod 64)) EmptyString))).

Definition hex4 (a b c d : ascii) : option N :=
  match hex_val a, hex_val b, hex_val c, hex_val d with
  | Some x, Some y, Some z, Some w =>
      Some (((x * 16 + y) * 16 + z) * 16 + w)%N
  | _, _, _, _ => None
  end.

Definition simple_escape (c : ascii) : option ascii :=
  if Ascii.eqb c dquote then Some dquote
  else if Ascii.eqb c "\" then Some "\"%char
  else if Ascii.eqb c "/" then Some "/"%char
  else if Ascii.eqb c "b" then Some BS
  else if Ascii.eqb c "f" then Some FF
  else if Ascii.eqb c "n" then Some LF
  else if Ascii.eqb c "r" then Some CR
  else if Ascii.eqb c "t" then Some TAB
  else None.

(** [scanstring(s, end, strict=True)], from just after the opening
    quote: the decoded string and the text after the closing quote. *)
Fixpoint scanstring (s : string) : option (string * string) :=
  match s with
  | EmptyString => None
  | String c r =>
      if Ascii.eqb c dquote then Some (EmptyString, r)
      else if Ascii.eqb c "\" then
        match r with
        | EmptyString => None
        | String e r1 =>
            if Ascii.eqb e "u" then
              match r1 with
              | String h1 (String h2 (String h3 (String h4 r2))) =>
                  match hex4 h1 h2 h3 h4 with
                  | None => None
                  | Some uni =>
                      let lone :=
                        match scanstring r2 with
                        | Some (t, rest) => Some (utf8 uni ++ t, rest)
                        | None => None
                        end in
                      if (55296 <=? uni)%N && (uni <=? 56319)%N then
                        match r2 with
                        | String b (String u
                            (String g1 (String g2 (String g3 (String g4 r3))))) =>
                            if Ascii.eqb b "\" && Ascii.eqb u "u" then
                              match hex4 g1 g2 g3 g4 with
                              | None => None
                              | Some uni2 =>
                                  if (56320 <=? uni2)%N && (uni2 <=? 57343)%N then
                                    match scanstring r3 with
                                    | Some (t, rest) =>
                                        Some (utf8 (65536 + ((uni - 55296) * 1024
                                                             + (uni2 - 56320)))%N
                                              ++ t, rest)
                                    | None => None
                                    end
                                  else lone
                              end
                            else lone
                        | _ => lone
                        end
                      else lone
                  end
              | _ => None
              end
            else
              match simple_escape e with
              | None => None
              | Some a =>
                  match scanstring r1 with
                  | Some (t, rest) => Some (String a t, rest)
                  | None => None
                  end
              end
        end
      else if (N_of_ascii c <? 32)%N then None
      else
        match scanstring r with
        | Some (t, rest) => Some (String c t, rest)
        | None => None
        end
  end.

(** ** Values

    [scan_once] with [JSONArray] and [JSONObject].  [depth] bounds the
    nesting of containers and [n] the number of items of one container;
    [loads] starts both at the length of the text, which neither can
    exceed. *)

Section Containers.
Variable scan : string -> option (JSON * string).

(** After an item of an array: the closing bracket, or a comma and
    the next item. *)
Fixpoint array_items (n : nat) (s : string) : option (list JSON * string) :=
  match n with
  | O => None
  | S n' =>
      match scan s with
      | None => None
      | Some (v, r) =>
          match skip_ws r with
          | String c r1 =>
              if Ascii.eqb c "]" then Some ([v], r1)
              else if Ascii.eqb c "," then
                match array_items n' (skip_ws r1) with
                | Some (vs, rest) => Some (v :: vs, rest)
                | None => None
                end
              else None
          | EmptyString => None
          end
      end
  end.

Definition JSONArray (s : string) : option (JSON * string) :=
  match skip_ws s with
  | String c r =>
      if Ascii.eqb c "]" then Some (JList [], r)
      else match array_items (S (String.length s)) (skip_ws s) with
           | Some (vs, rest) => Some (JList vs, rest)
           | None => None
           end
  | EmptyString => None
  end.

(** From the opening quote of a key: the key, a colon, the value, and
    then the closing brace or a comma and the next key. *)
Fixpoint object_pairs (n : nat) (s : string)
  : option (list (string * JSON) * string) :=
  match n with
  | O => None
  | S n' =>
      match s with
      | String q r0 =>
          if Ascii.eqb q dquote then
            match scanstring r0 with
            | None => None
            | Some (key, r) =>
                match skip_ws r with
                | String c r1 =>
                    if Ascii.eqb c ":" then
                      match scan (skip_ws r1) with
                      | None => None
                      | Some (v, r2) =>
                          match skip_ws r2 with
                          | String d r3 =>
                              if Ascii.eqb d "}" then Some ([(key, v)], r3)
                              else if Ascii.eqb d "," then
                                match object_pairs n' (skip_ws r3) with
                                | Some (kvs, rest) => Some ((key, v) :: kvs, rest)
                                | None => None
                                end
                              else None
                          | EmptyString => None
                          end
                      end
                    else None
                | EmptyString => None
                end
            end
          else None
      | EmptyString => None
      end
  end.

Definition JSONObject (s : string) : option (JSON * string) :=
  match skip_ws s with
  | String c r =>
      if Ascii.eqb c "}" then Some (JDict [], r)
      else match object_pairs (S (String.length s)) (skip_ws s) with
           | Some (kvs, rest) => Some (JDict (dict_of_pairs kvs), rest)
           | None => None
           end
  | EmptyString => None
  end.
End Containers.

Definition literal (s : string) : option (JSON * string) :=
  match strip_prefix "null" s with
  | Some r => Some (JNull, r)
  | None =>
  match strip_prefix "true" s with
  | Some r => Some (JBool true, r)
  | None =>
  match strip_prefix "false" s with
  | Some r => Some (JBool false, r)
  | None =>
  match match_number s with
  | Some vr => Some vr
  | None =>
  match strip_prefix "NaN" s with
  | Some r => Some (JFloat FNaN, r)
  | None =>
  match strip_prefix "Infinity" s with
  | Some r => Some (JFloat (FInf false), r)
  | None =>
  match strip_prefix "-Infinity" s with
  | Some r => Some (JFloat (FInf true), r)
  | None => None
  end end end end end end end.

Fixpoint scan_once (depth : nat) (s : string) : option (JSON * string) :=
  match s with
  | EmptyString => None
  | String c r =>
      if Ascii.eqb c dquote then
        match scanstring r with
        | Some (t, rest) => Some (JStr t, rest)
        | None => None
        end
      else if Ascii.eqb c "{" then
        match depth with
        | O => None
        | S d => JSONObject (scan_once d) r
        end
      else if Ascii.eqb c "[" then
        match depth with
        | O => None
        | S d => JSONArray (scan_once d) r
        end
      else literal s
  end.

(** [json.loads(s)]; [None] stands for [json.JSONDecodeError]. *)
Definition loads (s : string) : option JSON :=
  match scan_once (String.length s) (skip_ws s) with
  | Some (v, rest) =>
      match skip_ws rest with
      | EmptyString => Some v
      | String _ _ => None
      end
  | None => None
  end.

End Json.
Export Json.

(* ================================================================== *)
(** * [mcp_server/schema]: the pydantic models                         *)
(* ================================================================== *)

(** Construction of a model from keyword arguments validates every field
    in pydantic's lax mode; a field that fails raises [ValidationError].
    Unknown keywords are ignored (the models keep pydantic's default
    [extra = "ignore"]).  The values validated here are those a decoded
    JSON payload can hold.  Of the lax conversions, a number given as a
    string is accepted in its plain spelling only (digits, with a sign and,
    for a float, a fraction); no property below depends on them. *)

Module Pydantic.

Definition invalid {A} (model field : string) : result A :=
  Raise (ValidationError model field).

(** A run of decimal digits with an optional sign. *)
Definition str_as_int (s : string) : option Z :=
  let '(neg, s1) := match s with
                    | String "-" r => (true, r)
                    | String "+" r => (false, r)
                    | _ => (false, s)
                    end in
  match Json.digits s1 0 0 with
  | (n, S _, EmptyString) => Some (if neg then Z.opp (Z.of_N n) else Z.of_N n)
  | _ => None
  end.

(** Digits, optionally followed by a dot and digits. *)
Definition str_as_float (s : string) : option Float :=
  let '(neg, s1) := match s with
                    | String "-" r => (true, r)
                    | String "+" r => (false, r)
                    | _ => (false, s)
                    end in
  match Json.digits s1 0 0 with
  | (n, S _, EmptyString) => Some (FDec neg n 0)
  | (n, S _, String "." r) =>
      match Json.digits r 0 0 with
      | (m, S k, EmptyString) =>
          Some (FDec neg (n * 10 ^ N.of_nat (S k) + m)%N (- Z.of_nat (S k)))
      | _ => None
      end
  | _ => None
  end.

Definition str_field (model field : string) (v : JSON) : result string :=
  match v with
  | JStr s => Ok s
  | _ => invalid model field
  end.

Definition int_field (model field : string) (v : JSON) : result Z :=
  match v with
  | JInt z => Ok z
  | JBool b => Ok (if b then 1 else 0)
  | JFloat f =>
      match float_as_int f with Some z => Ok z | None => invalid model field end
  | JStr s =>
      match str_as_int s with Some z => Ok z | None => invalid model field end
  | _ => invalid model field
  end.

Definition float_field (model field : string) (v : JSON) : result Float :=
  match v with
  | JFloat f => Ok f
  | JInt z => Ok (float_of_Z z)
  | JBool b => Ok (float_of_Z (if b then 1 else 0))
  | JStr s =>
      match str_as_float s with Some f => Ok f | None => invalid model field end
  | _ => invalid model field
  end.

(** [List[X]]: a list whose items all validate. *)
Fixpoint list_of {A} (item : JSON -> result A) (l : list JSON) : result (list A) :=
  match l with
  | [] => Ok []
  | v :: r =>
      match item v with
      | Raise e => Raise e
      | Ok a =>
          match list_of item r with
          | Raise e => Raise e
          | Ok t => Ok (a :: t)
          end
      end
  end.

Definition list_field {A} (model field : string) (item : JSON -> result A) (v : JSON)
  : result (list A) :=
  match v with
  | JList l => list_of item l
  | _ => invalid model field
  end.

(** [Dict[str, Any]]. *)
Definition dict_field (model field : string) (v : JSON) : result (list (string * JSON)) :=
  match v with
  | JDict kvs => Ok kvs
  | _ => invalid model field
  end.

(** A required field, [Optional[X] = None], and a field with a default. *)
Definition required {A} (model field : string) (check : JSON -> result A)
           (kw : list (string * JSON)) : result A :=
  match dict_get kw field with
  | Some v => check v
  | None => invalid model field
  end.

Definition optional {A} (field : string) (check : JSON -> result A)
           (kw : list (string * JSON)) : result (option A) :=
  match dict_get kw field with
  | None | Some JNull => Ok None
  | Some v => match check v with Ok a => Ok (Some a) | Raise e => Raise e end
  end.

Definition defaulted {A} (field : string) (default : A) (check : JSON -> result A)
           (kw : list (string * JSON)) : result A :=
  match dict_get kw field with
  | None => Ok default
  | Some v => check v
  end.

End Pydantic.

(** ** [schema/fusion_action.py] *)

Module FusionAction.

Record t : Type := mk {
  action : string;
  params : list (string * JSON);
  explanation : option string;
  safety_checks : list string;
  dependencies : list string
}.

Definition name : string := "FusionAction".

(** The constructor, called with the keyword arguments [kw]. *)
Definition new (kw : list (string * JSON)) : result t :=
  match Pydantic.required name "action" (Pydantic.str_field name "action") kw with
  | Raise e => Raise e
  | Ok a =>
  match Pydantic.required name "params" (Pydantic.dict_field name "params") kw with
  | Raise e => Raise e
  | Ok p =>
  match Pydantic.optional "explanation" (Pydantic.str_field name "explanation") kw with
  | Raise e => Raise e
  | Ok ex =>
  match Pydantic.defaulted "safety_checks" []
          (Pydantic.list_field name "safety_checks" (Pydantic.str_field name "safety_checks")) kw with
  | Raise e => Raise e
  | Ok sc =>
  match Pydantic.defaulted "dependencies" []
          (Pydantic.list_field name "dependencies" (Pydantic.str_field name "dependencies")) kw with
  | Raise e => Raise e
  | Ok dp => Ok (mk a p ex sc dp)
  end end end end end.

(** A [FusionAction] nested in another model: built from a mapping. *)
Definition validate (v : JSON) : result t :=
  match v with
  | JDict kw => new kw
  | _ => Pydantic.invalid name "__root__"
  end.

Definition dump_opt_str (o : option string) : JSON :=
  match o with Some s => JStr s | None => JNull end.

(** [a.model_dump()]. *)
Definition model_dump (a : t) : JSON :=
  JDict [ ("action", JStr (action a));
          ("params", JDict (params a));
          ("explanation", dump_opt_str (explanation a));
          ("safety_checks", JList (map JStr (safety_checks a)));
          ("dependencies", JList (map JStr (dependencies a))) ].

End FusionAction.

Module ActionSequence.

Record t : Type := mk {
  actions : list FusionAction.t;
  total_steps : Z;
  estimated_time_seconds : option Float
}.

Definition name : string := "ActionSequence".

(** The constructor, called with the keyword arguments [kw]. *)
Definition new (kw : list (string * JSON)) : result t :=
  match Pydantic.required name "actions"
          (Pydantic.list_field name "actions" FusionAction.validate) kw with
  | Raise e => Raise e
  | Ok acts =>
  match Pydantic.required name "total_steps" (Pydantic.int_field name "total_steps") kw with
  | Raise e => Raise e
  | Ok n =>
  match Pydantic.optional "estimated_time_seconds"
          (Pydantic.float_field name "estimated_time_seconds") kw with
  | Raise e => Raise e
  | Ok est => Ok (mk acts n est)
  end end end.

(** [seq.model_dump()]. *)
Definition model_dump (q : t) : JSON :=
  JDict [ ("actions", JList (map FusionAction.model_dump (actions q)));
          ("total_steps", JInt (total_steps q));
          ("estimated_time_seconds",
           match estimated_time_seconds q with
           | Some f => JFloat f
           | None => JNull
           end) ].

(** [ActionSequence.model_validate(v)]: re-parsing a dumped sequence. *)
Definition model_validate (v : JSON) : result t :=
  match v with
  | JDict kw => new kw
  | _ => Pydantic.invalid name "__root__"
  end.

End ActionSequence.

(** ** [schema/mcp_command.py] *)

(** [Literal["ollama", "openai", "gemini", "claude"]]. *)
Inductive Provider : Type := ollama | openai | gemini | claude.

Definition provider_name (p : Provider) : string :=
  match p with
  | ollama => "ollama"
  | openai => "openai"
  | gemini => "gemini"
  | claude => "claude"
  end.

(** Validation of a string against the literal. *)
Definition provider_of_name (s : string) : option Provider :=
  if String.eqb s "ollama" then Some ollama
  else if String.eqb s "openai" then Some openai
  else if String.eqb s "gemini" then Some gemini
  else if String.eqb s "claude" then Some claude
  else None.

Module DesignContext.
Record t : Type := mk {
  active_component : string;
  units : string;
  design_state : string;
  active_sketch : option string;
  material : option string;
  parameters : list (string * JSON);
  geometry_count : list (string * Z)
}.
End DesignContext.

Module ModelParams.
Record t : Type := mk {
  provider : Provider;
  model : string;
  prompt : string;
  temperature : Float;
  max_tokens : option Z
}.
End ModelParams.

Module MCPCommand.
(** The [command] literal. *)
Inductive Kind : Type :=
| ask_model | suggest_action | context_update | execute_action
| validate_action | list_models | health_check.

Definition kind_name (k : Kind) : string :=
  match k with
  | ask_model => "ask_model"
  | suggest_action => "suggest_action"
  | context_update => "context_update"
  | execute_action => "execute_action"
  | validate_action => "validate_action"
  | list_models => "list_models"
  | health_check => "health_check"
  end.

Record t : Type := mk {
  command : Kind;
  params : option ModelParams.t;
  context : option DesignContext.t;
  action_data : option (list (string * JSON));
  metadata : list (string * JSON)
}.
End MCPCommand.

(** ** [schema/llm_response.py] *)

Module LLMResponseMetadata.

(** The [timestamp] field (the clock at construction) is left out. *)
Record t : Type := mk {
  provider : Provider;
  model : string;
  tokens_used : option Z;
  latency_ms : option Float;
  temperature : option Float
}.

(** [LLMResponseMetadata(provider=..., model=..., ...)]: [provider] is a
    literal field, so a name outside the four raises. *)
Definition new (provider model : string) (tokens_used : option Z)
           (latency_ms temperature : option Float) : result t :=
  match provider_of_name provider with
  | Some p => Ok (mk p model tokens_used latency_ms temperature)
  | None => Pydantic.invalid "LLMResponseMetadata" "provider"
  end.

End LLMResponseMetadata.

Module LLMError.
Record t : Type := mk {
  type : string;
  message : string;
  provider : string;
  retry_count : Z;
  recoverable : bool
}.
End LLMError.

Module ClarifyingQuestion.
Record t : Type := mk {
  question : string;
  context : string;
  suggestions : list string
}.
End ClarifyingQuestion.

Module LLMResponse.
Record t : Type := mk {
  success : bool;
  provider : string;
  model : string;
  raw_output : string;
  action : option FusionAction.t;
  action_sequence : option ActionSequence.t;
  clarifying_questions : list ClarifyingQuestion.t;
  reasoning : option string;
  metadata : LLMResponseMetadata.t;
  error : option LLMError.t
}.
End LLMResponse.

Module MCPResponse.
(** The [status] literal. *)
Inductive Status : Type := success | error | clarification_needed | partial.

Record t : Type := mk {
  status : Status;
  llm_response : option LLMResponse.t;
  message : string;
  actions_to_execute : list FusionAction.t;
  warnings : list string
}.
End MCPResponse.

(* ================================================================== *)
(** * The outside world                                                *)
(* ================================================================== *)

(** Every effect of the router is recorded, in order. *)
Inductive Event : Type :=
| EvGenerate (provider : Provider) (model prompt : string)
             (system_prompt : option string) (temperature : Float)
             (max_tokens : option Z)
| EvSleep (seconds : Float)
| EvListModels (provider : Provider).

Definition History : Type := list Event.

(** What a provider answers to one completion request. *)
Inductive Reply : Type :=
| Failure (msg : string)
| Completion (output : string) (tokens_used : option Z).

(** The providers and the clock.  Each answer may depend on everything
    that happened before, the request being answered included. *)
Record World : Type := {
  api : Provider -> History -> Reply;
  ollama_cli : History -> Reply;
  elapsed_ms : History -> Float;
  models_api : Provider -> History -> option (list string)
}.

(** Computations that add to the history and may raise. *)
Definition M (A : Type) : Type := History -> result A * History.

Definition ret {A} (a : A) : M A := fun h => (Ok a, h).

Definition bind {A B} (m : M A) (k : A -> M B) : M B :=
  fun h => match m h with
           | (Ok a, h') => k a h'
           | (Raise e, h') => (Raise e, h')
           end.

Definition lift {A} (r : result A) : M A := fun h => (r, h).

(** [try: body / except Exception as e: handler(e)]. *)
Definition try_except {A} (body : M A) (handler : PyExc -> M A) : M A :=
  fun h => match body h with
           | (Ok a, h') => (Ok a, h')
           | (Raise e, h') => handler e h'
           end.

Definition emit (ev : Event) : M unit := fun h => (Ok tt, (h ++ [ev])%list).

(** The current history, for consulting the oracle. *)
Definition history : M History := fun h => (Ok h, h).

Notation "x <- m ;; k" := (bind m (fun x => k))
  (at level 61, m at next level, right associativity).
Notation "m ;;; k" := (bind m (fun _ => k))
  (at level 61, right associativity).

(* ================================================================== *)
(** * [mcp_server/llm_clients]: the provider adapters                  *)
(* ================================================================== *)

(** An adapter builds a request, sends it, and wraps the text that comes
    back.  Building and sending are the world's side: [api] stands for
    the HTTP or SDK call with whatever request the adapter made of its
    arguments, [ollama_cli] for the [ollama run] subprocess (its output
    already stripped), and a [Failure] for any exception of the call. *)

(** The dictionary every [generate] returns. *)
Module Generated.
Record t : Type := mk {
  provider : string;
  model : string;
  output : string;
  json : JSON;
  tokens_used : option Z;
  latency_ms : option Float
}.
Definition set_latency (r : t) (l : Float) : t :=
  mk (provider r) (model r) (output r) (json r) (tokens_used r) (Some l).
End Generated.

Module OllamaClient.

(** Braces first, then the entire text. *)
Definition _parse_json (text : string) : JSON :=
  let start := find "{" text in
  let end_ := rfind "}" text in
  let first :=
    if negb (start =? -1) && negb (end_ =? -1)
    then Json.loads (slice text start (end_ + 1))
    else None in
  match first with
  | Some v => v
  | None =>
      match Json.loads text with
      | Some v => v
      | None => JNull
      end
  end.

Definition _generate_rest (w : World) (h : History) (model : string)
  : result Generated.t :=
  match api w ollama h with
  | Failure msg => Raise (Exception msg)
  | Completion output tokens =>
      Ok (Generated.mk "ollama" model output (_parse_json output) tokens None)
  end.

Definition _generate_cli (w : World) (h : History) (model : string)
  : result Generated.t :=
  match ollama_cli w h with
  | Failure msg => Raise (Exception msg)
  | Completion output _ =>
      Ok (Generated.mk "ollama" model output (_parse_json output) None None)
  end.

(** REST first; on any failure, the command line. *)
Definition generate (w : World) (h : History) (model : string)
  : result Generated.t :=
  let result :=
    match _generate_rest w h model with
    | Ok r => Ok r
    | Raise _ => _generate_cli w h model
    end in
  match result with
  | Ok r => Ok (Generated.set_latency r (elapsed_ms w h))
  | Raise e => Raise e
  end.

Definition list_models (w : World) (h : History) : result (list string) :=
  match models_api w ollama h with
  | Some names => Ok names
  | None => Ok []
  end.

End OllamaClient.

Module OpenAIClient.

(** The entire text first, then braces. *)
Definition _parse_json (text : string) : JSON :=
  match Json.loads text with
  | Some v => v
  | None =>
      let start := find "{" text in
      let end_ := rfind "}" text in
      let second :=
        if negb (start =? -1) && negb (end_ =? -1)
        then Json.loads (slice text start (end_ + 1))
        else None in
      match second with
      | Some v => v
      | None => JNull
      end
  end.

Definition generate (w : World) (h : History) (model : string)
  : result Generated.t :=
  match api w openai h with
  | Failure msg => Raise (Exception msg)
  | Completion output tokens =>
      Ok (Generated.mk "openai" model output (_parse_json output) tokens
            (Some (elapsed_ms w h)))
  end.

Definition list_models (w : World) (h : History) : result (list string) :=
  match models_api w openai h with
  | Some ids => Ok (filter (contains "gpt") ids)
  | None => Ok []
  end.

End OpenAIClient.

Module GeminiClient.

Definition _parse_json (text : string) : JSON :=
  match Json.loads text with
  | Some v => v
  | None =>
      let start := find "{" text in
      let end_ := rfind "}" text in
      let second :=
        if negb (start =? -1) && negb (end_ =? -1)
        then Json.loads (slice text start (end_ + 1))
        else None in
      match second with
      | Some v => v
      | None => JNull
      end
  end.

Definition generate (w : World) (h : History) (model : string)
  : result Generated.t :=
  match api w gemini h with
  | Failure msg => Raise (Exception msg)
  | Completion output tokens =>
      Ok (Generated.mk "gemini" model output (_parse_json output) tokens
            (Some (elapsed_ms w h)))
  end.

Definition list_models (w : World) (h : History) : result (list string) :=
  match models_api w gemini h with
  | Some names =>
      Ok (map (last_part "/")
            (filter (fun n => contains "gemini" (lower n)) names))
  | None => Ok []
  end.

End GeminiClient.

Module ClaudeClient.

Definition _parse_json (text : string) : JSON :=
  match Json.loads text with
  | Some v => v
  | None =>
      let start := find "{" text in
      let end_ := rfind "}" text in
      let second :=
        if negb (start =? -1) && negb (end_ =? -1)
        then Json.loads (slice text start (end_ + 1))
        else None in
      match second with
      | Some v => v
      | None => JNull
      end
  end.

Definition generate (w : World) (h : History) (model : string)
  : result Generated.t :=
  match api w claude h with
  | Failure msg => Raise (Exception msg)
  | Completion output tokens =>
      Ok (Generated.mk "claude" model output (_parse_json output) tokens
            (Some (elapsed_ms w h)))
  end.

(** The class defines no [list_models]: the attribute lookup raises. *)
Definition list_models (w : World) (h : History) : result (list string) :=
  Raise (AttributeError "'ClaudeClient' object has no attribute 'list_models'").

End ClaudeClient.

(** Dispatch on the adapter object held under a provider key. *)
Definition client_parse_json (p : Provider) : string -> JSON :=
  match p with
  | ollama => OllamaClient._parse_json
  | openai => OpenAIClient._parse_json
  | gemini => GeminiClient._parse_json
  | claude => ClaudeClient._parse_json
  end.

Definition client_generate (p : Provider) : World -> History -> string -> result Generated.t :=
  match p with
  | ollama => OllamaClient.generate
  | openai => OpenAIClient.generate
  | gemini => GeminiClient.generate
  | claude => ClaudeClient.generate
  end.

Definition client_list_models (p : Provider) : World -> History -> result (list string) :=
  match p with
  | ollama => OllamaClient.list_models
  | openai => OpenAIClient.list_models
  | gemini => GeminiClient.list_models
  | claude => ClaudeClient.list_models
  end.

(* ================================================================== *)
(** * [mcp_server/utils/config_loader.py]                              *)
(* ================================================================== *)

Module Config.
(** The fields the router reads. *)
Record t : Type := mk {
  ollama_url : string;
  openai_api_key : option string;
  gemini_api_key : option string;
  claude_api_key : option string;
  default_model : string;
  fallback_chain : list string;
  timeout_seconds : Z;
  max_retries : Z;
  retry_delay : Float
}.
End Config.

(* ================================================================== *)
(** * [mcp_server/router.py]                                           *)
(* ================================================================== *)

Module MCPRouter.

(** Truth value of a string and of an optional string. *)
Definition nonempty (s : string) : bool := negb (String.eqb s EmptyString).

Definition present (k : option string) : bool :=
  match k with Some s => nonempty s | None => false end.

(** [__init__]: the keys of [self.clients], in insertion order. *)
Definition clients (config : Config.t) : list Provider :=
  ((if nonempty (Config.ollama_url config) then [ollama] else []) ++
   (if present (Config.openai_api_key config) then [openai] else []) ++
   (if present (Config.gemini_api_key config) then [gemini] else []) ++
   (if present (Config.claude_api_key config) then [claude] else []))%list.

(** [self.clients.get(provider)]: the keys are the provider names. *)
Definition lookup_client (config : Config.t) (provider : string) : option Provider :=
  List.find (fun p => String.eqb (provider_name p) provider) (clients config).

(** [range(n)]. *)
Definition range (n : Z) : list Z := map Z.of_nat (seq 0 (Z.to_nat n)).

(** [repr] of a list of plain strings. *)
Definition repr_list (l : list string) : string :=
  "[" ++ join ", " (map (fun s => "'" ++ s ++ "'") l) ++ "]".

(** [str(models)] for the dictionary of model lists. *)
Definition str_models (models : list (string * list string)) : string :=
  "{" ++ join ", " (map (fun kv => "'" ++ fst kv ++ "': " ++ repr_list (snd kv)) models)
      ++ "}".

Definition _parse_model_string (model_string : string) : string * string :=
  if contains_char ":" model_string then
    let parts := split1 ":" model_string in
    (nth 0 parts EmptyString, nth 1 parts EmptyString)
  else
    ("openai", model_string).

(** The payload-to-action step of [_generate_with_retry].  On anything
    but a mapping the membership test or the keyword expansion raises
    [TypeError], which the enclosing [except Exception] swallows. *)
Definition parse_action (json : JSON)
  : option FusionAction.t * option ActionSequence.t :=
  if truthy json then
    match json with
    | JDict kw =>
        if dict_has kw "actions" then
          match ActionSequence.new kw with
          | Ok q => (None, Some q)
          | Raise _ => (None, None)
          end
        else if dict_has kw "action" then
          match FusionAction.new kw with
          | Ok a => (Some a, None)
          | Raise _ => (None, None)
          end
        else (None, None)
    | _ => (None, None)
    end
  else (None, None).

Section WithRouter.
Variable w : World.
Variable config : Config.t.

Section Generate.
Variables (provider model prompt : string) (system_prompt : option string).
Variables (temperature : Float) (max_tokens : option Z).

(** The response for a provider that is not a key of [clients]. *)
Definition not_available : result LLMResponse.t :=
  match LLMResponseMetadata.new provider model None None None with
  | Raise e => Raise e
  | Ok metadata =>
      Ok (LLMResponse.mk false provider model EmptyString None None [] None
            metadata
            (Some (LLMError.mk "provider_not_available"
                     ("Provider " ++ provider ++ " not configured")
                     provider 0 false)))
  end.

(** The response after the loop ran out. *)
Definition all_failed (last_error : option PyExc) : result LLMResponse.t :=
  match LLMResponseMetadata.new provider model None None None with
  | Raise e => Raise e
  | Ok metadata =>
      Ok (LLMResponse.mk false provider model EmptyString None None [] None
            metadata
            (Some (LLMError.mk "generation_failed"
                     (match last_error with
                      | Some e => str_exc e
                      | None => "None"
                      end)
                     provider (Config.max_retries config) true)))
  end.

(** The body of the [try] of one attempt. *)
Definition attempt_body (client : Provider) : M LLMResponse.t :=
  emit (EvGenerate client model prompt system_prompt temperature max_tokens) ;;;
  h <- history ;;
  result <- lift (client_generate client w h model) ;;
  let '(action, action_sequence) := parse_action (Generated.json result) in
  metadata <- lift (LLMResponseMetadata.new
                      (Generated.provider result) (Generated.model result)
                      (Generated.tokens_used result)
                      (Generated.latency_ms result) (Some temperature)) ;;
  ret (LLMResponse.mk true (Generated.provider result) (Generated.model result)
         (Generated.output result) action action_sequence [] None
         metadata None).

(** [for attempt in range(max_retries)]: [inl] is a [return] from
    inside the loop, [inr] is falling out of it. *)
Fixpoint attempts (client : Provider) (todo : list Z) (last_error : option PyExc)
  : M (LLMResponse.t + option PyExc) :=
  match todo with
  | [] => ret (inr last_error)
  | attempt :: rest =>
      try_except
        (r <- attempt_body client ;; ret (inl r))
        (fun e =>
           (if attempt <? Config.max_retries config - 1
            then emit (EvSleep (Config.retry_delay config))
            else ret tt) ;;;
           attempts client rest (Some e))
  end.

Definition _generate_with_retry : M LLMResponse.t :=
  match lookup_client config provider with
  | None => lift not_available
  | Some client =>
      out <- attempts client (range (Config.max_retries config)) None ;;
      match out with
      | inl r => ret r
      | inr last_error => lift (all_failed last_error)
      end
  end.
End Generate.

(** [for fallback in self.config.fallback_chain], entered with the
    failed primary response. *)
Fixpoint fallback_loop (prompt : string) (system_prompt : option string)
         (temperature : Float) (max_tokens : option Z)
         (chain : list string) (llm_response : LLMResponse.t)
  : M LLMResponse.t :=
  match chain with
  | [] => ret llm_response
  | fallback :: rest =>
      let '(fallback_provider, fallback_model) := _parse_model_string fallback in
      r <- _generate_with_retry fallback_provider fallback_model prompt
             system_prompt temperature max_tokens ;;
      if LLMResponse.success r then ret r
      else fallback_loop prompt system_prompt temperature max_tokens rest r
  end.

(** The actions an accepted response carries. *)
Definition actions_of (llm_response : LLMResponse.t) : list FusionAction.t :=
  match LLMResponse.action llm_response with
  | Some a => [a]
  | None =>
      match LLMResponse.action_sequence llm_response with
      | Some q => ActionSequence.actions q
      | None => []
      end
  end.

Definition context_prompt (context : option DesignContext.t) (prompt : string)
  : string :=
  match context with
  | Some c =>
      let context_str :=
        nl ++ "Design Context:" ++ nl
        ++ "- Active Component: " ++ DesignContext.active_component c ++ nl
        ++ "- Units: " ++ DesignContext.units c ++ nl
        ++ "- Design State: " ++ DesignContext.design_state c ++ nl in
      context_str ++ nl ++ prompt
  | None => prompt
  end.

Definition _handle_ask_model (command : MCPCommand.t) (system_prompt : option string)
  : M MCPResponse.t :=
  match MCPCommand.params command with
  | None =>
      ret (MCPResponse.mk MCPResponse.error None "Missing model parameters" [] [])
  | Some params =>
      let provider := provider_name (ModelParams.provider params) in
      let model := ModelParams.model params in
      let prompt := context_prompt (MCPCommand.context command)
                      (ModelParams.prompt params) in
      llm_response <- _generate_with_retry provider model prompt system_prompt
                        (ModelParams.temperature params)
                        (ModelParams.max_tokens params) ;;
      llm_response <-
        (if negb (LLMResponse.success llm_response)
            && match Config.fallback_chain config with [] => false | _ => true end
         then fallback_loop prompt system_prompt
                (ModelParams.temperature params) (ModelParams.max_tokens params)
                (Config.fallback_chain config) llm_response
         else ret llm_response) ;;
      if LLMResponse.success llm_response then
        let actions := actions_of llm_response in
        match actions with
        | _ :: _ =>
            ret (MCPResponse.mk MCPResponse.success (Some llm_response)
                   "Action generated successfully" actions [])
        | [] =>
            ret (MCPResponse.mk MCPResponse.clarification_needed (Some llm_response)
                   "Need clarification" actions [])
        end
      else
        ret (MCPResponse.mk MCPResponse.error (Some llm_response)
               ("All providers failed: "
                ++ match LLMResponse.error llm_response with
                   | Some e => LLMError.message e
                   | None => "Unknown error"
                   end)
               [] [])
  end.

(** [for provider, client in self.clients.items()]. *)
Fixpoint list_models_loop (items : list Provider)
         (models : list (string * list string))
  : M (list (string * list string)) :=
  match items with
  | [] => ret models
  | provider :: rest =>
      provider_models <-
        try_except
          (emit (EvListModels provider) ;;;
           h <- history ;;
           lift (client_list_models provider w h))
          (fun _ => ret []) ;;
      list_models_loop rest (models ++ [(provider_name provider, provider_models)])%list
  end.

Definition _handle_list_models : M MCPResponse.t :=
  models <- list_models_loop (clients config) [] ;;
  let raw_output := str_models models in
  metadata <- lift (LLMResponseMetadata.new "system" "list_models" None None None) ;;
  ret (MCPResponse.mk MCPResponse.success
         (Some (LLMResponse.mk true "system" "list_models" raw_output
                  None None [] None metadata None))
         "Models listed successfully" [] []).

Definition _handle_health_check : M MCPResponse.t :=
  let health := map (fun p => (provider_name p, "available")) (clients config) in
  ret (MCPResponse.mk MCPResponse.success None
         ("Healthy providers: " ++ repr_list (map fst health)) [] []).

Definition route_command (command : MCPCommand.t) (system_prompt : option string)
  : M MCPResponse.t :=
  match MCPCommand.command command with
  | MCPCommand.ask_model => _handle_ask_model command system_prompt
  | MCPCommand.list_models => _handle_list_models
  | MCPCommand.health_check => _handle_health_check
  | k =>
      ret (MCPResponse.mk MCPResponse.error None
             ("Unknown command: " ++ MCPCommand.kind_name k) [] [])
  end.

End WithRouter.

End MCPRouter.

(* ================================================================== *)
(** * Specification-side definitions                                   *)
(* ================================================================== *)

Module Spec.

(** The events of a provider that fails [n] times in a row: [n] calls
    with a pause between consecutive calls and none after the last. *)
Fixpoint failed_run (call pause : Event) (n : nat) : list Event :=
  match n with
  | O => []
  | S O => [call]
  | S n' => call :: pause :: failed_run call pause n'
  end.

Definition is_generate (ev : Event) : bool :=
  match ev with EvGenerate _ _ _ _ _ _ => true | _ => false end.

Definition is_sleep (ev : Event) : bool :=
  match ev with EvSleep _ => true | _ => false end.

Definition generate_calls (h : History) : nat := length (filter is_generate h).
Definition sleeps (h : History) : nat := length (filter is_sleep h).

(** The two stages of payload extraction. *)
Definition entire_text (text : string) : option JSON := Json.loads text.

Definition brace_substring (text : string) : option JSON :=
  if negb (find "{" text =? -1) && negb (rfind "}" text =? -1)
  then Json.loads (slice text (find "{" text) (rfind "}" text + 1))
  else None.

Definition or_absent (o : option JSON) : JSON :=
  match o with Some v => v | None => JNull end.

(** Extraction as the specification words it: the entire text, and
    only when that fails the brace substring. *)
Definition entire_then_braces (text : string) : JSON :=
  match entire_text text with
  | Some v => v
  | None => or_absent (brace_substring text)
  end.

(** The opposite order. *)
Definition braces_then_entire (text : string) : JSON :=
  match brace_substring text with
  | Some v => v
  | None => or_absent (entire_text text)
  end.


(** A walk down a fallback chain from history [h]: the history and the
    response it ends with.  It ends at the first entry that succeeds,
    or at the last entry. *)
Inductive Walk (run : string -> string -> M LLMResponse.t)
  : History -> list string -> History -> LLMResponse.t -> Prop :=
| walk_success entry rest h h' r :
    run (fst (MCPRouter._parse_model_string entry))
        (snd (MCPRouter._parse_model_string entry)) h = (Ok r, h') ->
    LLMResponse.success r = true ->
    Walk run h (entry :: rest) h' r
| walk_last entry h h' r :
    run (fst (MCPRouter._parse_model_string entry))
        (snd (MCPRouter._parse_model_string entry)) h = (Ok r, h') ->
    LLMResponse.success r = false ->
    Walk run h [entry] h' r
| walk_next entry next rest h h1 h' r r' :
    run (fst (MCPRouter._parse_model_string entry))
        (snd (MCPRouter._parse_model_string entry)) h = (Ok r, h1) ->
    LLMResponse.success r = false ->
    Walk run h1 (next :: rest) h' r' ->
    Walk run h (entry :: next :: rest) h' r'.

(** A chain entry whose provider part is one of the four names. *)
Definition well_formed_entry (entry : string) : Prop :=
  provider_of_name (fst (MCPRouter._parse_model_string entry)) <> None.

(** A scanner that, when it succeeds, leaves strictly less text. *)
Definition consumes {A} (f : string -> option (A * string)) : Prop :=
  forall s v r, f s = Some (v, r) -> (String.length r < String.length s)%nat.

End Spec.

(* ================================================================== *)
(** * Concrete worlds, configurations and commands                     *)
(* ================================================================== *)

Module Examples.

Definition one_second : Float := FDec false 1 0.
Definition warm : Float := FDec false 7 (-1).

(** The raw text
    [Sure: {"action": "create_box", "params": {"width": 20}} done]. *)
Definition box_text : string :=
  "Sure: {" ++ dq ++ "action" ++ dq ++ ": " ++ dq ++ "create_box" ++ dq ++ ", "
  ++ dq ++ "params" ++ dq ++ ": {" ++ dq ++ "width" ++ dq ++ ": 20}} done".

Definition box : FusionAction.t :=
  FusionAction.mk "create_box" [("width", JInt 20)] None [] [].

Definition hole : FusionAction.t :=
  FusionAction.mk "create_hole"
    [("diameter", JInt 5); ("position", JDict [("x", JInt 10); ("y", JInt 10)])]
    (Some "Add mounting hole") ["dimensions_positive"] ["create_box"].

(** Every hosted API is down; the local model answers with [box_text]. *)
Definition local_only : World :=
  {| api := fun p _ => match p with
                       | ollama => Completion box_text (Some 12)
                       | _ => Failure "connection refused"
                       end;
     ollama_cli := fun _ => Failure "Ollama CLI not found. Please install Ollama.";
     elapsed_ms := fun _ => FDec false 15 0;
     models_api := fun p _ => match p with
                              | openai => None
                              | _ => Some ["llama3"; "gpt-4o"]
                              end |}.

(** Nothing answers. *)
Definition all_down : World :=
  {| api := fun _ _ => Failure "connection refused";
     ollama_cli := fun _ => Failure "Ollama CLI not found. Please install Ollama.";
     elapsed_ms := fun _ => FDec false 15 0;
     models_api := fun _ _ => None |}.

(** The local model chats without any structured payload. *)
Definition chatty : World :=
  {| api := fun _ _ => Completion "What size should the box be?" None;
     ollama_cli := fun _ => Failure "unused";
     elapsed_ms := fun _ => FDec false 15 0;
     models_api := fun _ _ => None |}.

Definition config_with (chain : list string) : Config.t :=
  Config.mk "http://localhost:11434" (Some "sk-test") None None
            "openai:gpt-4o-mini" chain 30 3 one_second.

(** Only the local provider is configured. *)
Definition local_config (chain : list string) : Config.t :=
  Config.mk "http://localhost:11434" None None None
            "openai:gpt-4o-mini" chain 30 3 one_second.

(** The hosted Claude API answers with [box_text]; nothing else
    answers. *)
Definition claude_only : World :=
  {| api := fun p _ => match p with
                       | claude => Completion box_text (Some 40)
                       | _ => Failure "connection refused"
                       end;
     ollama_cli := fun _ => Failure "Ollama CLI not found. Please install Ollama.";
     elapsed_ms := fun _ => FDec false 15 0;
     models_api := fun _ _ => None |}.

(** Every provider is configured; two attempts per provider. *)
Definition full_config (chain : list string) : Config.t :=
  Config.mk "http://localhost:11434" (Some "sk-test") (Some "g-test") (Some "c-test")
            "openai:gpt-4o-mini" chain 30 2 one_second.

(** The raw text [{"action":"create_box","params":{"width":20}}]. *)
Definition json_text : string :=
  "{" ++ dq ++ "action" ++ dq ++ ":" ++ dq ++ "create_box" ++ dq ++ ","
  ++ dq ++ "params" ++ dq ++ ":{" ++ dq ++ "width" ++ dq ++ ":20}}".

(** The raw text
    [Here is the action: {"action": "create_box", "params": {"width": 20}} done]. *)
Definition embedded_text : string :=
  "Here is the action: {" ++ dq ++ "action" ++ dq ++ ": " ++ dq ++ "create_box" ++ dq
  ++ ", " ++ dq ++ "params" ++ dq ++ ": {" ++ dq ++ "width" ++ dq ++ ": 20}} done".

Definition ask (p : Provider) (model : string) : MCPCommand.t :=
  MCPCommand.mk MCPCommand.ask_model
    (Some (ModelParams.mk p model "Create a 20mm cube" warm (Some 2000)))
    None None [].

Definition ask_nothing : MCPCommand.t :=
  MCPCommand.mk MCPCommand.ask_model None None None [].

Definition list_them : MCPCommand.t :=
  MCPCommand.mk MCPCommand.list_models None None None [].

End Examples.

(* ================================================================== *)
(** * What the router is expected to produce                           *)
(* ================================================================== *)

Module Expected.

(** The response [_generate_with_retry] builds around what an adapter
    returned. *)
Definition accepted (temperature : Float) (client : Provider) (g : Generated.t)
  : LLMResponse.t :=
  LLMResponse.mk true (Generated.provider g) (Generated.model g) (Generated.output g)
    (fst (MCPRouter.parse_action (Generated.json g)))
    (snd (MCPRouter.parse_action (Generated.json g)))
    [] None
    (LLMResponseMetadata.mk client (Generated.model g) (Generated.tokens_used g)
       (Generated.latency_ms g) (Some temperature))
    None.

(** The response after every attempt failed. *)
Definition exhausted (config : Config.t) (client : Provider) (model message : string)
  : LLMResponse.t :=
  LLMResponse.mk false (provider_name client) model EmptyString None None [] None
    (LLMResponseMetadata.mk client model None None None)
    (Some (LLMError.mk "generation_failed" message (provider_name client)
             (Config.max_retries config) true)).

(** An event a single [ask_model] command may cause: a call to a
    configured adapter with the given request, or a pause of the
    configured delay. *)
Definition caused_by (config : Config.t) (prompt : string)
           (system_prompt : option string) (temperature : Float)
           (max_tokens : option Z) (ev : Event) : Prop :=
  match ev with
  | EvGenerate p _ prompt' system_prompt' temperature' max_tokens' =>
      In p (MCPRouter.clients config)
      /\ prompt' = prompt /\ system_prompt' = system_prompt
      /\ temperature' = temperature /\ max_tokens' = max_tokens
  | EvSleep seconds => seconds = Config.retry_delay config
  | EvListModels _ => False
  end.

End Expected.

(* ================================================================== *)
(** * More worlds and configurations                                   *)
(* ================================================================== *)

Module Scenes.

(** Every provider times out twice and answers with [box_text] from the
    third call on. *)
Definition flaky : World :=
  {| api := fun _ h => if (Spec.generate_calls h <? 3)%nat
                       then Failure "timeout"
                       else Completion Examples.box_text (Some 12);
     ollama_cli := fun _ => Failure "Ollama CLI not found. Please install Ollama.";
     elapsed_ms := fun _ => FDec false 15 0;
     models_api := fun _ _ => None |}.

(** A configuration that allows no attempt at all. *)
Definition no_retries : Config.t :=
  Config.mk "http://localhost:11434" (Some "sk-test") None None
            "openai:gpt-4o-mini" [] 30 0 Examples.one_second.

End Scenes.


(* ================================================================== *)
(** * Reading from the left                                            *)
(* ================================================================== *)

(** Vocabulary for the proofs about [json.loads] on a text with trailing
    characters, and the pieces of the scanning functions those proofs
    reason about. *)

Module Locality.

(** Cutting the text anywhere in what [f] leaves unread changes neither
    the value nor what is consumed. *)
Definition cuttable {A} (f : string -> option (A * string)) : Prop :=
  forall s v r, f s = Some (v, r) ->
    exists a, s = a ++ r /\ forall t w, r = t ++ w -> f (a ++ t) = Some (v, t).

(** A text that [f] matches is matched in every extension. *)
Definition extends {A} (f : string -> option A) : Prop :=
  forall x w, f x <> None -> f (x ++ w) <> None.

(** [match_int] after its sign. *)
Definition uint (s : string) : option (N * string) :=
  match s with
  | String c r =>
      match digit_val c with
      | Some 0%N => Some (0%N, r)
      | Some d => Some (fst (fst (digits r d 1)), snd (digits r d 1))
      | None => None
      end
  | EmptyString => None
  end.

Definition signed (neg : bool) (x : option (N * string)) : option (bool * N * string) :=
  match x with Some (n, r) => Some (neg, n, r) | None => None end.

(** The sign of an exponent. *)
Definition exp_sign (r : string) : bool * string :=
  match r with
  | String c r1 =>
      if Ascii.eqb c "-" then (true, r1)
      else if Ascii.eqb c "+" then (false, r1)
      else (false, r)
  | EmptyString => (false, r)
  end.

(** One alternative of [literal], and the choice between two. *)
Definition lit (p : string) (v : JSON) (s : string) : option (JSON * string) :=
  match strip_prefix p s with Some r => Some (v, r) | None => None end.

Definition orelse {A} (f g : string -> option A) (s : string) : option A :=
  match f s with Some x => Some x | None => g s end.

End Locality.

(* ================================================================== *)
(** * The shape of a response                                          *)
(* ================================================================== *)

Module Shape.

(** What [schema/llm_response.py] says in words about a response, and
    what a failed one looks like: the metadata repeats the provider and
    the model, at most one of [action] and [action_sequence] is present,
    and [error] is present exactly on a failure, which carries no raw
    output and no action. *)
Definition coherent (config : Config.t) (r : LLMResponse.t) : Prop :=
  provider_name (LLMResponseMetadata.provider (LLMResponse.metadata r))
  = LLMResponse.provider r
  /\ LLMResponseMetadata.model (LLMResponse.metadata r) = LLMResponse.model r
  /\ (LLMResponse.action r = None \/ LLMResponse.action_sequence r = None)
  /\ if LLMResponse.success r then LLMResponse.error r = None
     else
       LLMResponse.raw_output r = EmptyString
       /\ LLMResponse.action r = None
       /\ LLMResponse.action_sequence r = None
       /\ exists e,
           LLMResponse.error r = Some e
           /\ LLMError.provider e = LLMResponse.provider r
           /\ ((LLMError.type e = "provider_not_available"
                /\ LLMError.recoverable e = false
                /\ LLMError.message e
                   = "Provider " ++ LLMResponse.provider r ++ " not configured")
               \/ (LLMError.type e = "generation_failed"
                   /\ LLMError.recoverable e = true
                   /\ LLMError.retry_count e = Config.max_retries config)).

End Shape.

(* ================================================================== *)
(** * What validation accepts                                          *)
(* ================================================================== *)

Module Accepts.

(** An [Optional[str] = None] field: absent or null gives [None]; a
    string gives itself; nothing else is accepted. *)
Definition optional_string (given : option JSON) (got : option string) : Prop :=
  match given with
  | None | Some JNull => got = None
  | Some (JStr s) => got = Some s
  | Some _ => False
  end.

(** A [List[str]] field with an empty default: absent gives the empty
    list; a list of strings gives itself; nothing else is accepted, null
    included. *)
Definition strings (given : option JSON) (got : list string) : Prop :=
  match given with
  | None => got = []
  | Some (JList vs) => vs = map JStr got
  | Some _ => False
  end.

End Accepts.

(* ================================================================== *)
(** * [server.py]: the command endpoint                                *)
(* ================================================================== *)

(** The endpoint [POST /mcp/command].  The context cache is a
    collaborator: the endpoint calls two of its methods and only cares
    whether a call returns or raises.  The calls are recorded, and the
    cache decides, from the calls made so far, whether the last one
    raises. *)

Module Server.

Inductive CacheCall : Type :=
| SaveConversation (user_input llm_response provider model : string)
| SaveDesignState (context : JSON).

Record Cache : Type := {
  raises : list CacheCall -> option PyExc
}.

(** The module globals, as [lifespan] leaves them; all of them are
    [None] before it has run. *)
Record Globals : Type := {
  router : option Config.t;
  cache : option Cache;
  system_prompt : option string
}.

(** What the endpoint answers: a body, or [HTTPException]. *)
Inductive Http (A : Type) : Type :=
| Returns (body : A)
| HTTPException (status_code : Z) (detail : string).
Arguments Returns {A} body.
Arguments HTTPException {A} status_code detail.

(** [command.context.model_dump()]. *)
Definition dump_context (c : DesignContext.t) : JSON :=
  JDict [ ("active_component", JStr (DesignContext.active_component c));
          ("units", JStr (DesignContext.units c));
          ("design_state", JStr (DesignContext.design_state c));
          ("active_sketch", FusionAction.dump_opt_str (DesignContext.active_sketch c));
          ("material", FusionAction.dump_opt_str (DesignContext.material c));
          ("parameters", JDict (DesignContext.parameters c));
          ("geometry_count",
           JDict (map (fun kv => (fst kv, JInt (snd kv)))
                    (DesignContext.geometry_count c))) ].

(** One call of a cache method. *)
Definition call (c : Cache) (x : CacheCall) (calls : list CacheCall)
  : result unit * list CacheCall :=
  match raises c (calls ++ [x])%list with
  | Some e => (Raise e, (calls ++ [x])%list)
  | None => (Ok tt, (calls ++ [x])%list)
  end.

(** [if cache and command.command == "ask_model" and response.llm_response]. *)
Definition conversation (command : MCPCommand.t) (response : MCPResponse.t)
  : option CacheCall :=
  match MCPCommand.command command, MCPResponse.llm_response response with
  | MCPCommand.ask_model, Some r =>
      Some (SaveConversation
              (match MCPCommand.params command with
               | Some p => ModelParams.prompt p
               | None => EmptyString
               end)
              (LLMResponse.raw_output r) (LLMResponse.provider r) (LLMResponse.model r))
  | _, _ => None
  end.

(** The two cache steps that follow routing. *)
Definition after_routing (c : Cache) (command : MCPCommand.t) (response : MCPResponse.t)
           (calls : list CacheCall) : result unit * list CacheCall :=
  let '(saved, calls1) :=
    match conversation command response with
    | Some x => call c x calls
    | None => (Ok tt, calls)
    end in
  match saved with
  | Raise e => (Raise e, calls1)
  | Ok _ =>
      match MCPCommand.context command with
      | Some context => call c (SaveDesignState (dump_context context)) calls1
      | None => (Ok tt, calls1)
      end
  end.

(** [execute_command(command)]: the body of the [try], with every
    exception turned into [HTTPException(500, str(e))]. *)
Definition execute_command (w : World) (g : Globals) (command : MCPCommand.t)
           (h : History) (calls : list CacheCall)
  : Http MCPResponse.t * History * list CacheCall :=
  match router g with
  | None =>
      (HTTPException 500
         (str_exc (AttributeError "'NoneType' object has no attribute 'route_command'")),
       h, calls)
  | Some config =>
      match MCPRouter.route_command w config command (system_prompt g) h with
      | (Raise e, h') => (HTTPException 500 (str_exc e), h', calls)
      | (Ok response, h') =>
          match cache g with
          | None => (Returns response, h', calls)
          | Some c =>
              match after_routing c command response calls with
              | (Raise e, calls') => (HTTPException 500 (str_exc e), h', calls')
              | (Ok _, calls') => (Returns response, h', calls')
              end
          end
      end
  end.

End Server.

Module ServerScenes.

(** A cache that never raises, and one whose every write raises. *)
Definition sound_cache : Server.Cache := {| Server.raises := fun _ => None |}.
Definition broken_cache : Server.Cache :=
  {| Server.raises := fun _ => Some (Exception "disk full") |}.

Definition globals (config : Config.t) (c : option Server.Cache) : Server.Globals :=
  {| Server.router := Some config; Server.cache := c;
     Server.system_prompt := Some "You are FusionMCP, a parametric CAD design assistant." |}.

Definition context : DesignContext.t :=
  DesignContext.mk "RootComponent" "mm" "empty" None None [] [].

(** [ask_model] with a design context. *)
Definition ask_in_context : MCPCommand.t :=
  MCPCommand.mk MCPCommand.ask_model
    (Some (ModelParams.mk ollama "llama3" "Create a 20mm cube" Examples.warm (Some 2000)))
    (Some context) None [].

End ServerScenes.

(* ================================================================== *)
(** * Which providers are configured                                   *)
(* ================================================================== *)

Module Configured.

(** A provider has a client when its URL or key is given and is not
    the empty string. *)
Definition given (config : Config.t) (p : Provider) : Prop :=
  match p with
  | ollama => Config.ollama_url config <> EmptyString
  | openai => exists k, Config.openai_api_key config = Some k /\ k <> EmptyString
  | gemini => exists k, Config.gemini_api_key config = Some k /\ k <> EmptyString
  | claude => exists k, Config.claude_api_key config = Some k /\ k <> EmptyString
  end.

(** Position of a provider in the order the constructor fills
    [self.clients]. *)
Definition rank (p : Provider) : nat :=
  match p with ollama => 0 | openai => 1 | gemini => 2 | claude => 3 end.

End Configured.
(* ================================================================== *)
(** * Properties                                                       *)
(* ================================================================== *)

(** ** Strings *)

Lemma split1_contains (c : ascii) (s : string) :
  contains_char c s = true ->
  exists p m, split1 c s = [p; m] /\ s = p ++ String c m /\ contains_char c p = false.
Proof.
  induction s as [|a r IH]; simpl; [discriminate|].
  destruct (Ascii.eqb_spec a c) as [->|Hne]; simpl.
  - intros _. exists EmptyString, r. repeat split.
  - intros Hr. destruct (IH Hr) as (p & m & Hs & Heq & Hp).
    rewrite Hs. exists (String a p), m. simpl.
    rewrite Hp, <- Heq.
    destruct (Ascii.eqb_spec a c); [contradiction|]. repeat split.
Qed.

(** C7. [_parse_model_string] splits an entry at its first colon into a
    provider identifier (which therefore holds no colon) and a model name;
    an entry without a colon is the model name of provider [openai]. *)
Theorem parse_model_string_spec (entry : string) :
  (contains_char ":" entry = true ->
   exists provider model,
     MCPRouter._parse_model_string entry = (provider, model)
     /\ entry = provider ++ ":" ++ model
     /\ contains_char ":" provider = false)
  /\ (contains_char ":" entry = false ->
      MCPRouter._parse_model_string entry = ("openai", entry)).
Proof.
  unfold MCPRouter._parse_model_string. split; intros H; rewrite H.
  - destruct (split1_contains _ _ H) as (p & m & Hs & Heq & Hp).
    exists p, m. rewrite Hs. simpl. auto.
  - reflexivity.
Qed.

Lemma parse_model_string_spec_witness :
  (exists provider model,
     MCPRouter._parse_model_string "ollama:llama3:8b" = (provider, model)
     /\ "ollama:llama3:8b" = provider ++ ":" ++ model
     /\ contains_char ":" provider = false)
  /\ MCPRouter._parse_model_string "gpt-4o-mini" = ("openai", "gpt-4o-mini").
Proof.
  split.
  - apply (proj1 (parse_model_string_spec "ollama:llama3:8b")). reflexivity.
  - apply (proj2 (parse_model_string_spec "gpt-4o-mini")). reflexivity.
Defined.

(** ** The table of adapters *)

Lemma provider_name_inj (p q : Provider) :
  provider_name p = provider_name q -> p = q.
Proof. destruct p, q; simpl; congruence. Qed.

Lemma provider_of_name_name (p : Provider) :
  provider_of_name (provider_name p) = Some p.
Proof. destruct p; reflexivity. Qed.

Lemma provider_of_name_Some (s : string) (p : Provider) :
  provider_of_name s = Some p -> provider_name p = s.
Proof.
  unfold provider_of_name.
  repeat match goal with
         | |- context [String.eqb s ?x] => destruct (String.eqb_spec s x); [subst|]
         end; intros H; inversion H; reflexivity.
Qed.

Lemma lookup_client_Some (config : Config.t) (s : string) (p : Provider) :
  MCPRouter.lookup_client config s = Some p ->
  In p (MCPRouter.clients config) /\ provider_name p = s.
Proof.
  unfold MCPRouter.lookup_client. intros H.
  apply find_some in H. destruct H as [Hin Heq].
  split; [assumption|]. now apply String.eqb_eq.
Qed.

Lemma lookup_client_configured (config : Config.t) (p : Provider) :
  In p (MCPRouter.clients config) ->
  MCPRouter.lookup_client config (provider_name p) = Some p.
Proof.
  intros Hin.
  destruct (MCPRouter.lookup_client config (provider_name p)) as [q|] eqn:E.
  - apply lookup_client_Some in E. destruct E as [_ E].
    now rewrite (provider_name_inj _ _ E).
  - unfold MCPRouter.lookup_client in E.
    pose proof (find_none _ _ E p Hin) as H. simpl in H.
    now rewrite String.eqb_refl in H.
Qed.

Lemma lookup_client_unconfigured (config : Config.t) (p : Provider) :
  ~ In p (MCPRouter.clients config) ->
  MCPRouter.lookup_client config (provider_name p) = None.
Proof.
  intros Hnot.
  destruct (MCPRouter.lookup_client config (provider_name p)) as [q|] eqn:E;
    [|reflexivity].
  apply lookup_client_Some in E. destruct E as [Hin E].
  apply provider_name_inj in E. subst q. contradiction.
Qed.

(** ** Missing parameters *)

(** C10. An [ask_model] command without model parameters is answered by
    the router itself: an error envelope with the message
    [Missing model parameters] and no actions, no adapter call (the
    history is unchanged) and no exception. *)
Theorem ask_model_missing_params
        (w : World) (config : Config.t) (command : MCPCommand.t)
        (system_prompt : option string) (h : History) :
  MCPCommand.command command = MCPCommand.ask_model ->
  MCPCommand.params command = None ->
  MCPRouter.route_command w config command system_prompt h
  = (Ok (MCPResponse.mk MCPResponse.error None "Missing model parameters" [] []), h).
Proof.
  intros Hk Hp. unfold MCPRouter.route_command, MCPRouter._handle_ask_model.
  rewrite Hk, Hp. reflexivity.
Qed.

Lemma ask_model_missing_params_witness :
  MCPRouter.route_command Examples.local_only (Examples.config_with [])
                           Examples.ask_nothing None []
  = (Ok (MCPResponse.mk MCPResponse.error None "Missing model parameters" [] []), []).
Proof.
  apply (ask_model_missing_params Examples.local_only (Examples.config_with [])
           Examples.ask_nothing None []); reflexivity.
Defined.

(** ** An unconfigured provider *)

Lemma generate_unconfigured
      (w : World) (config : Config.t) (p : Provider) (model prompt : string)
      (system_prompt : option string) (temperature : Float) (max_tokens : option Z)
      (h : History) :
  ~ In p (MCPRouter.clients config) ->
  MCPRouter._generate_with_retry w config (provider_name p) model prompt
    system_prompt temperature max_tokens h
  = (Ok (LLMResponse.mk false (provider_name p) model EmptyString None None [] None
           (LLMResponseMetadata.mk p model None None None)
           (Some (LLMError.mk "provider_not_available"
                    ("Provider " ++ provider_name p ++ " not configured")
                    (provider_name p) 0 false))), h).
Proof.
  intros Hnot. unfold MCPRouter._generate_with_retry.
  rewrite (lookup_client_unconfigured _ _ Hnot).
  unfold lift, MCPRouter.not_available, LLMResponseMetadata.new.
  now rewrite provider_of_name_name.
Qed.

(** C4. When the provider a command asks for is not among the configured
    adapters, [_generate_with_retry] returns at once a failed response of
    kind [provider_not_available], not recoverable, without any adapter
    call (the history is unchanged); with an empty fallback chain the
    envelope of [route_command] has status [error] and carries that
    response. *)
Theorem unconfigured_provider
        (w : World) (config : Config.t) (command : MCPCommand.t)
        (params : ModelParams.t) (system_prompt : option string) (h : History) :
  MCPCommand.command command = MCPCommand.ask_model ->
  MCPCommand.params command = Some params ->
  ~ In (ModelParams.provider params) (MCPRouter.clients config) ->
  exists r e,
    MCPRouter._generate_with_retry w config
      (provider_name (ModelParams.provider params)) (ModelParams.model params)
      (MCPRouter.context_prompt (MCPCommand.context command) (ModelParams.prompt params))
      system_prompt (ModelParams.temperature params) (ModelParams.max_tokens params) h
    = (Ok r, h)
    /\ LLMResponse.success r = false
    /\ LLMResponse.error r = Some e
    /\ LLMError.type e = "provider_not_available"
    /\ LLMError.recoverable e = false
    /\ (Config.fallback_chain config = [] ->
        exists envelope,
          MCPRouter.route_command w config command system_prompt h = (Ok envelope, h)
          /\ MCPResponse.status envelope = MCPResponse.error
          /\ MCPResponse.llm_response envelope = Some r
          /\ MCPResponse.actions_to_execute envelope = []).
Proof.
  intros Hk Hp Hnot.
  eexists. eexists. split; [apply (generate_unconfigured _ _ _ _ _ _ _ _ _ Hnot)|].
  simpl. repeat split.
  intros Hchain. eexists.
  unfold MCPRouter.route_command, MCPRouter._handle_ask_model.
  rewrite Hk, Hp. unfold bind at 1.
  rewrite (generate_unconfigured _ _ _ _ _ _ _ _ _ Hnot).
  rewrite Hchain. simpl. unfold bind, ret. simpl. repeat split.
Qed.

Lemma unconfigured_provider_witness :
  exists r e,
    MCPRouter._generate_with_retry Examples.local_only (Examples.local_config [])
      "openai" "gpt-4o-mini" "Create a 20mm cube" None Examples.warm (Some 2000) []
    = (Ok r, [])
    /\ LLMResponse.success r = false
    /\ LLMResponse.error r = Some e
    /\ LLMError.type e = "provider_not_available"
    /\ LLMError.recoverable e = false
    /\ (Config.fallback_chain (Examples.local_config []) = [] ->
        exists envelope,
          MCPRouter.route_command Examples.local_only (Examples.local_config [])
            (Examples.ask openai "gpt-4o-mini") None [] = (Ok envelope, [])
          /\ MCPResponse.status envelope = MCPResponse.error
          /\ MCPResponse.llm_response envelope = Some r
          /\ MCPResponse.actions_to_execute envelope = []).
Proof.
  apply (unconfigured_provider Examples.local_only (Examples.local_config [])
           (Examples.ask openai "gpt-4o-mini")
           (ModelParams.mk openai "gpt-4o-mini" "Create a 20mm cube"
              Examples.warm (Some 2000))
           None []).
  - reflexivity.
  - reflexivity.
  - simpl. intros [H|[]]. discriminate H.
Defined.

(** ** Retry *)

#[local] Open Scope list_scope.

Lemma failed_run_calls (call pause : Event) (n : nat) :
  Spec.is_generate call = true -> Spec.is_sleep call = false ->
  Spec.is_generate pause = false -> Spec.is_sleep pause = true ->
  Spec.generate_calls (Spec.failed_run call pause n) = n
  /\ Spec.sleeps (Spec.failed_run call pause n) = (n - 1)%nat
  /\ (n <> O -> last (Spec.failed_run call pause n) pause = call).
Proof.
  intros Hc1 Hc2 Hp1 Hp2. unfold Spec.generate_calls, Spec.sleeps.
  induction n as [|n IH]; [simpl; intuition congruence|].
  destruct n as [|n].
  - simpl. rewrite Hc1, Hc2. simpl. auto.
  - destruct IH as (IH1 & IH2 & IH3).
    change (Spec.failed_run call pause (S (S n)))
      with (call :: pause :: Spec.failed_run call pause (S n)).
    cbn [filter]. rewrite Hc1, Hc2, Hp1, Hp2. cbn [length].
    rewrite IH1, IH2. repeat split; [lia|].
    intros _. specialize (IH3 ltac:(discriminate)).
    destruct (Spec.failed_run call pause (S n)) eqn:E; [discriminate|].
    exact IH3.
Qed.

Section RetryLoop.
Variables (w : World) (config : Config.t) (client : Provider).
Variables (model prompt : string) (system_prompt : option string).
Variables (temperature : Float) (max_tokens : option Z).

Let call : Event :=
  EvGenerate client model prompt system_prompt temperature max_tokens.
Let pause : Event := EvSleep (Config.retry_delay config).

Lemma attempt_body_raises (h : History) (e : PyExc) :
  client_generate client w (h ++ [call]) model = Raise e ->
  MCPRouter.attempt_body w model prompt system_prompt temperature max_tokens client h
  = (Raise e, (h ++ [call])%list).
Proof.
  intros H. unfold MCPRouter.attempt_body, bind, emit, history, lift.
  fold call. now rewrite H.
Qed.

(** A run of attempts that all raise: the loop falls through with the
    last exception, after one call per attempt and a pause after every
    attempt but the one numbered [max_retries - 1]. *)
Lemma attempts_all_raise (n : nat) :
  forall (k : nat) (last_error : option PyExc) (h : History),
    Z.of_nat (k + n) = Config.max_retries config ->
    (forall suffix, exists e,
          client_generate client w (h ++ suffix) model = Raise e) ->
    exists last_error',
      MCPRouter.attempts w config model prompt system_prompt temperature max_tokens
        client (map Z.of_nat (seq k n)) last_error h
      = (Ok (inr last_error'), (h ++ Spec.failed_run call pause n)%list)
      /\ (n = O -> last_error' = last_error)
      /\ (n <> O ->
          exists e,
            client_generate client w (h ++ Spec.failed_run call pause n) model
            = Raise e
            /\ last_error' = Some e).
Proof.
  induction n as [|n IH]; intros k last_error h Hk Hraise.
  - exists last_error. simpl. rewrite app_nil_r. intuition congruence.
  - destruct (Hraise [call]) as [e He].
    cbn [seq map MCPRouter.attempts]. unfold try_except, bind at 1.
    rewrite (attempt_body_raises h e He).
    destruct n as [|n].
    + (* the final attempt: no pause *)
      assert (Hlt : (Z.of_nat k <? Config.max_retries config - 1) = false)
        by (apply Z.ltb_ge; lia).
      rewrite Hlt. exists (Some e). simpl. unfold bind, ret. simpl.
      split; [reflexivity|]. split; [discriminate|].
      intros _. exists e. auto.
    + assert (Hlt : (Z.of_nat k <? Config.max_retries config - 1) = true)
        by (apply Z.ltb_lt; lia).
      rewrite Hlt. unfold bind at 1, emit. fold pause.
      destruct (IH (S k) (Some e) ((h ++ [call]) ++ [pause])%list) as (l' & Hrun & _ & Hl').
      * rewrite <- Hk. f_equal. lia.
      * intros suffix. rewrite <- !app_assoc. apply Hraise.
      * exists l'. rewrite Hrun.
        change (Spec.failed_run call pause (S (S n)))
          with (call :: pause :: Spec.failed_run call pause (S n)).
        rewrite <- !app_assoc. simpl.
        split; [reflexivity|]. split; [discriminate|].
        intros _. destruct (Hl' ltac:(discriminate)) as (e' & He' & ->).
        exists e'. rewrite <- !app_assoc in He'. simpl in He'. auto.
Qed.
End RetryLoop.

(** C2. With a retry count [N >= 1] and a configured adapter whose
    [generate] raises at every call, [_generate_with_retry] calls the
    adapter exactly [N] times, sleeps for the configured delay between
    consecutive calls and not after the last one, and returns a failed
    response of kind [generation_failed], recoverable, with retry count
    [N] and, as message, the text of the exception the last call raised. *)
Theorem retry_exhausted
        (w : World) (config : Config.t) (client : Provider)
        (model prompt : string) (system_prompt : option string)
        (temperature : Float) (max_tokens : option Z) (h : History) :
  1 <= Config.max_retries config ->
  In client (MCPRouter.clients config) ->
  (forall suffix, exists e, client_generate client w (h ++ suffix) model = Raise e) ->
  let call := EvGenerate client model prompt system_prompt temperature max_tokens in
  let pause := EvSleep (Config.retry_delay config) in
  let events := Spec.failed_run call pause (Z.to_nat (Config.max_retries config)) in
  exists r e_last,
    MCPRouter._generate_with_retry w config (provider_name client) model prompt
      system_prompt temperature max_tokens h
    = (Ok r, (h ++ events)%list)
    /\ Z.of_nat (Spec.generate_calls events) = Config.max_retries config
    /\ Z.of_nat (Spec.sleeps events) = Config.max_retries config - 1
    /\ last events pause = call
    /\ client_generate client w (h ++ events) model = Raise e_last
    /\ LLMResponse.success r = false
    /\ LLMResponse.error r
       = Some (LLMError.mk "generation_failed" (str_exc e_last)
                 (provider_name client) (Config.max_retries config) true).
Proof.
  intros HN Hin Hraise call pause events.
  destruct (attempts_all_raise w config client model prompt system_prompt
              temperature max_tokens (Z.to_nat (Config.max_retries config))
              O None h ltac:(simpl; lia) Hraise)
    as (l' & Hrun & _ & Hl').
  destruct Hl' as (e & He & ->); [lia|].
  destruct (failed_run_calls call pause (Z.to_nat (Config.max_retries config)))
    as (Hc & Hs & Hlast); try reflexivity.
  eexists. exists e.
  unfold MCPRouter._generate_with_retry.
  rewrite (lookup_client_configured _ _ Hin).
  unfold bind at 1. unfold MCPRouter.range. rewrite Hrun.
  unfold lift, MCPRouter.all_failed, LLMResponseMetadata.new.
  rewrite provider_of_name_name.
  split; [reflexivity|]. unfold events. rewrite Hc, Hs.
  repeat split; try lia; try assumption.
  apply Hlast. lia.
Qed.

Lemma retry_exhausted_witness :
  exists r,
    MCPRouter._generate_with_retry Examples.all_down (Examples.config_with [])
      "openai" "gpt-4o-mini" "Create a 20mm cube" None Examples.warm (Some 2000) []
    = (Ok r,
       [ EvGenerate openai "gpt-4o-mini" "Create a 20mm cube" None Examples.warm (Some 2000);
         EvSleep Examples.one_second;
         EvGenerate openai "gpt-4o-mini" "Create a 20mm cube" None Examples.warm (Some 2000);
         EvSleep Examples.one_second;
         EvGenerate openai "gpt-4o-mini" "Create a 20mm cube" None Examples.warm (Some 2000) ])
    /\ LLMResponse.error r
       = Some (LLMError.mk "generation_failed" "connection refused" "openai" 3 true).
Proof.
  destruct (retry_exhausted Examples.all_down (Examples.config_with []) openai
              "gpt-4o-mini" "Create a 20mm cube" None Examples.warm (Some 2000) [])
    as (r & e & Hrun & _ & _ & _ & He & _ & Herr).
  - simpl. lia.
  - simpl. auto.
  - intros suffix. eexists. reflexivity.
  - exists r. split; [exact Hrun|].
    rewrite Herr. simpl in He. inversion He. reflexivity.
Defined.

(** ** Status of the envelope *)

(** C6. In the envelope [route_command] returns for an [ask_model]
    command, the status is [error] when the response it carries failed,
    [clarification_needed] when the response succeeded and yields no
    action, [success] when it succeeded and yields at least one action;
    and the list of actions to execute is non-empty exactly under status
    [success]. *)
Theorem envelope_status
        (w : World) (config : Config.t) (command : MCPCommand.t)
        (system_prompt : option string) (h h' : History) (envelope : MCPResponse.t) :
  MCPCommand.command command = MCPCommand.ask_model ->
  MCPRouter.route_command w config command system_prompt h = (Ok envelope, h') ->
  (MCPResponse.status envelope = MCPResponse.success
   <-> MCPResponse.actions_to_execute envelope <> [])
  /\ match MCPResponse.llm_response envelope with
     | Some r =>
         (LLMResponse.success r = false ->
          MCPResponse.status envelope = MCPResponse.error)
         /\ (LLMResponse.success r = true -> MCPRouter.actions_of r = [] ->
             MCPResponse.status envelope = MCPResponse.clarification_needed)
         /\ (LLMResponse.success r = true -> MCPRouter.actions_of r <> [] ->
             MCPResponse.status envelope = MCPResponse.success
             /\ MCPResponse.actions_to_execute envelope = MCPRouter.actions_of r)
     | None => MCPResponse.status envelope = MCPResponse.error
     end.
Proof.
  intros Hk. unfold MCPRouter.route_command. rewrite Hk.
  unfold MCPRouter._handle_ask_model.
  destruct (MCPCommand.params command) as [params|].
  2:{ unfold ret. intros H. inversion H. simpl. intuition congruence. }
  unfold bind at 1.
  destruct (MCPRouter._generate_with_retry _ _ _ _ _ _ _ _ h) as [[r|e] h1];
    [|discriminate].
  unfold bind at 1.
  match goal with
  | |- context [(if ?c then ?a else ?b) h1] =>
      destruct ((if c then a else b) h1) as [[r2|e2] h2]; [|discriminate]
  end.
  destruct (LLMResponse.success r2) eqn:Hs.
  - destruct (MCPRouter.actions_of r2) as [|a l] eqn:Ha;
      unfold ret; intros H; inversion H; subst; simpl; rewrite Hs, Ha;
      intuition congruence.
  - unfold ret. intros H. inversion H. subst. simpl. rewrite Hs.
    intuition congruence.
Qed.

Lemma envelope_status_witness :
  exists envelope h',
    MCPRouter.route_command Examples.local_only
      (Examples.config_with ["ollama:llama3"]) (Examples.ask openai "gpt-4o-mini") None []
    = (Ok envelope, h')
    /\ MCPResponse.status envelope = MCPResponse.success
    /\ MCPResponse.actions_to_execute envelope = [Examples.box]
    /\ (MCPResponse.status envelope = MCPResponse.success
        <-> MCPResponse.actions_to_execute envelope <> []).
Proof.
  eexists. eexists. split; [vm_compute; reflexivity|].
  split; [reflexivity|]. split; [reflexivity|].
  eapply (envelope_status Examples.local_only
            (Examples.config_with ["ollama:llama3"])
            (Examples.ask openai "gpt-4o-mini") None []);
    [reflexivity | vm_compute; reflexivity].
Defined.

(** ** Exceptions that escape, and those that cannot *)

(** An adapter signs its result with its own name and the model asked. *)
Lemma client_generate_signs (client : Provider) (w : World) (h : History)
      (model : string) (g : Generated.t) :
  client_generate client w h model = Ok g ->
  Generated.provider g = provider_name client /\ Generated.model g = model.
Proof.
  destruct client; simpl.
  - unfold OllamaClient.generate, OllamaClient._generate_rest, OllamaClient._generate_cli.
    destruct (api w ollama h); [destruct (ollama_cli w h)|];
      intros H; inversion H; split; reflexivity.
  - unfold OpenAIClient.generate.
    destruct (api w openai h); intros H; inversion H; split; reflexivity.
  - unfold GeminiClient.generate.
    destruct (api w gemini h); intros H; inversion H; split; reflexivity.
  - unfold ClaudeClient.generate.
    destruct (api w claude h); intros H; inversion H; split; reflexivity.
Qed.

Section Totality.
Variables (w : World) (config : Config.t).
Variables (prompt : string) (system_prompt : option string).
Variables (temperature : Float) (max_tokens : option Z).

(** The retry loop itself never raises: every exception of an attempt
    is caught. *)
Lemma attempts_total (model : string) (client : Provider) (todo : list Z) :
  forall (last_error : option PyExc) (h : History),
  exists out h',
    MCPRouter.attempts w config model prompt system_prompt temperature max_tokens
      client todo last_error h = (Ok out, h').
Proof.
  induction todo as [|attempt rest IH]; intros last_error h.
  - eexists. eexists. reflexivity.
  - cbn [MCPRouter.attempts]. unfold try_except.
    destruct (bind _ _ h) as [[r|e] h1].
    + eexists. eexists. reflexivity.
    + unfold bind at 1.
      destruct (attempt <? Config.max_retries config - 1); unfold emit, ret; apply IH.
Qed.

(** With a provider name that is one of the four, [_generate_with_retry]
    returns a response. *)
Lemma generate_with_retry_total (provider model : string) (h : History) :
  provider_of_name provider <> None ->
  exists r h',
    MCPRouter._generate_with_retry w config provider model prompt system_prompt
      temperature max_tokens h = (Ok r, h').
Proof.
  intros Hvalid. unfold MCPRouter._generate_with_retry.
  destruct (provider_of_name provider) as [p|] eqn:Hp; [|congruence].
  destruct (MCPRouter.lookup_client config provider) as [client|].
  - unfold bind.
    destruct (attempts_total model client (MCPRouter.range (Config.max_retries config))
                None h) as (out & h' & ->).
    destruct out as [r|last_error].
    + eexists. eexists. reflexivity.
    + unfold lift, MCPRouter.all_failed, LLMResponseMetadata.new. rewrite Hp.
      eexists. eexists. reflexivity.
  - unfold lift, MCPRouter.not_available, LLMResponseMetadata.new. rewrite Hp.
    eexists. eexists. reflexivity.
Qed.

(** A response that comes out of the loop is signed by the adapter. *)
Lemma attempts_sign (model : string) (client : Provider) (todo : list Z) :
  forall (last_error : option PyExc) (h h' : History) (r : LLMResponse.t),
    MCPRouter.attempts w config model prompt system_prompt temperature max_tokens
      client todo last_error h = (Ok (inl r), h') ->
    LLMResponse.success r = true
    /\ LLMResponse.provider r = provider_name client
    /\ LLMResponse.model r = model.
Proof.
  induction todo as [|attempt rest IH]; intros last_error h h' r H.
  - discriminate.
  - cbn [MCPRouter.attempts] in H. unfold try_except in H.
    destruct (bind _ _ h) as [[out|e] h1] eqn:Hbody.
    + inversion H; subst. clear H.
      unfold bind at 1 in Hbody. unfold MCPRouter.attempt_body in Hbody.
      unfold bind, emit, history, lift, ret in Hbody.
      destruct (client_generate client w _ model) as [g|e] eqn:Hg; [|discriminate].
      apply client_generate_signs in Hg. destruct Hg as [Hp Hm].
      destruct (MCPRouter.parse_action (Generated.json g)) as [a q].
      destruct (LLMResponseMetadata.new _ _ _ _ _); [|discriminate].
      inversion Hbody; subst. simpl. auto.
    + unfold bind at 1 in H.
      destruct (attempt <? Config.max_retries config - 1);
        unfold emit, ret in H; eapply IH; exact H.
Qed.

(** Whatever [_generate_with_retry] returns names the provider and the
    model it was asked for. *)
Lemma generate_with_retry_reports (provider model : string) (h h' : History)
      (r : LLMResponse.t) :
  MCPRouter._generate_with_retry w config provider model prompt system_prompt
    temperature max_tokens h = (Ok r, h') ->
  LLMResponse.provider r = provider /\ LLMResponse.model r = model.
Proof.
  unfold MCPRouter._generate_with_retry.
  destruct (MCPRouter.lookup_client config provider) as [client|] eqn:E.
  - apply lookup_client_Some in E. destruct E as [_ E].
    unfold bind.
    destruct (MCPRouter.attempts _ _ _ _ _ _ _ _ _ _ h) as [[[r'|last]|e] h1] eqn:Hrun;
      [| |discriminate].
    + apply attempts_sign in Hrun. destruct Hrun as (_ & Hp & Hm).
      unfold ret. intros H. inversion H; subst. split; congruence.
    + unfold lift, MCPRouter.all_failed.
      destruct (LLMResponseMetadata.new _ _ _ _ _); [|discriminate].
      intros H. inversion H; subst. split; reflexivity.
  - unfold lift, MCPRouter.not_available.
    destruct (LLMResponseMetadata.new _ _ _ _ _); [|discriminate].
    intros H. inversion H; subst. split; reflexivity.
Qed.

(** With a provider name outside the four, it raises before any call. *)
Lemma generate_with_retry_unknown_provider (provider model : string) (h : History) :
  provider_of_name provider = None ->
  MCPRouter._generate_with_retry w config provider model prompt system_prompt
    temperature max_tokens h
  = (Raise (ValidationError "LLMResponseMetadata" "provider"), h).
Proof.
  intros Hp. unfold MCPRouter._generate_with_retry.
  destruct (MCPRouter.lookup_client config provider) as [client|] eqn:E.
  - apply lookup_client_Some in E. destruct E as [_ E]. subst provider.
    rewrite provider_of_name_name in Hp. discriminate.
  - unfold lift, MCPRouter.not_available, LLMResponseMetadata.new.
    now rewrite Hp.
Qed.

Let run (provider model : string) : M LLMResponse.t :=
  MCPRouter._generate_with_retry w config provider model prompt system_prompt
    temperature max_tokens.

(** Down a chain of well-formed entries the fallback loop tries the
    entries in order, each with the prompt, temperature and token limit
    it was given, and ends at the first success or with the response of
    the last entry. *)
Lemma fallback_loop_walk (chain : list string) :
  forall (h : History) (r0 : LLMResponse.t),
    chain <> [] ->
    Forall Spec.well_formed_entry chain ->
    exists r h',
      MCPRouter.fallback_loop w config prompt system_prompt temperature max_tokens
        chain r0 h = (Ok r, h')
      /\ Spec.Walk run h chain h' r.
Proof.
  induction chain as [|entry rest IH]; intros h r0 Hne Hwf; [congruence|].
  inversion Hwf as [|? ? Hentry Hrest]; subst.
  cbn [MCPRouter.fallback_loop].
  destruct (MCPRouter._parse_model_string entry) as [fp fm] eqn:Hparse.
  unfold Spec.well_formed_entry in Hentry. rewrite Hparse in Hentry. simpl in Hentry.
  destruct (generate_with_retry_total fp fm h Hentry) as (r & h1 & Hrun).
  unfold bind. rewrite Hrun.
  destruct (LLMResponse.success r) eqn:Hs.
  - exists r, h1. split; [reflexivity|].
    apply Spec.walk_success; [|assumption]. rewrite Hparse. exact Hrun.
  - destruct rest as [|next rest].
    + exists r, h1. split; [reflexivity|].
      apply Spec.walk_last; [|assumption]. rewrite Hparse. exact Hrun.
    + destruct (IH h1 r ltac:(discriminate) Hrest) as (r' & h' & Hloop & Hwalk).
      exists r', h'. split; [exact Hloop|].
      eapply Spec.walk_next; eauto. rewrite Hparse. exact Hrun.
Qed.

(** The response a walk ends with names the provider and the model of
    the entry that produced it. *)
Lemma walk_reports (chain : list string) (h h' : History) (r : LLMResponse.t) :
  Spec.Walk run h chain h' r ->
  exists entry,
    In entry chain
    /\ LLMResponse.provider r = fst (MCPRouter._parse_model_string entry)
    /\ LLMResponse.model r = snd (MCPRouter._parse_model_string entry).
Proof.
  induction 1 as [entry rest h h' r Hrun _
                 |entry h h' r Hrun _
                 |entry next rest h h1 h' r r' _ _ _ IH].
  - exists entry. split; [now left|].
    apply generate_with_retry_reports in Hrun. exact Hrun.
  - exists entry. split; [now left|].
    apply generate_with_retry_reports in Hrun. exact Hrun.
  - destruct IH as (e & Hin & Hrep). exists e. split; [now right|exact Hrep].
Qed.

(** An entry whose provider part is outside the four ends the loop with
    an exception; the entries after it are not tried. *)
Lemma fallback_loop_malformed (entry : string) (rest : list string)
      (h : History) (r0 : LLMResponse.t) :
  provider_of_name (fst (MCPRouter._parse_model_string entry)) = None ->
  MCPRouter.fallback_loop w config prompt system_prompt temperature max_tokens
    (entry :: rest) r0 h
  = (Raise (ValidationError "LLMResponseMetadata" "provider"), h).
Proof.
  intros Hp. cbn [MCPRouter.fallback_loop].
  destruct (MCPRouter._parse_model_string entry) as [fp fm]. simpl in Hp.
  unfold bind. now rewrite (generate_with_retry_unknown_provider fp fm h Hp).
Qed.
End Totality.

(** When every entry of the fallback chain is well formed, no exception
    escapes [route_command] for an [ask_model] command. *)
Lemma route_ask_model_total
      (w : World) (config : Config.t) (command : MCPCommand.t)
      (system_prompt : option string) (h : History) :
  MCPCommand.command command = MCPCommand.ask_model ->
  Forall Spec.well_formed_entry (Config.fallback_chain config) ->
  exists envelope h',
    MCPRouter.route_command w config command system_prompt h = (Ok envelope, h').
Proof.
  intros Hk Hwf. unfold MCPRouter.route_command. rewrite Hk.
  unfold MCPRouter._handle_ask_model.
  destruct (MCPCommand.params command) as [params|];
    [|eexists; eexists; reflexivity].
  destruct (generate_with_retry_total w config
              (MCPRouter.context_prompt (MCPCommand.context command)
                 (ModelParams.prompt params))
              system_prompt (ModelParams.temperature params)
              (ModelParams.max_tokens params)
              (provider_name (ModelParams.provider params))
              (ModelParams.model params) h) as (r & h1 & Hrun).
  { rewrite provider_of_name_name. discriminate. }
  unfold bind at 1. rewrite Hrun. unfold bind at 1.
  assert (Hsecond : exists r2 h2,
             (if negb (LLMResponse.success r)
                 && match Config.fallback_chain config with [] => false | _ => true end
              then MCPRouter.fallback_loop w config
                     (MCPRouter.context_prompt (MCPCommand.context command)
                        (ModelParams.prompt params))
                     system_prompt (ModelParams.temperature params)
                     (ModelParams.max_tokens params) (Config.fallback_chain config) r
              else ret r) h1 = (Ok r2, h2)).
  { destruct (negb (LLMResponse.success r)); simpl;
      [|eexists; eexists; reflexivity].
    destruct (Config.fallback_chain config) as [|entry rest] eqn:Hc;
      [eexists; eexists; reflexivity|].
    destruct (fallback_loop_walk w config
                (MCPRouter.context_prompt (MCPCommand.context command)
                   (ModelParams.prompt params))
                system_prompt (ModelParams.temperature params)
                (ModelParams.max_tokens params) (entry :: rest) h1 r
                ltac:(discriminate) Hwf) as (r2 & h2 & Hloop & _).
    eexists. eexists. exact Hloop. }
  destruct Hsecond as (r2 & h2 & ->).
  destruct (LLMResponse.success r2);
    [destruct (MCPRouter.actions_of r2)|]; eexists; eexists; reflexivity.
Qed.

(** For an [ask_model] command whose primary attempt failed, and a
    non-empty chain of well-formed entries, the envelope carries the
    response the walk down the chain ends with. *)
Lemma route_follows_walk
      (w : World) (config : Config.t) (command : MCPCommand.t)
      (params : ModelParams.t) (system_prompt : option string)
      (h h1 : History) (r0 : LLMResponse.t) :
  MCPCommand.command command = MCPCommand.ask_model ->
  MCPCommand.params command = Some params ->
  let prompt := MCPRouter.context_prompt (MCPCommand.context command)
                  (ModelParams.prompt params) in
  let run provider model :=
    MCPRouter._generate_with_retry w config provider model prompt system_prompt
      (ModelParams.temperature params) (ModelParams.max_tokens params) in
  run (provider_name (ModelParams.provider params)) (ModelParams.model params) h
  = (Ok r0, h1) ->
  LLMResponse.success r0 = false ->
  Config.fallback_chain config <> [] ->
  Forall Spec.well_formed_entry (Config.fallback_chain config) ->
  exists r h' envelope,
    Spec.Walk run h1 (Config.fallback_chain config) h' r
    /\ MCPRouter.route_command w config command system_prompt h = (Ok envelope, h')
    /\ MCPResponse.llm_response envelope = Some r.
Proof.
  intros Hk Hp prompt run Hrun Hs Hne Hwf.
  destruct (fallback_loop_walk w config prompt system_prompt
              (ModelParams.temperature params) (ModelParams.max_tokens params)
              (Config.fallback_chain config) h1 r0 Hne Hwf)
    as (r & h' & Hloop & Hwalk).
  exists r, h'.
  unfold MCPRouter.route_command. rewrite Hk.
  unfold MCPRouter._handle_ask_model. rewrite Hp.
  unfold bind at 1. fold prompt. unfold run in Hrun. rewrite Hrun.
  unfold bind at 1. rewrite Hs.
  destruct (Config.fallback_chain config) as [|entry rest] eqn:Hc; [congruence|].
  cbn [negb andb]. rewrite Hloop.
  destruct (LLMResponse.success r);
    [destruct (MCPRouter.actions_of r)|];
    eexists; (split; [exact Hwalk|]); split; reflexivity.
Qed.

(** C1.  The claim fails on the code: when the primary attempt has failed
    and the first entry of the fallback chain names a provider outside
    the four of the [provider] literal, building the failed response
    raises [ValidationError], and [route_command] lets it escape. *)
Theorem malformed_fallback_entry_escapes
        (w : World) (config : Config.t) (command : MCPCommand.t)
        (params : ModelParams.t) (system_prompt : option string)
        (h h1 : History) (r : LLMResponse.t) (entry : string) (rest : list string) :
  MCPCommand.command command = MCPCommand.ask_model ->
  MCPCommand.params command = Some params ->
  MCPRouter._generate_with_retry w config
    (provider_name (ModelParams.provider params)) (ModelParams.model params)
    (MCPRouter.context_prompt (MCPCommand.context command) (ModelParams.prompt params))
    system_prompt (ModelParams.temperature params) (ModelParams.max_tokens params) h
  = (Ok r, h1) ->
  LLMResponse.success r = false ->
  Config.fallback_chain config = entry :: rest ->
  provider_of_name (fst (MCPRouter._parse_model_string entry)) = None ->
  MCPRouter.route_command w config command system_prompt h
  = (Raise (ValidationError "LLMResponseMetadata" "provider"), h1).
Proof.
  intros Hk Hp Hrun Hs Hc Hbad.
  unfold MCPRouter.route_command. rewrite Hk.
  unfold MCPRouter._handle_ask_model. rewrite Hp.
  unfold bind at 1. rewrite Hrun. unfold bind at 1.
  rewrite Hs, Hc. cbn [negb andb].
  now rewrite (fallback_loop_malformed w config _ _ _ _ entry rest h1 r Hbad).
Qed.

Lemma malformed_fallback_entry_escapes_witness :
  MCPRouter.route_command Examples.local_only (Examples.local_config ["local:llama3"])
    (Examples.ask openai "gpt-4o-mini") None []
  = (Raise (ValidationError "LLMResponseMetadata" "provider"), []).
Proof.
  eapply (malformed_fallback_entry_escapes Examples.local_only
            (Examples.local_config ["local:llama3"])
            (Examples.ask openai "gpt-4o-mini")
            (ModelParams.mk openai "gpt-4o-mini" "Create a 20mm cube"
               Examples.warm (Some 2000))
            None [] []).
  - reflexivity.
  - reflexivity.
  - vm_compute. reflexivity.
  - reflexivity.
  - reflexivity.
  - reflexivity.
Defined.

(** C3.  The claim fails on the code at a chain whose first entry names an
    unknown provider: the walk stops there with an exception, the local
    provider behind it is never tried although it would have produced
    the action, and no envelope is returned.  Without the malformed entry
    the same request is answered by the fallback provider. *)
Theorem fallback_chain_cut_short :
  MCPRouter.route_command Examples.local_only
    (Examples.local_config ["local:llama3"; "ollama:llama3"])
    (Examples.ask openai "gpt-4o-mini") None []
  = (Raise (ValidationError "LLMResponseMetadata" "provider"), [])
  /\ exists r,
      MCPRouter.route_command Examples.local_only
        (Examples.local_config ["ollama:llama3"])
        (Examples.ask openai "gpt-4o-mini") None []
      = (Ok (MCPResponse.mk MCPResponse.success (Some r)
               "Action generated successfully" [Examples.box] []),
         [EvGenerate ollama "llama3" "Create a 20mm cube" None Examples.warm (Some 2000)])
      /\ LLMResponse.provider r = "ollama".
Proof.
  split; [vm_compute; reflexivity|].
  eexists. split; vm_compute; reflexivity.
Qed.

(** ** Listing models *)

Section Listing.
Variables (w : World) (config : Config.t).

(** One turn of the loop: a provider whose [list_models] raises gets an
    empty list, and the loop goes on. *)
Lemma list_models_loop_step (p : Provider) (rest : list Provider)
      (models : list (string * list string)) (h : History) :
  MCPRouter.list_models_loop w (p :: rest) models h
  = MCPRouter.list_models_loop w rest
      (models ++ [(provider_name p,
                   match client_list_models p w (h ++ [EvListModels p]) with
                   | Ok names => names
                   | Raise _ => []
                   end)])
      (h ++ [EvListModels p]).
Proof.
  cbn [MCPRouter.list_models_loop].
  unfold bind at 1, try_except, bind, emit, history, lift, ret.
  now destruct (client_list_models p w (h ++ [EvListModels p])).
Qed.

(** The loop queries every adapter once, in order, and never raises. *)
Lemma list_models_loop_total (items : list Provider) :
  forall (models : list (string * list string)) (h : History),
  exists models',
    MCPRouter.list_models_loop w items models h
    = (Ok models', h ++ map EvListModels items)
    /\ map fst models' = map fst models ++ map provider_name items.
Proof.
  induction items as [|p rest IH]; intros models h.
  - exists models. simpl. unfold ret. now rewrite !app_nil_r.
  - rewrite list_models_loop_step.
    destruct (IH (models ++ [(provider_name p,
                              match client_list_models p w (h ++ [EvListModels p]) with
                              | Ok names => names
                              | Raise _ => []
                              end)])
                 (h ++ [EvListModels p])) as (models' & Hrun & Hkeys).
    exists models'. rewrite Hrun, Hkeys, map_app. simpl.
    now rewrite <- !app_assoc.
Qed.
End Listing.

(** C8.  The claim fails on the code: after every adapter has been
    queried, the envelope is built around metadata whose provider is
    [system], which the [provider] literal refuses; [ValidationError]
    escapes and no envelope is returned, whatever the adapters did. *)
Theorem list_models_always_raises
        (w : World) (config : Config.t) (command : MCPCommand.t)
        (system_prompt : option string) (h : History) :
  MCPCommand.command command = MCPCommand.list_models ->
  MCPRouter.route_command w config command system_prompt h
  = (Raise (ValidationError "LLMResponseMetadata" "provider"),
     h ++ map EvListModels (MCPRouter.clients config)).
Proof.
  intros Hk. unfold MCPRouter.route_command. rewrite Hk.
  unfold MCPRouter._handle_list_models, bind at 1.
  destruct (list_models_loop_total w (MCPRouter.clients config) [] h)
    as (models & -> & _).
  reflexivity.
Qed.

Lemma list_models_always_raises_witness :
  MCPRouter.route_command Examples.local_only (Examples.config_with [])
    Examples.list_them None []
  = (Raise (ValidationError "LLMResponseMetadata" "provider"),
     [EvListModels ollama; EvListModels openai]).
Proof.
  apply (list_models_always_raises Examples.local_only (Examples.config_with [])
           Examples.list_them None []).
  reflexivity.
Defined.

(** ** Payload extraction *)


Lemma rfind_absent (c : ascii) (s : string) :
  contains_char c s = false -> rfind c s = -1.
Proof.
  induction s as [|a r IH]; simpl; [reflexivity|].
  destruct (Ascii.eqb a c); simpl; [discriminate|].
  intros H. now rewrite (IH H).
Qed.


Lemma find_first (c : ascii) (pre rest : string) :
  contains_char c pre = false ->
  find c (pre ++ String c rest)%string = Z.of_nat (String.length pre).
Proof.
  induction pre as [|a pre IH]; simpl.
  - intros _. now rewrite Ascii.eqb_refl.
  - destruct (Ascii.eqb a c); simpl; [discriminate|].
    intros H. rewrite (IH H).
    destruct (Z.eqb_spec (Z.of_nat (String.length pre)) (-1)); lia.
Qed.

Lemma rfind_last (c : ascii) (pre post : string) :
  contains_char c post = false ->
  rfind c (pre ++ String c post)%string = Z.of_nat (String.length pre).
Proof.
  intros Hpost. induction pre as [|a pre IH]; simpl.
  - rewrite (rfind_absent _ _ Hpost). simpl. now rewrite Ascii.eqb_refl.
  - rewrite IH.
    destruct (Z.eqb_spec (Z.of_nat (String.length pre)) (-1)); lia.
Qed.

Lemma substring_skip (pre s : string) (m : nat) :
  substring (String.length pre) m (pre ++ s)%string = substring 0 m s.
Proof. induction pre as [|a pre IH]; simpl; [reflexivity|exact IH]. Qed.

Lemma substring_take (mid post : string) :
  substring 0 (String.length mid) (mid ++ post)%string = mid.
Proof.
  induction mid as [|a mid IH]; simpl; [now destruct post|now rewrite IH].
Qed.

Lemma length_append (a b : string) :
  String.length (a ++ b)%string = (String.length a + String.length b)%nat.
Proof. induction a as [|c a IH]; simpl; [reflexivity|now rewrite IH]. Qed.

Lemma append_assoc (a b c : string) :
  ((a ++ b) ++ c = a ++ (b ++ c))%string.
Proof. induction a as [|x a IH]; simpl; [reflexivity|now rewrite IH]. Qed.

(** The brace substring is what the specification says: in a text
    [pre{mid}post] whose [pre] has no opening brace and whose [post] has
    no closing brace, it is [{mid}], parsed. *)
Lemma brace_substring_between (pre mid post : string) :
  contains_char "{" pre = false ->
  contains_char "}" post = false ->
  Spec.brace_substring (pre ++ "{" ++ mid ++ "}" ++ post)%string
  = Json.loads ("{" ++ mid ++ "}")%string.
Proof.
  intros Hpre Hpost. unfold Spec.brace_substring.
  change (pre ++ "{" ++ mid ++ "}" ++ post)%string
    with (pre ++ String "{" (mid ++ String "}" post))%string.
  rewrite (find_first _ pre _ Hpre).
  replace (pre ++ String "{" (mid ++ String "}" post))%string
    with ((pre ++ String "{" mid) ++ String "}" post)%string
    by (rewrite append_assoc; reflexivity).
  rewrite (rfind_last _ (pre ++ String "{" mid) post Hpost).
  rewrite length_append. cbn [String.length].
  destruct (Z.eqb_spec (Z.of_nat (String.length pre)) (-1)) as [E|_]; [lia|].
  destruct (Z.eqb_spec (Z.of_nat (String.length pre + S (String.length mid))) (-1))
    as [E|_]; [lia|].
  cbn [negb andb]. f_equal. unfold slice.
  rewrite Nat2Z.id.
  replace (Z.to_nat (Z.of_nat (String.length pre + S (String.length mid)) + 1
                     - Z.of_nat (String.length pre)))
    with (String.length ("{" ++ mid ++ "}")%string)
    by (rewrite !length_append; simpl; lia).
  rewrite !append_assoc. rewrite substring_skip.
  replace (String "{" mid ++ String "}" post)%string
    with (("{" ++ mid ++ "}") ++ post)%string
    by (simpl; rewrite append_assoc; reflexivity).
  apply substring_take.
Qed.

Lemma hosted_parse_json (p : Provider) (text : string) :
  p <> ollama -> client_parse_json p text = Spec.entire_then_braces text.
Proof.
  intros Hp. destruct p; [congruence| | |];
    unfold client_parse_json, OpenAIClient._parse_json, GeminiClient._parse_json,
      ClaudeClient._parse_json, Spec.entire_then_braces, Spec.entire_text,
      Spec.or_absent, Spec.brace_substring;
    reflexivity.
Qed.

Lemma ollama_parse_json (text : string) :
  client_parse_json ollama text = Spec.braces_then_entire text.
Proof. reflexivity. Qed.




(** ** Round trip of an action sequence *)

Lemma list_of_strings (model field : string) (l : list string) :
  Pydantic.list_of (Pydantic.str_field model field) (map JStr l) = Ok l.
Proof. induction l as [|s l IH]; simpl; [reflexivity|now rewrite IH]. Qed.

Lemma FusionAction_round_trip (a : FusionAction.t) :
  FusionAction.validate (FusionAction.model_dump a) = Ok a.
Proof.
  destruct a as [act par ex sc dp].
  unfold FusionAction.validate, FusionAction.model_dump, FusionAction.new,
    Pydantic.required, Pydantic.optional, Pydantic.defaulted, Pydantic.list_field.
  cbn. rewrite !list_of_strings. destruct ex; reflexivity.
Qed.

Lemma list_of_actions (l : list FusionAction.t) :
  Pydantic.list_of FusionAction.validate (map FusionAction.model_dump l) = Ok l.
Proof.
  induction l as [|a l IH]; [reflexivity|].
  cbn [map Pydantic.list_of]. now rewrite FusionAction_round_trip, IH.
Qed.

Lemma ActionSequence_round_trip (q : ActionSequence.t) :
  ActionSequence.model_validate (ActionSequence.model_dump q) = Ok q.
Proof.
  destruct q as [acts n est].
  unfold ActionSequence.model_validate, ActionSequence.model_dump, ActionSequence.new,
    Pydantic.required, Pydantic.optional, Pydantic.list_field.
  cbn. rewrite list_of_actions. destruct est; reflexivity.
Qed.

(** The example of the schema: a base plate and a mounting hole. *)
Example base_plate_round_trip :
  ActionSequence.model_validate
    (ActionSequence.model_dump
       (ActionSequence.mk [Examples.box; Examples.hole] 2 None))
  = Ok (ActionSequence.mk [Examples.box; Examples.hole] 2 None).
Proof. vm_compute. reflexivity. Qed.

(** C9. An [ActionSequence] built with [total_steps = 2] and two actions,
    dumped and validated again, gives a sequence with the same two
    actions in the same order. *)
Theorem action_sequence_round_trip
        (a1 a2 : FusionAction.t) (estimated : option Float) :
  exists q,
    ActionSequence.model_validate
      (ActionSequence.model_dump (ActionSequence.mk [a1; a2] 2 estimated)) = Ok q
    /\ ActionSequence.actions q = [a1; a2]
    /\ ActionSequence.total_steps q = 2.
Proof.
  eexists. rewrite ActionSequence_round_trip. repeat split.
Qed.

(** ** The JSON scanner needs no more fuel than the length of the text *)

Lemma skip_ws_length (s : string) :
  (String.length (skip_ws s) <= String.length s)%nat.
Proof.
  induction s as [|c s IH]; simpl; [lia|].
  destruct (Json.is_ws c); simpl; lia.
Qed.

Lemma digits_length (s : string) :
  forall acc len n len' r,
    Json.digits s acc len = (n, len', r) ->
    (String.length r <= String.length s)%nat.
Proof.
  induction s as [|c s IH]; simpl; intros acc len n len' r H.
  - inversion H. simpl. lia.
  - destruct (Json.digit_val c).
    + apply IH in H. lia.
    + inversion H. simpl. lia.
Qed.

Lemma strip_prefix_length (p : string) :
  forall s r, Json.strip_prefix p s = Some r ->
              String.length s = (String.length p + String.length r)%nat.
Proof.
  induction p as [|a p IH]; simpl; intros s r H.
  - now inversion H.
  - destruct s as [|b s]; [discriminate|].
    destruct (Ascii.eqb a b); [|discriminate].
    apply IH in H. simpl. lia.
Qed.

Lemma match_int_consumes : Spec.consumes Json.match_int.
Proof.
  intros s [neg n] r. unfold Json.match_int.
  assert (Hsign : forall b s1,
             (match s with
              | String "-" r0 => (true, r0)
              | _ => (false, s)
              end) = (b, s1) -> (String.length s1 <= String.length s)%nat).
  { intros b s1. destruct s as [|c s']; [intros H; inversion H; simpl; lia|].
    destruct c as [[] [] [] [] [] [] [] []]; intros H; inversion H; simpl; lia. }
  destruct (match s with String "-" r0 => (true, r0) | _ => (false, s) end)
    as [b s1] eqn:E.
  specialize (Hsign b s1 eq_refl).
  destruct s1 as [|c r1]; [discriminate|].
  destruct (Json.digit_val c) as [d|]; [|discriminate].
  destruct d.
  - intros H. inversion H. subst. simpl in Hsign. lia.
  - destruct (Json.digits r1 (N.pos p) 1) as [[n' l'] r'] eqn:Ed.
    apply digits_length in Ed.
    intros H. inversion H. subst. simpl in Hsign. lia.
Qed.

Lemma match_frac_length (s : string) (n : N) (len : nat) (r : string) :
  Json.match_frac s = Some (n, len, r) -> (String.length r <= String.length s)%nat.
Proof.
  unfold Json.match_frac. destruct s as [|c s]; [discriminate|].
  destruct c as [[] [] [] [] [] [] [] []]; try discriminate.
  destruct (Json.digits s 0 0) as [[n' l'] r'] eqn:Ed.
  apply digits_length in Ed.
  destruct l'; [discriminate|]. intros H. inversion H. subst. simpl. lia.
Qed.

Lemma match_exp_length (s : string) (e : Z) (r : string) :
  Json.match_exp s = Some (e, r) -> (String.length r <= String.length s)%nat.
Proof.
  unfold Json.match_exp. destruct s as [|c s]; [discriminate|].
  destruct (Ascii.eqb c "e" || Ascii.eqb c "E"); [|discriminate].
  assert (Hsign : forall b s1,
             (match s with
              | String "-" r1 => (true, r1)
              | String "+" r1 => (false, r1)
              | _ => (false, s)
              end) = (b, s1) -> (String.length s1 <= String.length s)%nat).
  { intros b s1. destruct s as [|a s']; [intros H; inversion H; simpl; lia|].
    destruct a as [[] [] [] [] [] [] [] []]; intros H; inversion H; simpl; lia. }
  destruct (match s with
            | String "-" r1 => (true, r1)
            | String "+" r1 => (false, r1)
            | _ => (false, s)
            end) as [b s1] eqn:E.
  specialize (Hsign b s1 eq_refl).
  destruct (Json.digits s1 0 0) as [[n' l'] r'] eqn:Ed.
  apply digits_length in Ed.
  destruct l'; [discriminate|]. intros H. inversion H. subst. simpl. lia.
Qed.

Lemma match_number_consumes : Spec.consumes Json.match_number.
Proof.
  intros s v r. unfold Json.match_number.
  destruct (Json.match_int s) as [[[neg n] r0]|] eqn:Ei; [|discriminate].
  apply match_int_consumes in Ei.
  destruct (Json.match_frac r0) as [[[fm fl] r1]|] eqn:Ef.
  - apply match_frac_length in Ef.
    destruct (Json.match_exp r1) as [[e r2]|] eqn:Ee.
    + apply match_exp_length in Ee. intros H. inversion H. subst. lia.
    + intros H. inversion H. subst. lia.
  - destruct (Json.match_exp r0) as [[e r2]|] eqn:Ee.
    + apply match_exp_length in Ee. intros H. inversion H. subst. lia.
    + intros H. inversion H. subst. lia.
Qed.

Lemma literal_consumes : Spec.consumes Json.literal.
Proof.
  intros s v r. unfold Json.literal.
  repeat match goal with
         | |- context [Json.strip_prefix ?p s] =>
             let E := fresh "E" in
             destruct (Json.strip_prefix p s) eqn:E;
             [apply strip_prefix_length in E; simpl in E;
              intros H; inversion H; subst; lia|]
         | |- context [Json.match_number s] =>
             let E := fresh "E" in
             destruct (Json.match_number s) as [[v' r']|] eqn:E;
             [apply match_number_consumes in E;
              intros H; inversion H; subst; lia|]
         end.
  discriminate.
Qed.

Lemma scanstring_consumes : Spec.consumes Json.scanstring.
Proof.
  enough (Hn : forall n s, (String.length s <= n)%nat ->
                           forall t r, Json.scanstring s = Some (t, r) ->
                                       (String.length r < String.length s)%nat)
    by (intros s t r; apply (Hn (String.length s)); lia).
  induction n as [|n IH]; intros s Hle t r H.
  - destruct s; [discriminate|simpl in Hle; lia].
  - destruct s as [|c s]; [discriminate|]. cbn [String.length] in *.
    cbn [Json.scanstring] in H.
    destruct (Ascii.eqb c dquote).
    { inversion H; subst. lia. }
    assert (Hrec : forall (pre : string -> string) x t r,
               (String.length x <= n)%nat ->
               match Json.scanstring x with
               | Some (t0, rest) => Some (pre t0, rest)
               | None => None
               end = Some (t, r) ->
               (String.length r < String.length x)%nat).
    { intros pre x t' r' Hx Hm.
      destruct (Json.scanstring x) as [[t0 rest]|] eqn:E; [|discriminate].
      apply IH in E; [|exact Hx]. inversion Hm; subst. exact E. }
    destruct (Ascii.eqb c "\").
    2:{ destruct (N_of_ascii c <? 32)%N; [discriminate|].
        apply (Hrec (String c)) in H; lia. }
    destruct s as [|e r1]; [discriminate|]. cbn [String.length] in *.
    destruct (Ascii.eqb e "u").
    2:{ destruct (Json.simple_escape e) as [a|]; [|discriminate].
        apply (Hrec (String a)) in H; lia. }
    destruct r1 as [|h1 [|h2 [|h3 [|h4 r2]]]]; try discriminate.
    cbn [String.length] in *.
    destruct (Json.hex4 h1 h2 h3 h4) as [uni|]; [|discriminate].
    cbv zeta in H.
    assert (Hlone : forall t r,
               match Json.scanstring r2 with
               | Some (t0, rest) => Some ((Json.utf8 uni ++ t0)%string, rest)
               | None => None
               end = Some (t, r) ->
               (String.length r < String.length r2)%nat).
    { intros t' r'. apply (Hrec (fun t0 => (Json.utf8 uni ++ t0)%string)). lia. }
    destruct ((55296 <=? uni)%N && (uni <=? 56319)%N).
    2:{ apply Hlone in H. lia. }
    destruct r2 as [|b [|u [|g1 [|g2 [|g3 [|g4 r3]]]]]];
      try (apply Hlone in H; cbn [String.length] in *; lia).
    destruct (Ascii.eqb b "\" && Ascii.eqb u "u").
    2:{ apply Hlone in H; cbn [String.length] in *; lia. }
    destruct (Json.hex4 g1 g2 g3 g4) as [uni2|]; [|discriminate].
    destruct ((56320 <=? uni2)%N && (uni2 <=? 57343)%N).
    2:{ apply Hlone in H; cbn [String.length] in *; lia. }
    cbn [String.length] in *.
    apply (Hrec (fun t0 =>
                   (Json.utf8 (65536 + ((uni - 55296) * 1024 + (uni2 - 56320)))
                    ++ t0)%string)) in H; lia.
Qed.

Section ContainerFacts.
Variable f : string -> option (JSON * string).
Hypothesis f_consumes : Spec.consumes f.

Lemma array_items_consumes (n : nat) : Spec.consumes (Json.array_items f n).
Proof.
  induction n as [|n IH]; intros s vs r H; [discriminate|].
  cbn [Json.array_items] in H.
  destruct (f s) as [[v r0]|] eqn:E; [|discriminate]. apply f_consumes in E.
  pose proof (skip_ws_length r0) as Hw.
  destruct (skip_ws r0) as [|c r1]; [discriminate|]. cbn [String.length] in Hw.
  destruct (Ascii.eqb c "]"); [inversion H; subst; lia|].
  destruct (Ascii.eqb c ","); [|discriminate].
  destruct (Json.array_items f n (skip_ws r1)) as [[vs' rest]|] eqn:Er; [|discriminate].
  apply IH in Er. pose proof (skip_ws_length r1). inversion H; subst. lia.
Qed.

Lemma object_pairs_consumes (n : nat) : Spec.consumes (Json.object_pairs f n).
Proof.
  induction n as [|n IH]; intros s kvs r H; [discriminate|].
  cbn [Json.object_pairs] in H.
  destruct s as [|q r0]; [discriminate|]. cbn [String.length].
  destruct (Ascii.eqb q dquote); [|discriminate].
  destruct (Json.scanstring r0) as [[key r1]|] eqn:Ek; [|discriminate].
  apply scanstring_consumes in Ek.
  pose proof (skip_ws_length r1) as Hw1.
  destruct (skip_ws r1) as [|c r2]; [discriminate|]. cbn [String.length] in Hw1.
  destruct (Ascii.eqb c ":"); [|discriminate].
  destruct (f (skip_ws r2)) as [[v r3]|] eqn:Ev; [|discriminate].
  apply f_consumes in Ev. pose proof (skip_ws_length r2) as Hw2.
  pose proof (skip_ws_length r3) as Hw3.
  destruct (skip_ws r3) as [|d r4]; [discriminate|]. cbn [String.length] in Hw3.
  destruct (Ascii.eqb d "}"); [inversion H; subst; lia|].
  destruct (Ascii.eqb d ","); [|discriminate].
  destruct (Json.object_pairs f n (skip_ws r4)) as [[kvs' rest]|] eqn:Er;
    [|discriminate].
  apply IH in Er. pose proof (skip_ws_length r4). inversion H; subst. lia.
Qed.

Lemma JSONArray_length (s : string) (v : JSON) (r : string) :
  Json.JSONArray f s = Some (v, r) -> (String.length r <= String.length s)%nat.
Proof.
  unfold Json.JSONArray. pose proof (skip_ws_length s) as Hw.
  destruct (skip_ws s) as [|c r0] eqn:Es; [discriminate|]. cbn [String.length] in Hw.
  destruct (Ascii.eqb c "]"); [intros H; inversion H; subst; lia|].
  destruct (Json.array_items f (S (String.length s)) (String c r0))
    as [[vs rest]|] eqn:E; [|discriminate].
  apply array_items_consumes in E. cbn [String.length] in E.
  intros H. inversion H; subst. lia.
Qed.

Lemma JSONObject_length (s : string) (v : JSON) (r : string) :
  Json.JSONObject f s = Some (v, r) -> (String.length r <= String.length s)%nat.
Proof.
  unfold Json.JSONObject. pose proof (skip_ws_length s) as Hw.
  destruct (skip_ws s) as [|c r0] eqn:Es; [discriminate|]. cbn [String.length] in Hw.
  destruct (Ascii.eqb c "}"); [intros H; inversion H; subst; lia|].
  destruct (Json.object_pairs f (S (String.length s)) (String c r0))
    as [[kvs rest]|] eqn:E; [|discriminate].
  apply object_pairs_consumes in E. cbn [String.length] in E.
  intros H. inversion H; subst. lia.
Qed.

(** The item count given to a container is never what stops it. *)
Lemma array_items_fuel (n : nat) :
  forall m s, (String.length s < n)%nat -> (String.length s < m)%nat ->
              Json.array_items f n s = Json.array_items f m s.
Proof.
  induction n as [|n IH]; intros m s Hn Hm; [lia|].
  destruct m as [|m]; [lia|]. cbn [Json.array_items].
  destruct (f s) as [[v r0]|] eqn:E; [|reflexivity]. apply f_consumes in E.
  pose proof (skip_ws_length r0) as Hw.
  destruct (skip_ws r0) as [|c r1]; [reflexivity|]. cbn [String.length] in Hw.
  destruct (Ascii.eqb c "]"); [reflexivity|].
  destruct (Ascii.eqb c ","); [|reflexivity].
  pose proof (skip_ws_length r1).
  rewrite (IH m (skip_ws r1)) by lia. reflexivity.
Qed.

Lemma object_pairs_fuel (n : nat) :
  forall m s, (String.length s < n)%nat -> (String.length s < m)%nat ->
              Json.object_pairs f n s = Json.object_pairs f m s.
Proof.
  induction n as [|n IH]; intros m s Hn Hm; [lia|].
  destruct m as [|m]; [lia|]. cbn [Json.object_pairs].
  destruct s as [|q r0]; [reflexivity|]. cbn [String.length] in *.
  destruct (Ascii.eqb q dquote); [|reflexivity].
  destruct (Json.scanstring r0) as [[key r1]|] eqn:Ek; [|reflexivity].
  apply scanstring_consumes in Ek.
  pose proof (skip_ws_length r1) as Hw1.
  destruct (skip_ws r1) as [|c r2]; [reflexivity|]. cbn [String.length] in Hw1.
  destruct (Ascii.eqb c ":"); [|reflexivity].
  destruct (f (skip_ws r2)) as [[v r3]|] eqn:Ev; [|reflexivity].
  apply f_consumes in Ev. pose proof (skip_ws_length r2) as Hw2.
  pose proof (skip_ws_length r3) as Hw3.
  destruct (skip_ws r3) as [|d r4]; [reflexivity|]. cbn [String.length] in Hw3.
  destruct (Ascii.eqb d "}"); [reflexivity|].
  destruct (Ascii.eqb d ","); [|reflexivity].
  pose proof (skip_ws_length r4).
  rewrite (IH m (skip_ws r4)) by lia. reflexivity.
Qed.

Variable g : string -> option (JSON * string).

(** A container only scans text that is no longer than its own. *)
Lemma array_items_ext (n : nat) :
  forall s, (forall s', (String.length s' <= String.length s)%nat -> f s' = g s') ->
            Json.array_items f n s = Json.array_items g n s.
Proof.
  induction n as [|n IH]; intros s Hfg; [reflexivity|].
  cbn [Json.array_items]. rewrite <- (Hfg s) by lia.
  destruct (f s) as [[v r0]|] eqn:E; [|reflexivity]. apply f_consumes in E.
  pose proof (skip_ws_length r0) as Hw.
  destruct (skip_ws r0) as [|c r1]; [reflexivity|]. cbn [String.length] in Hw.
  destruct (Ascii.eqb c "]"); [reflexivity|].
  destruct (Ascii.eqb c ","); [|reflexivity].
  pose proof (skip_ws_length r1).
  rewrite (IH (skip_ws r1)); [reflexivity|].
  intros s' Hs'. apply Hfg. lia.
Qed.

Lemma object_pairs_ext (n : nat) :
  forall s, (forall s', (String.length s' <= String.length s)%nat -> f s' = g s') ->
            Json.object_pairs f n s = Json.object_pairs g n s.
Proof.
  induction n as [|n IH]; intros s Hfg; [reflexivity|].
  cbn [Json.object_pairs].
  destruct s as [|q r0]; [reflexivity|]. cbn [String.length] in *.
  destruct (Ascii.eqb q dquote); [|reflexivity].
  destruct (Json.scanstring r0) as [[key r1]|] eqn:Ek; [|reflexivity].
  apply scanstring_consumes in Ek.
  pose proof (skip_ws_length r1) as Hw1.
  destruct (skip_ws r1) as [|c r2]; [reflexivity|]. cbn [String.length] in Hw1.
  destruct (Ascii.eqb c ":"); [|reflexivity].
  pose proof (skip_ws_length r2) as Hw2.
  rewrite <- (Hfg (skip_ws r2)) by lia.
  destruct (f (skip_ws r2)) as [[v r3]|] eqn:Ev; [|reflexivity].
  apply f_consumes in Ev.
  pose proof (skip_ws_length r3) as Hw3.
  destruct (skip_ws r3) as [|d r4]; [reflexivity|]. cbn [String.length] in Hw3.
  destruct (Ascii.eqb d "}"); [reflexivity|].
  destruct (Ascii.eqb d ","); [|reflexivity].
  pose proof (skip_ws_length r4).
  rewrite (IH (skip_ws r4)); [reflexivity|].
  intros s' Hs'. apply Hfg. lia.
Qed.

Lemma JSONArray_ext (s : string) :
  (forall s', (String.length s' <= String.length s)%nat -> f s' = g s') ->
  Json.JSONArray f s = Json.JSONArray g s.
Proof.
  intros Hfg. unfold Json.JSONArray. pose proof (skip_ws_length s) as Hw.
  destruct (skip_ws s) as [|c r0]; [reflexivity|].
  destruct (Ascii.eqb c "]"); [reflexivity|].
  rewrite array_items_ext; [reflexivity|].
  intros s' Hs'. apply Hfg. lia.
Qed.

Lemma JSONObject_ext (s : string) :
  (forall s', (String.length s' <= String.length s)%nat -> f s' = g s') ->
  Json.JSONObject f s = Json.JSONObject g s.
Proof.
  intros Hfg. unfold Json.JSONObject. pose proof (skip_ws_length s) as Hw.
  destruct (skip_ws s) as [|c r0]; [reflexivity|].
  destruct (Ascii.eqb c "}"); [reflexivity|].
  rewrite object_pairs_ext; [reflexivity|].
  intros s' Hs'. apply Hfg. lia.
Qed.
End ContainerFacts.

Lemma scan_once_consumes (depth : nat) : Spec.consumes (Json.scan_once depth).
Proof.
  induction depth as [|d IH]; intros s v r H;
    (destruct s as [|c s]; [discriminate|]); cbn [Json.scan_once] in H;
    cbn [String.length].
  - destruct (Ascii.eqb c dquote).
    { destruct (Json.scanstring s) as [[t rest]|] eqn:E; [|discriminate].
      apply scanstring_consumes in E. inversion H; subst. lia. }
    destruct (Ascii.eqb c "{"); [discriminate|].
    destruct (Ascii.eqb c "["); [discriminate|].
    apply literal_consumes in H. exact H.
  - destruct (Ascii.eqb c dquote).
    { destruct (Json.scanstring s) as [[t rest]|] eqn:E; [|discriminate].
      apply scanstring_consumes in E. inversion H; subst. lia. }
    destruct (Ascii.eqb c "{").
    { apply (JSONObject_length _ IH) in H. lia. }
    destruct (Ascii.eqb c "[").
    { apply (JSONArray_length _ IH) in H. lia. }
    apply literal_consumes in H. exact H.
Qed.

(** Any depth from the length of the text on gives the same result: the
    bound [loads] starts with never cuts a parse short. *)
Lemma scan_once_stable (d1 : nat) :
  forall d2 s, (String.length s <= d1)%nat -> (String.length s <= d2)%nat ->
               Json.scan_once d1 s = Json.scan_once d2 s.
Proof.
  induction d1 as [|d1 IH]; intros d2 s H1 H2.
  - destruct s; [|simpl in H1; lia]. now destruct d2.
  - destruct s as [|c s]; [now destruct d2|].
    destruct d2 as [|d2]; [simpl in H2; lia|].
    cbn [String.length] in *. cbn [Json.scan_once].
    destruct (Ascii.eqb c dquote); [reflexivity|].
    destruct (Ascii.eqb c "{").
    { apply JSONObject_ext; [apply scan_once_consumes|].
      intros s' Hs'. apply IH; lia. }
    destruct (Ascii.eqb c "[").
    { apply JSONArray_ext; [apply scan_once_consumes|].
      intros s' Hs'. apply IH; lia. }
    reflexivity.
Qed.

Lemma loads_any_depth (s : string) (depth : nat) :
  (String.length s <= depth)%nat ->
  Json.loads s
  = match Json.scan_once depth (skip_ws s) with
    | Some (v, rest) =>
        match skip_ws rest with
        | EmptyString => Some v
        | String _ _ => None
        end
    | None => None
    end.
Proof.
  intros H. unfold Json.loads. pose proof (skip_ws_length s).
  rewrite (scan_once_stable (String.length s) depth (skip_ws s)) by lia.
  reflexivity.
Qed.

(** ** Worked examples *)

(** The three cases of [tests/test_ollama_client.py]. *)
Example ollama_parses_direct_json :
  OllamaClient._parse_json Examples.json_text
  = JDict [("action", JStr "create_box"); ("params", JDict [("width", JInt 20)])].
Proof. vm_compute. reflexivity. Qed.

Example ollama_parses_embedded_json :
  OllamaClient._parse_json Examples.embedded_text
  = JDict [("action", JStr "create_box"); ("params", JDict [("width", JInt 20)])].
Proof. vm_compute. reflexivity. Qed.

Example ollama_rejects_plain_text :
  OllamaClient._parse_json "This is not JSON at all" = JNull.
Proof. vm_compute. reflexivity. Qed.

(** A payload with an action yields that action, whatever surrounds it. *)
Example payload_to_action :
  forall p,
    MCPRouter.parse_action (client_parse_json p Examples.json_text)
    = (Some Examples.box, None)
    /\ MCPRouter.parse_action (client_parse_json p Examples.embedded_text)
       = (Some Examples.box, None).
Proof. intros []; vm_compute; split; reflexivity. Qed.

(** A payload that is not a mapping, or a mapping that does not validate,
    yields no action and no exception. *)
Example payload_without_action :
  MCPRouter.parse_action (JInt 123) = (None, None)
  /\ MCPRouter.parse_action (JList [JStr "actions"]) = (None, None)
  /\ MCPRouter.parse_action (JDict [("action", JInt 7); ("params", JDict [])])
     = (None, None)
  /\ MCPRouter.parse_action (JDict [("actions", JList []); ("total_steps", JInt 5)])
     = (None, Some (ActionSequence.mk [] 5 None)).
Proof. vm_compute. repeat split. Qed.

(** The fallback order of the specification: the primary provider and
    the first entry fail, the second entry is tried last and answers, and
    the envelope names it. *)
Example fallback_reaches_the_second_entry :
  exists r,
    MCPRouter.route_command Examples.claude_only
      (Examples.full_config ["ollama:llama3"; "claude:claude-3-5-sonnet"])
      (Examples.ask openai "gpt-4o-mini") None []
    = (Ok (MCPResponse.mk MCPResponse.success (Some r)
             "Action generated successfully" [Examples.box] []),
       [ EvGenerate openai "gpt-4o-mini" "Create a 20mm cube" None Examples.warm (Some 2000);
         EvSleep Examples.one_second;
         EvGenerate openai "gpt-4o-mini" "Create a 20mm cube" None Examples.warm (Some 2000);
         EvGenerate ollama "llama3" "Create a 20mm cube" None Examples.warm (Some 2000);
         EvSleep Examples.one_second;
         EvGenerate ollama "llama3" "Create a 20mm cube" None Examples.warm (Some 2000);
         EvGenerate claude "claude-3-5-sonnet" "Create a 20mm cube" None Examples.warm
           (Some 2000) ])
    /\ LLMResponse.provider r = "claude"
    /\ LLMResponse.model r = "claude-3-5-sonnet".
Proof. eexists. split; [vm_compute; reflexivity|]. split; reflexivity. Qed.

(** A provider that answers without a payload: clarification is needed. *)
Example chat_needs_clarification :
  exists r,
    MCPRouter.route_command Examples.chatty (Examples.config_with [])
      (Examples.ask openai "gpt-4o-mini") None []
    = (Ok (MCPResponse.mk MCPResponse.clarification_needed (Some r)
             "Need clarification" [] []),
       [EvGenerate openai "gpt-4o-mini" "Create a 20mm cube" None Examples.warm (Some 2000)])
    /\ LLMResponse.success r = true.
Proof. eexists. split; [vm_compute; reflexivity|reflexivity]. Qed.

Example health_check_lists_configured :
  MCPRouter.route_command Examples.all_down (Examples.config_with [])
    (MCPCommand.mk MCPCommand.health_check None None None []) None []
  = (Ok (MCPResponse.mk MCPResponse.success None
           "Healthy providers: ['ollama', 'openai']" [] []), []).
Proof. vm_compute. reflexivity. Qed.

(* ================================================================== *)
(** * Further properties of the code                                   *)
(* ================================================================== *)

(** ** The retry loop, whatever the adapter does *)

Section RetryAny.
Variables (w : World) (config : Config.t) (client : Provider).
Variables (model prompt : string) (system_prompt : option string).
Variables (temperature : Float) (max_tokens : option Z).

Let call : Event :=
  EvGenerate client model prompt system_prompt temperature max_tokens.
Let pause : Event := EvSleep (Config.retry_delay config).

Lemma attempt_body_returns (h : History) (g : Generated.t) :
  client_generate client w (h ++ [call]) model = Ok g ->
  MCPRouter.attempt_body w model prompt system_prompt temperature max_tokens client h
  = (Ok (Expected.accepted temperature client g), h ++ [call]).
Proof.
  intros H. unfold MCPRouter.attempt_body, bind, emit, history, lift, ret.
  fold call. rewrite H.
  destruct (client_generate_signs _ _ _ _ _ H) as [Hp Hm].
  destruct (MCPRouter.parse_action (Generated.json g)) as [a q] eqn:Ea.
  unfold LLMResponseMetadata.new, Expected.accepted.
  rewrite Ea, Hp, provider_of_name_name. reflexivity.
Qed.

Lemma failed_run_snoc (n : nat) :
  Spec.failed_run call pause (S (S n))
  = call :: pause :: Spec.failed_run call pause (S n).
Proof. reflexivity. Qed.

(** From attempt number [k] with [n] attempts left: the loop makes [m]
    calls separated by pauses, at least one when any attempt is left, and
    all [n] of them when it falls through. *)
Lemma attempts_discipline (n : nat) :
  forall (k : nat) (last_error : option PyExc) (h : History),
    Z.of_nat (k + n) = Config.max_retries config ->
    exists m out,
      MCPRouter.attempts w config model prompt system_prompt temperature max_tokens
        client (map Z.of_nat (seq k n)) last_error h
      = (Ok out, h ++ Spec.failed_run call pause m)
      /\ (m <= n)%nat
      /\ (n <> O -> m <> O)
      /\ match out with
         | inl r =>
             exists g, client_generate client w (h ++ Spec.failed_run call pause m) model
                       = Ok g
                       /\ r = Expected.accepted temperature client g
         | inr last =>
             m = n
             /\ (n = O -> last = last_error)
             /\ (n <> O ->
                 exists e, client_generate client w (h ++ Spec.failed_run call pause m) model
                           = Raise e
                           /\ last = Some e)
         end.
Proof.
  induction n as [|n IH]; intros k last_error h Hk.
  - exists O, (inr last_error). simpl. rewrite app_nil_r.
    repeat split; try lia; try congruence.
  - cbn [seq map MCPRouter.attempts]. unfold try_except, bind at 1.
    destruct (client_generate client w (h ++ [call]) model) as [g|e] eqn:Hg.
    + rewrite (attempt_body_returns h g Hg).
      exists 1%nat, (inl (Expected.accepted temperature client g)). simpl.
      repeat split; try lia. exists g. auto.
    + rewrite (attempt_body_raises w client model prompt system_prompt
                 temperature max_tokens h e Hg).
      destruct n as [|n].
      * assert (Hlt : (Z.of_nat k <? Config.max_retries config - 1) = false)
          by (apply Z.ltb_ge; lia).
        rewrite Hlt. exists 1%nat, (inr (Some e)). simpl. unfold bind, ret. simpl.
        repeat split; try lia; try congruence. intros _. exists e. auto.
      * assert (Hlt : (Z.of_nat k <? Config.max_retries config - 1) = true)
          by (apply Z.ltb_lt; lia).
        rewrite Hlt. unfold bind at 1, emit. fold pause.
        destruct (IH (S k) (Some e) ((h ++ [call]) ++ [pause]))
          as (m & out & Hrun & Hle & Hpos & Hout).
        { rewrite <- Hk. f_equal. lia. }
        destruct m as [|m]; [exfalso; apply Hpos; [discriminate|reflexivity]|].
        exists (S (S m)), out. fold call. rewrite Hrun, failed_run_snoc.
        rewrite <- !app_assoc. simpl.
        split; [reflexivity|]. split; [lia|]. split; [discriminate|].
        rewrite <- !app_assoc in Hout. simpl in Hout.
        destruct out as [r|last]; [exact Hout|].
        destruct Hout as (Hm & _ & Hn). split; [lia|].
        split; [discriminate|]. intros _. apply Hn. discriminate.
Qed.
End RetryAny.

Lemma range_seq (n : Z) : MCPRouter.range n = map Z.of_nat (seq 0 (Z.to_nat n)).
Proof. reflexivity. Qed.

(** X1. For a configured provider and any behaviour of its adapter,
    [_generate_with_retry] returns a response after [m] calls with a
    pause between consecutive calls and none after the last; [m] is at
    most the retry count, at least one when the response is a success
    (which then wraps what the last call returned), and exactly the retry
    count when it is a failure. *)
Theorem retry_discipline
        (w : World) (config : Config.t) (client : Provider)
        (model prompt : string) (system_prompt : option string)
        (temperature : Float) (max_tokens : option Z) (h : History) :
  In client (MCPRouter.clients config) ->
  let call := EvGenerate client model prompt system_prompt temperature max_tokens in
  let pause := EvSleep (Config.retry_delay config) in
  exists m r,
    MCPRouter._generate_with_retry w config (provider_name client) model prompt
      system_prompt temperature max_tokens h
    = (Ok r, h ++ Spec.failed_run call pause m)
    /\ Spec.generate_calls (Spec.failed_run call pause m) = m
    /\ Spec.sleeps (Spec.failed_run call pause m) = (m - 1)%nat
    /\ (m <= Z.to_nat (Config.max_retries config))%nat
    /\ (LLMResponse.success r = true ->
        (1 <= m)%nat
        /\ exists g,
            client_generate client w (h ++ Spec.failed_run call pause m) model = Ok g
            /\ r = Expected.accepted temperature client g)
    /\ (LLMResponse.success r = false ->
        m = Z.to_nat (Config.max_retries config)).
Proof.
  intros Hin call pause.
  unfold MCPRouter._generate_with_retry.
  rewrite (lookup_client_configured _ _ Hin), range_seq.
  destruct (Z.to_nat (Config.max_retries config)) as [|n] eqn:En.
  - exists O. eexists. unfold bind, lift, MCPRouter.all_failed, LLMResponseMetadata.new.
    simpl. rewrite provider_of_name_name, app_nil_r.
    split; [reflexivity|]. simpl. repeat split; try lia; discriminate.
  - destruct (attempts_discipline w config client model prompt system_prompt
                temperature max_tokens (S n) O None h ltac:(simpl; lia))
      as (m & out & Hrun & Hle & Hpos & Hout).
    exists m. unfold bind at 1. fold call pause. rewrite Hrun.
    destruct (failed_run_calls call pause m) as (Hc & Hs & _); try reflexivity.
    destruct out as [r|last].
    + exists r. unfold ret. destruct Hout as (g & Hg & ->).
      repeat split; try assumption.
      * specialize (Hpos ltac:(discriminate)). lia.
      * exists g. auto.
      * discriminate.
    + destruct Hout as (-> & _ & _).
      unfold lift, MCPRouter.all_failed, LLMResponseMetadata.new.
      rewrite provider_of_name_name. eexists.
      repeat split; try assumption; try lia. discriminate.
Qed.

Lemma retry_discipline_witness :
  exists m r,
    MCPRouter._generate_with_retry Scenes.flaky (Examples.config_with [])
      "openai" "gpt-4o-mini" "Create a 20mm cube" None Examples.warm (Some 2000) []
    = (Ok r,
       [] ++ Spec.failed_run
               (EvGenerate openai "gpt-4o-mini" "Create a 20mm cube" None
                  Examples.warm (Some 2000))
               (EvSleep Examples.one_second) m)
    /\ (m <= 3)%nat.
Proof.
  destruct (retry_discipline Scenes.flaky (Examples.config_with []) openai
              "gpt-4o-mini" "Create a 20mm cube" None Examples.warm (Some 2000) [])
    as (m & r & Hrun & _ & _ & Hle & _).
  - simpl. auto.
  - exists m, r. split; [exact Hrun|exact Hle].
Defined.

Section RetryUntil.
Variables (w : World) (config : Config.t) (client : Provider).
Variables (model prompt : string) (system_prompt : option string).
Variables (temperature : Float) (max_tokens : option Z).

Let call : Event :=
  EvGenerate client model prompt system_prompt temperature max_tokens.
Let pause : Event := EvSleep (Config.retry_delay config).

(** [k] attempts raise, the next one returns: the loop returns there,
    and what is left of it is not run. *)
Lemma attempts_until_success (k : nat) :
  forall (j : nat) (last_error : option PyExc) (h : History) (g : Generated.t)
         (rest : list Z),
    Z.of_nat (j + k) < Config.max_retries config ->
    (forall i, (i < k)%nat ->
               exists e, client_generate client w (h ++ Spec.failed_run call pause (S i))
                           model = Raise e) ->
    client_generate client w (h ++ Spec.failed_run call pause (S k)) model = Ok g ->
    MCPRouter.attempts w config model prompt system_prompt temperature max_tokens
      client (map Z.of_nat (seq j (S k)) ++ rest) last_error h
    = (Ok (inl (Expected.accepted temperature client g)),
       h ++ Spec.failed_run call pause (S k)).
Proof.
  induction k as [|k IH]; intros j last_error h g rest Hj Hraise Hok.
  - cbn [seq map app MCPRouter.attempts]. unfold try_except, bind at 1.
    now rewrite (attempt_body_returns w client model prompt system_prompt
                   temperature max_tokens h g Hok).
  - cbn [seq map app MCPRouter.attempts]. unfold try_except, bind at 1.
    destruct (Hraise O ltac:(lia)) as [e He].
    rewrite (attempt_body_raises w client model prompt system_prompt
               temperature max_tokens h e He).
    assert (Hlt : (Z.of_nat j <? Config.max_retries config - 1) = true)
      by (apply Z.ltb_lt; lia).
    rewrite Hlt. unfold bind at 1, emit. fold call pause.
    change (Spec.failed_run call pause (S (S k)))
      with (call :: pause :: Spec.failed_run call pause (S k)) in *.
    replace (h ++ call :: pause :: Spec.failed_run call pause (S k))
      with (((h ++ [call]) ++ [pause]) ++ Spec.failed_run call pause (S k)) in *
      by (rewrite <- !app_assoc; reflexivity).
    apply (IH (S j) (Some e) ((h ++ [call]) ++ [pause]) g rest); [lia| |exact Hok].
    intros i Hi. destruct (Hraise (S i) ltac:(lia)) as [e' He'].
    exists e'.
    change (Spec.failed_run call pause (S (S i)))
      with (call :: pause :: Spec.failed_run call pause (S i)) in He'.
    rewrite <- !app_assoc. exact He'.
Qed.
End RetryUntil.

(** X2. When the adapter of a configured provider raises at its first
    [k] calls and returns at the next, with [k] below the retry count,
    [_generate_with_retry] makes exactly [k + 1] calls and [k] pauses and
    returns the success built from what that call returned: the
    remaining attempts are not made and no pause follows the success. *)
Theorem retry_stops_at_first_success
        (w : World) (config : Config.t) (client : Provider)
        (model prompt : string) (system_prompt : option string)
        (temperature : Float) (max_tokens : option Z) (h : History)
        (k : nat) (g : Generated.t) :
  In client (MCPRouter.clients config) ->
  Z.of_nat k < Config.max_retries config ->
  let call := EvGenerate client model prompt system_prompt temperature max_tokens in
  let pause := EvSleep (Config.retry_delay config) in
  (forall i, (i < k)%nat ->
             exists e, client_generate client w (h ++ Spec.failed_run call pause (S i))
                         model = Raise e) ->
  client_generate client w (h ++ Spec.failed_run call pause (S k)) model = Ok g ->
  MCPRouter._generate_with_retry w config (provider_name client) model prompt
    system_prompt temperature max_tokens h
  = (Ok (Expected.accepted temperature client g), h ++ Spec.failed_run call pause (S k))
  /\ Spec.generate_calls (Spec.failed_run call pause (S k)) = S k
  /\ Spec.sleeps (Spec.failed_run call pause (S k)) = k.
Proof.
  intros Hin Hk call pause Hraise Hok.
  destruct (failed_run_calls call pause (S k)) as (Hc & Hs & _); try reflexivity.
  split; [|split; [exact Hc|rewrite Hs; lia]].
  unfold MCPRouter._generate_with_retry.
  rewrite (lookup_client_configured _ _ Hin), range_seq.
  replace (Z.to_nat (Config.max_retries config))
    with (S k + (Z.to_nat (Config.max_retries config) - S k))%nat by lia.
  rewrite seq_app, map_app. unfold bind at 1.
  now rewrite (attempts_until_success w config client model prompt system_prompt
                 temperature max_tokens k O None h g _ ltac:(simpl; lia) Hraise Hok).
Qed.

Lemma retry_stops_at_first_success_witness :
  exists g,
    MCPRouter._generate_with_retry Scenes.flaky (Examples.config_with [])
      "openai" "gpt-4o-mini" "Create a 20mm cube" None Examples.warm (Some 2000) []
    = (Ok (Expected.accepted Examples.warm openai g),
       [ EvGenerate openai "gpt-4o-mini" "Create a 20mm cube" None Examples.warm (Some 2000);
         EvSleep Examples.one_second;
         EvGenerate openai "gpt-4o-mini" "Create a 20mm cube" None Examples.warm (Some 2000);
         EvSleep Examples.one_second;
         EvGenerate openai "gpt-4o-mini" "Create a 20mm cube" None Examples.warm (Some 2000) ])
    /\ Generated.output g = Examples.box_text.
Proof.
  eexists. split.
  - apply (retry_stops_at_first_success Scenes.flaky (Examples.config_with []) openai
             "gpt-4o-mini" "Create a 20mm cube" None Examples.warm (Some 2000) [] 2%nat).
    + simpl. auto.
    + simpl. lia.
    + intros i Hi. destruct i as [|[|i]]; [| |lia]; eexists; vm_compute; reflexivity.
    + vm_compute. reflexivity.
  - reflexivity.
Defined.

(** X3. With a retry count of zero or less the loop body never runs: a
    configured provider is not called at all, and the failed response
    carries the text [None] (the string of the error that was never
    raised) and the retry count as configured. *)
Theorem no_attempt_without_retries
        (w : World) (config : Config.t) (client : Provider)
        (model prompt : string) (system_prompt : option string)
        (temperature : Float) (max_tokens : option Z) (h : History) :
  In client (MCPRouter.clients config) ->
  Config.max_retries config <= 0 ->
  MCPRouter._generate_with_retry w config (provider_name client) model prompt
    system_prompt temperature max_tokens h
  = (Ok (Expected.exhausted config client model "None"), h).
Proof.
  intros Hin HN. unfold MCPRouter._generate_with_retry.
  rewrite (lookup_client_configured _ _ Hin), range_seq.
  replace (Z.to_nat (Config.max_retries config)) with O by lia.
  unfold bind, lift, MCPRouter.all_failed, LLMResponseMetadata.new. simpl.
  now rewrite provider_of_name_name.
Qed.

Lemma no_attempt_without_retries_witness :
  MCPRouter._generate_with_retry Examples.local_only Scenes.no_retries
    "openai" "gpt-4o-mini" "Create a 20mm cube" None Examples.warm (Some 2000) []
  = (Ok (Expected.exhausted Scenes.no_retries openai "gpt-4o-mini" "None"), []).
Proof.
  apply (no_attempt_without_retries Examples.local_only Scenes.no_retries openai
           "gpt-4o-mini" "Create a 20mm cube" None Examples.warm (Some 2000) []).
  - simpl. auto.
  - simpl. lia.
Defined.

(** ** What one command can cause *)

Lemma generate_calls_app (a b : History) :
  Spec.generate_calls (a ++ b) = (Spec.generate_calls a + Spec.generate_calls b)%nat.
Proof. unfold Spec.generate_calls. now rewrite filter_app, length_app. Qed.

Lemma sleeps_app (a b : History) :
  Spec.sleeps (a ++ b) = (Spec.sleeps a + Spec.sleeps b)%nat.
Proof. unfold Spec.sleeps. now rewrite filter_app, length_app. Qed.

Lemma failed_run_Forall (P : Event -> Prop) (call pause : Event) (m : nat) :
  P call -> P pause -> Forall P (Spec.failed_run call pause m).
Proof.
  intros Hc Hp. induction m as [|m IH]; [constructor|].
  destruct m as [|m]; [repeat constructor; assumption|].
  change (Spec.failed_run call pause (S (S m)))
    with (call :: pause :: Spec.failed_run call pause (S m)).
  repeat constructor; assumption.
Qed.

Section Events.
Variables (w : World) (config : Config.t).
Variables (prompt : string) (system_prompt : option string).
Variables (temperature : Float) (max_tokens : option Z).

Let caused : Event -> Prop :=
  Expected.caused_by config prompt system_prompt temperature max_tokens.

(** Whatever it is asked and however it ends, [_generate_with_retry]
    only adds calls to a configured adapter and pauses, at most
    [max_retries] calls, and no more pauses than calls. *)
Lemma generate_with_retry_events (provider model : string) (h : History) :
  exists evs,
    snd (MCPRouter._generate_with_retry w config provider model prompt system_prompt
           temperature max_tokens h) = h ++ evs
    /\ Forall caused evs
    /\ (Spec.generate_calls evs <= Z.to_nat (Config.max_retries config))%nat
    /\ (Spec.sleeps evs <= Spec.generate_calls evs)%nat.
Proof.
  unfold MCPRouter._generate_with_retry.
  destruct (MCPRouter.lookup_client config provider) as [client|] eqn:E.
  - apply lookup_client_Some in E. destruct E as [Hin _].
    rewrite range_seq.
    destruct (Z.to_nat (Config.max_retries config)) as [|n] eqn:En.
    { exists []. rewrite app_nil_r. split; [reflexivity|].
      split; [constructor|]. split; [cbv; lia|cbv; lia]. }
    destruct (attempts_discipline w config client model prompt system_prompt
                temperature max_tokens (S n) O None h ltac:(simpl; lia))
      as (m & out & Hrun & Hle & _ & _).
    exists (Spec.failed_run
              (EvGenerate client model prompt system_prompt temperature max_tokens)
              (EvSleep (Config.retry_delay config)) m).
    unfold bind at 1. rewrite Hrun.
    destruct (failed_run_calls
                (EvGenerate client model prompt system_prompt temperature max_tokens)
                (EvSleep (Config.retry_delay config)) m) as (Hc & Hs & _);
      try reflexivity.
    split.
    { destruct out as [r|last]; reflexivity. }
    split; [apply failed_run_Forall; simpl; auto|].
    rewrite Hc, Hs. lia.
  - exists []. rewrite app_nil_r. split; [reflexivity|].
    split; [constructor|]. split; [cbv; lia|cbv; lia].
Qed.


(** The same down a fallback chain, with at most [max_retries] calls per
    entry. *)
Lemma fallback_loop_events (chain : list string) :
  forall (r0 : LLMResponse.t) (h : History),
  exists evs,
    snd (MCPRouter.fallback_loop w config prompt system_prompt temperature max_tokens
           chain r0 h) = h ++ evs
    /\ Forall caused evs
    /\ (Spec.generate_calls evs
        <= Z.to_nat (Config.max_retries config) * length chain)%nat
    /\ (Spec.sleeps evs <= Spec.generate_calls evs)%nat.
Proof.
  induction chain as [|entry rest IH]; intros r0 h.
  - exists []. rewrite app_nil_r. split; [reflexivity|].
    split; [constructor|]. split; [cbv; lia|cbv; lia].
  - cbn [MCPRouter.fallback_loop].
    destruct (MCPRouter._parse_model_string entry) as [fp fm].
    destruct (generate_with_retry_events fp fm h) as (evs1 & H1 & F1 & C1 & S1).
    unfold bind.
    destruct (MCPRouter._generate_with_retry w config fp fm prompt system_prompt
                temperature max_tokens h) as [[r|e] h1]; simpl in H1; subst h1.
    + destruct (LLMResponse.success r).
      * exists evs1. repeat split; try assumption. simpl. nia.
      * destruct (IH r (h ++ evs1)) as (evs2 & H2 & F2 & C2 & S2).
        exists (evs1 ++ evs2). rewrite H2, app_assoc.
        split; [reflexivity|]. split; [now apply Forall_app|].
        rewrite generate_calls_app, sleeps_app. simpl. nia.
    + exists evs1. repeat split; try assumption. simpl. nia.
Qed.
End Events.

Lemma route_ask_model_events
      (w : World) (config : Config.t) (command : MCPCommand.t)
      (params : ModelParams.t) (system_prompt : option string) (h : History) :
  MCPCommand.command command = MCPCommand.ask_model ->
  MCPCommand.params command = Some params ->
  exists evs,
    snd (MCPRouter.route_command w config command system_prompt h) = h ++ evs
    /\ Forall (Expected.caused_by config
                 (MCPRouter.context_prompt (MCPCommand.context command)
                    (ModelParams.prompt params))
                 system_prompt (ModelParams.temperature params)
                 (ModelParams.max_tokens params)) evs
    /\ (Spec.generate_calls evs
        <= Z.to_nat (Config.max_retries config)
           * (1 + length (Config.fallback_chain config)))%nat
    /\ (Spec.sleeps evs <= Spec.generate_calls evs)%nat.
Proof.
  intros Hk Hp. unfold MCPRouter.route_command. rewrite Hk.
  unfold MCPRouter._handle_ask_model. rewrite Hp.
  set (prompt := MCPRouter.context_prompt (MCPCommand.context command)
                   (ModelParams.prompt params)).
  destruct (generate_with_retry_events w config prompt system_prompt
              (ModelParams.temperature params) (ModelParams.max_tokens params)
              (provider_name (ModelParams.provider params)) (ModelParams.model params) h)
    as (evs1 & H1 & F1 & C1 & S1).
  unfold bind at 1.
  destruct (MCPRouter._generate_with_retry w config _ _ prompt system_prompt _ _ h)
    as [[r|e] h1]; simpl in H1; subst h1.
  2:{ exists evs1. repeat split; try assumption. nia. }
  unfold bind at 1.
  destruct (negb (LLMResponse.success r)
            && match Config.fallback_chain config with [] => false | _ => true end).
  - destruct (fallback_loop_events w config prompt system_prompt
                (ModelParams.temperature params) (ModelParams.max_tokens params)
                (Config.fallback_chain config) r (h ++ evs1))
      as (evs2 & H2 & F2 & C2 & S2).
    destruct (MCPRouter.fallback_loop w config prompt system_prompt _ _ _ r (h ++ evs1))
      as [[r2|e2] h2]; simpl in H2; subst h2.
    + exists (evs1 ++ evs2). rewrite app_assoc.
      split.
      { destruct (LLMResponse.success r2); [destruct (MCPRouter.actions_of r2)|];
          reflexivity. }
      split; [now apply Forall_app|].
      rewrite generate_calls_app, sleeps_app. nia.
    + exists (evs1 ++ evs2). rewrite app_assoc.
      split; [reflexivity|]. split; [now apply Forall_app|].
      rewrite generate_calls_app, sleeps_app. nia.
  - exists evs1. unfold ret at 1.
    split.
    { destruct (LLMResponse.success r); [destruct (MCPRouter.actions_of r)|];
        reflexivity. }
    split; [assumption|]. nia.
Qed.

(** X7. One [ask_model] command makes at most
    [max_retries * (1 + len(fallback_chain))] calls to the providers, and
    never pauses more often than it calls, whatever the providers do and
    whether it ends with an envelope or with an exception. *)
Theorem ask_model_call_bound
        (w : World) (config : Config.t) (command : MCPCommand.t)
        (system_prompt : option string) (h : History) :
  MCPCommand.command command = MCPCommand.ask_model ->
  exists evs,
    snd (MCPRouter.route_command w config command system_prompt h) = h ++ evs
    /\ (Spec.generate_calls evs
        <= Z.to_nat (Config.max_retries config)
           * (1 + length (Config.fallback_chain config)))%nat
    /\ (Spec.sleeps evs <= Spec.generate_calls evs)%nat.
Proof.
  intros Hk. destruct (MCPCommand.params command) as [params|] eqn:Hp.
  - destruct (route_ask_model_events w config command params system_prompt h Hk Hp)
      as (evs & H1 & _ & H3 & H4).
    exists evs. auto.
  - exists []. unfold MCPRouter.route_command. rewrite Hk.
    unfold MCPRouter._handle_ask_model. rewrite Hp.
    rewrite app_nil_r. split; [reflexivity|]. split; cbv; lia.
Qed.

Lemma ask_model_call_bound_witness :
  exists evs,
    snd (MCPRouter.route_command Scenes.flaky (Examples.config_with ["ollama:llama3"])
           (Examples.ask openai "gpt-4o-mini") None []) = [] ++ evs
    /\ (Spec.generate_calls evs <= 6)%nat
    /\ (Spec.sleeps evs <= Spec.generate_calls evs)%nat.
Proof.
  apply (ask_model_call_bound Scenes.flaky (Examples.config_with ["ollama:llama3"])
           (Examples.ask openai "gpt-4o-mini") None []).
  reflexivity.
Defined.

(** X8. Every provider call one [ask_model] command makes, to the
    primary provider or down the fallback chain, goes to a configured
    adapter and carries the same prompt (the user's prompt behind the
    rendered design context), system prompt, temperature and token
    limit; every pause lasts the configured delay; and no model listing
    is queried. *)
Theorem ask_model_requests_are_uniform
        (w : World) (config : Config.t) (command : MCPCommand.t)
        (params : ModelParams.t) (system_prompt : option string) (h : History) :
  MCPCommand.command command = MCPCommand.ask_model ->
  MCPCommand.params command = Some params ->
  exists evs,
    snd (MCPRouter.route_command w config command system_prompt h) = h ++ evs
    /\ Forall (Expected.caused_by config
                 (MCPRouter.context_prompt (MCPCommand.context command)
                    (ModelParams.prompt params))
                 system_prompt (ModelParams.temperature params)
                 (ModelParams.max_tokens params)) evs.
Proof.
  intros Hk Hp.
  destruct (route_ask_model_events w config command params system_prompt h Hk Hp)
    as (evs & H1 & H2 & _).
  exists evs. auto.
Qed.

Lemma ask_model_requests_are_uniform_witness :
  exists evs,
    snd (MCPRouter.route_command Examples.claude_only
           (Examples.full_config ["ollama:llama3"; "claude:claude-3-5-sonnet"])
           (Examples.ask openai "gpt-4o-mini") None []) = [] ++ evs
    /\ Forall (Expected.caused_by
                 (Examples.full_config ["ollama:llama3"; "claude:claude-3-5-sonnet"])
                 "Create a 20mm cube" None Examples.warm (Some 2000)) evs.
Proof.
  apply (ask_model_requests_are_uniform Examples.claude_only
           (Examples.full_config ["ollama:llama3"; "claude:claude-3-5-sonnet"])
           (Examples.ask openai "gpt-4o-mini")
           (ModelParams.mk openai "gpt-4o-mini" "Create a 20mm cube"
              Examples.warm (Some 2000)) None []); reflexivity.
Defined.

(** ** Fallback *)

(** X4. When the primary attempt succeeds the fallback chain is not
    looked at: the envelope carries the primary response and nothing
    happens after the primary attempt, even when the chain holds an entry
    that would raise. *)
Theorem primary_success_skips_fallback
        (w : World) (config : Config.t) (command : MCPCommand.t)
        (params : ModelParams.t) (system_prompt : option string)
        (h h1 : History) (r : LLMResponse.t) :
  MCPCommand.command command = MCPCommand.ask_model ->
  MCPCommand.params command = Some params ->
  MCPRouter._generate_with_retry w config
    (provider_name (ModelParams.provider params)) (ModelParams.model params)
    (MCPRouter.context_prompt (MCPCommand.context command) (ModelParams.prompt params))
    system_prompt (ModelParams.temperature params) (ModelParams.max_tokens params) h
  = (Ok r, h1) ->
  LLMResponse.success r = true ->
  exists envelope,
    MCPRouter.route_command w config command system_prompt h = (Ok envelope, h1)
    /\ MCPResponse.llm_response envelope = Some r
    /\ MCPResponse.actions_to_execute envelope = MCPRouter.actions_of r.
Proof.
  intros Hk Hp Hrun Hs.
  unfold MCPRouter.route_command. rewrite Hk.
  unfold MCPRouter._handle_ask_model. rewrite Hp.
  unfold bind at 1. rewrite Hrun. unfold bind at 1. rewrite Hs.
  cbn [negb andb]. unfold ret at 1. rewrite Hs.
  destruct (MCPRouter.actions_of r) eqn:Ha; eexists; repeat split;
    simpl; auto.
Qed.

Lemma primary_success_skips_fallback_witness :
  exists envelope,
    MCPRouter.route_command Examples.local_only
      (Examples.local_config ["local:llama3"]) (Examples.ask ollama "llama3") None []
    = (Ok envelope,
       [EvGenerate ollama "llama3" "Create a 20mm cube" None Examples.warm (Some 2000)])
    /\ MCPResponse.actions_to_execute envelope = [Examples.box].
Proof.
  destruct (primary_success_skips_fallback Examples.local_only
              (Examples.local_config ["local:llama3"]) (Examples.ask ollama "llama3")
              (ModelParams.mk ollama "llama3" "Create a 20mm cube"
                 Examples.warm (Some 2000))
              None []
              [EvGenerate ollama "llama3" "Create a 20mm cube" None Examples.warm
                 (Some 2000)]
              (Expected.accepted Examples.warm ollama
                 (Generated.mk "ollama" "llama3" Examples.box_text
                    (OllamaClient._parse_json Examples.box_text) (Some 12)
                    (Some (FDec false 15 0)))))
    as (envelope & Hrun & _ & Hact).
  - reflexivity.
  - reflexivity.
  - vm_compute. reflexivity.
  - reflexivity.
  - exists envelope. split; [exact Hrun|]. rewrite Hact. vm_compute. reflexivity.
Defined.

(** X5. After a failed primary attempt, and with a non-empty chain whose
    entries all name one of the four providers, the router walks the
    chain in its order, gives every entry the request of the primary
    attempt, stops at the first entry that succeeds or else keeps the
    failure of the last one, and returns an envelope that carries that
    response, which names the provider and the model of the entry that
    produced it. *)
Theorem fallback_walk_in_order
        (w : World) (config : Config.t) (command : MCPCommand.t)
        (params : ModelParams.t) (system_prompt : option string)
        (h h1 : History) (r0 : LLMResponse.t) :
  MCPCommand.command command = MCPCommand.ask_model ->
  MCPCommand.params command = Some params ->
  let prompt := MCPRouter.context_prompt (MCPCommand.context command)
                  (ModelParams.prompt params) in
  let run provider model :=
    MCPRouter._generate_with_retry w config provider model prompt system_prompt
      (ModelParams.temperature params) (ModelParams.max_tokens params) in
  run (provider_name (ModelParams.provider params)) (ModelParams.model params) h
  = (Ok r0, h1) ->
  LLMResponse.success r0 = false ->
  Config.fallback_chain config <> [] ->
  Forall Spec.well_formed_entry (Config.fallback_chain config) ->
  exists r h' envelope entry,
    Spec.Walk run h1 (Config.fallback_chain config) h' r
    /\ MCPRouter.route_command w config command system_prompt h = (Ok envelope, h')
    /\ MCPResponse.llm_response envelope = Some r
    /\ In entry (Config.fallback_chain config)
    /\ LLMResponse.provider r = fst (MCPRouter._parse_model_string entry)
    /\ LLMResponse.model r = snd (MCPRouter._parse_model_string entry).
Proof.
  intros Hk Hp prompt run Hrun Hs Hne Hwf.
  destruct (route_follows_walk w config command params system_prompt h h1 r0
              Hk Hp Hrun Hs Hne Hwf) as (r & h' & envelope & Hwalk & Hroute & Hresp).
  destruct (walk_reports w config prompt system_prompt
              (ModelParams.temperature params) (ModelParams.max_tokens params)
              _ _ _ _ Hwalk) as (entry & Hin & Hp' & Hm').
  exists r, h', envelope, entry. repeat split; assumption.
Qed.

Lemma fallback_walk_in_order_witness :
  exists r h' envelope,
    MCPRouter.route_command Examples.claude_only
      (Examples.full_config ["ollama:llama3"; "claude:claude-3-5-sonnet"])
      (Examples.ask openai "gpt-4o-mini") None [] = (Ok envelope, h')
    /\ MCPResponse.llm_response envelope = Some r
    /\ exists entry,
        In entry ["ollama:llama3"; "claude:claude-3-5-sonnet"]
        /\ LLMResponse.provider r = fst (MCPRouter._parse_model_string entry).
Proof.
  destruct (fallback_walk_in_order Examples.claude_only
              (Examples.full_config ["ollama:llama3"; "claude:claude-3-5-sonnet"])
              (Examples.ask openai "gpt-4o-mini")
              (ModelParams.mk openai "gpt-4o-mini" "Create a 20mm cube"
                 Examples.warm (Some 2000))
              None []
              [ EvGenerate openai "gpt-4o-mini" "Create a 20mm cube" None Examples.warm
                  (Some 2000);
                EvSleep Examples.one_second;
                EvGenerate openai "gpt-4o-mini" "Create a 20mm cube" None Examples.warm
                  (Some 2000) ]
              (Expected.exhausted
                 (Examples.full_config ["ollama:llama3"; "claude:claude-3-5-sonnet"])
                 openai "gpt-4o-mini" "connection refused"))
    as (r & h' & envelope & entry & _ & Hroute & Hresp & Hin & Hprov & _).
  - reflexivity.
  - reflexivity.
  - vm_compute. reflexivity.
  - reflexivity.
  - discriminate.
  - repeat constructor; discriminate.
  - exists r, h', envelope. repeat split; try assumption.
    exists entry. split; assumption.
Defined.

(** ** The exceptions that can escape *)

Lemma generate_with_retry_raise_inv
      (w : World) (config : Config.t) (prompt : string)
      (system_prompt : option string) (temperature : Float) (max_tokens : option Z)
      (provider model : string) (h h' : History) (e : PyExc) :
  MCPRouter._generate_with_retry w config provider model prompt system_prompt
    temperature max_tokens h = (Raise e, h') ->
  e = ValidationError "LLMResponseMetadata" "provider"
  /\ provider_of_name provider = None.
Proof.
  intros H. destruct (provider_of_name provider) as [p|] eqn:Hp.
  - destruct (generate_with_retry_total w config prompt system_prompt temperature
                max_tokens provider model h) as (r & h2 & Hr); [congruence|].
    rewrite Hr in H. discriminate.
  - rewrite (generate_with_retry_unknown_provider w config prompt system_prompt
               temperature max_tokens provider model h Hp) in H.
    inversion H. auto.
Qed.

Lemma fallback_loop_raise_inv
      (w : World) (config : Config.t) (prompt : string)
      (system_prompt : option string) (temperature : Float) (max_tokens : option Z)
      (chain : list string) :
  forall (r0 : LLMResponse.t) (h h' : History) (e : PyExc),
    MCPRouter.fallback_loop w config prompt system_prompt temperature max_tokens
      chain r0 h = (Raise e, h') ->
    e = ValidationError "LLMResponseMetadata" "provider"
    /\ exists entry,
        In entry chain
        /\ provider_of_name (fst (MCPRouter._parse_model_string entry)) = None.
Proof.
  induction chain as [|entry rest IH]; intros r0 h h' e H; [discriminate|].
  cbn [MCPRouter.fallback_loop] in H.
  destruct (MCPRouter._parse_model_string entry) as [fp fm] eqn:Hparse.
  unfold bind in H.
  destruct (MCPRouter._generate_with_retry w config fp fm prompt system_prompt
              temperature max_tokens h) as [[r|e1] h1] eqn:Hrun.
  - destruct (LLMResponse.success r); [discriminate|].
    destruct (IH _ _ _ _ H) as (He & entry' & Hin & Hbad).
    split; [exact He|]. exists entry'. split; [now right|exact Hbad].
  - inversion H; subst.
    destruct (generate_with_retry_raise_inv _ _ _ _ _ _ _ _ _ _ _ Hrun) as [He Hbad].
    split; [exact He|]. exists entry. split; [now left|].
    now rewrite Hparse.
Qed.

(** X6. The only exception [route_command] ever lets escape is the
    validation error of the response metadata, and only in two
    situations: a [list_models] command, or an [ask_model] command whose
    fallback chain holds an entry naming a provider outside the four.
    No exception of an adapter escapes. *)
Theorem only_metadata_validation_escapes
        (w : World) (config : Config.t) (command : MCPCommand.t)
        (system_prompt : option string) (h h' : History) (e : PyExc) :
  MCPRouter.route_command w config command system_prompt h = (Raise e, h') ->
  e = ValidationError "LLMResponseMetadata" "provider"
  /\ (MCPCommand.command command = MCPCommand.list_models
      \/ (MCPCommand.command command = MCPCommand.ask_model
          /\ exists entry,
              In entry (Config.fallback_chain config)
              /\ provider_of_name (fst (MCPRouter._parse_model_string entry)) = None)).
Proof.
  unfold MCPRouter.route_command.
  destruct (MCPCommand.command command) eqn:Hk; try discriminate.
  - (* ask_model *)
    unfold MCPRouter._handle_ask_model.
    destruct (MCPCommand.params command) as [params|]; [|discriminate].
    unfold bind at 1.
    destruct (MCPRouter._generate_with_retry _ _ _ _ _ _ _ _ h) as [[r|e1] h1] eqn:Hrun.
    2:{ destruct (generate_with_retry_raise_inv _ _ _ _ _ _ _ _ _ _ _ Hrun) as [_ Hbad].
        rewrite provider_of_name_name in Hbad. discriminate. }
    unfold bind at 1.
    destruct (negb (LLMResponse.success r)
              && match Config.fallback_chain config with [] => false | _ => true end).
    + destruct (MCPRouter.fallback_loop _ _ _ _ _ _ _ r h1) as [[r2|e2] h2] eqn:Hloop.
      * destruct (LLMResponse.success r2); [destruct (MCPRouter.actions_of r2)|];
          discriminate.
      * intros H. inversion H; subst.
        destruct (fallback_loop_raise_inv _ _ _ _ _ _ _ _ _ _ _ Hloop) as [He Hbad].
        split; [exact He|]. right. split; [reflexivity|exact Hbad].
    + unfold ret at 1.
      destruct (LLMResponse.success r); [destruct (MCPRouter.actions_of r)|];
        discriminate.
  - (* list_models *)
    unfold MCPRouter._handle_list_models, bind at 1.
    destruct (list_models_loop_total w (MCPRouter.clients config) [] h)
      as (models & -> & _).
    intros H. inversion H. split; [reflexivity|now left].
Qed.

Lemma only_metadata_validation_escapes_witness :
  ValidationError "LLMResponseMetadata" "provider"
  = ValidationError "LLMResponseMetadata" "provider"
  /\ (MCPCommand.command (Examples.ask openai "gpt-4o-mini") = MCPCommand.list_models
      \/ (MCPCommand.command (Examples.ask openai "gpt-4o-mini") = MCPCommand.ask_model
          /\ exists entry,
              In entry (Config.fallback_chain (Examples.local_config ["local:llama3"]))
              /\ provider_of_name (fst (MCPRouter._parse_model_string entry)) = None)).
Proof.
  apply (only_metadata_validation_escapes Examples.local_only
           (Examples.local_config ["local:llama3"])
           (Examples.ask openai "gpt-4o-mini") None [] []).
  vm_compute. reflexivity.
Defined.

(** ** From payload to actions *)

Lemma dict_has_nonempty (kw : list (string * JSON)) (k : string) :
  dict_has kw k = true -> truthy (JDict kw) = true.
Proof. destruct kw; [discriminate|reflexivity]. Qed.

(** X9. A payload is read as a sequence exactly when it is a mapping
    with an [actions] key that validates as an [ActionSequence], and as a
    single action exactly when it is a mapping without an [actions] key,
    with an [action] key, that validates as a [FusionAction]; it is never
    read as both.  So a mapping that holds both keys is only ever tried as
    a sequence. *)
Theorem payload_is_read_one_way (json : JSON) :
  (forall q,
      MCPRouter.parse_action json = (None, Some q)
      <-> exists kw, json = JDict kw
                     /\ dict_has kw "actions" = true
                     /\ ActionSequence.new kw = Ok q)
  /\ (forall a,
         MCPRouter.parse_action json = (Some a, None)
         <-> exists kw, json = JDict kw
                        /\ dict_has kw "actions" = false
                        /\ dict_has kw "action" = true
                        /\ FusionAction.new kw = Ok a)
  /\ (forall a q, MCPRouter.parse_action json <> (Some a, Some q)).
Proof.
  unfold MCPRouter.parse_action.
  split; [|split].
  - intros q. split.
    + destruct (truthy json); [|discriminate].
      destruct json as [| | | | | |kw]; try discriminate.
      destruct (dict_has kw "actions") eqn:Hs.
      * destruct (ActionSequence.new kw) as [q'|] eqn:Hq; [|discriminate].
        intros H. inversion H; subst. exists kw. auto.
      * destruct (dict_has kw "action");
          [destruct (FusionAction.new kw)|]; discriminate.
    + intros (kw & -> & Hs & Hq). rewrite (dict_has_nonempty _ _ Hs), Hs, Hq.
      reflexivity.
  - intros a. split.
    + destruct (truthy json); [|discriminate].
      destruct json as [| | | | | |kw]; try discriminate.
      destruct (dict_has kw "actions") eqn:Hs.
      * destruct (ActionSequence.new kw); discriminate.
      * destruct (dict_has kw "action") eqn:Ha; [|discriminate].
        destruct (FusionAction.new kw) as [a'|] eqn:Hn; [|discriminate].
        intros H. inversion H; subst. exists kw. auto.
    + intros (kw & -> & Hs & Ha & Hn).
      rewrite (dict_has_nonempty _ _ Ha), Hs, Ha, Hn. reflexivity.
  - intros a q. destruct (truthy json); [|discriminate].
    destruct json as [| | | | | |kw]; try discriminate.
    destruct (dict_has kw "actions").
    + destruct (ActionSequence.new kw); discriminate.
    + destruct (dict_has kw "action");
        [destruct (FusionAction.new kw)|]; discriminate.
Qed.

Lemma payload_is_read_one_way_witness :
  MCPRouter.parse_action
    (JDict [("action", JStr "create_box"); ("params", JDict [("width", JInt 20)])])
  = (Some Examples.box, None).
Proof.
  apply (proj1 (proj2 (payload_is_read_one_way _)) Examples.box).
  eexists. repeat split.
Defined.

Lemma list_of_raises {A} (item : JSON -> result A) (l : list JSON) (v : JSON) (e : PyExc) :
  In v l -> item v = Raise e -> exists e', Pydantic.list_of item l = Raise e'.
Proof.
  intros Hin Hv. induction l as [|x l IH]; [contradiction|].
  simpl. destruct Hin as [->|Hin].
  - rewrite Hv. eauto.
  - destruct (item x); [|eauto].
    destruct (IH Hin) as [e' ->]. eauto.
Qed.

(** X10. A sequence is accepted whole or not at all: when one item of
    the [actions] list of a payload does not validate as a
    [FusionAction], the payload yields no action at all, the valid items
    included, and no exception. *)
Theorem one_invalid_action_drops_the_sequence
        (kw : list (string * JSON)) (l : list JSON) (v : JSON) (e : PyExc) :
  dict_get kw "actions" = Some (JList l) ->
  In v l ->
  FusionAction.validate v = Raise e ->
  MCPRouter.parse_action (JDict kw) = (None, None).
Proof.
  intros Hget Hin Hv.
  assert (Hhas : dict_has kw "actions" = true)
    by (unfold dict_has; now rewrite Hget).
  unfold MCPRouter.parse_action.
  rewrite (dict_has_nonempty _ _ Hhas), Hhas.
  unfold ActionSequence.new, Pydantic.required, Pydantic.list_field.
  rewrite Hget.
  destruct (list_of_raises FusionAction.validate l v e Hin Hv) as [e' ->].
  reflexivity.
Qed.

Lemma one_invalid_action_drops_the_sequence_witness :
  MCPRouter.parse_action
    (JDict [("actions",
             JList [FusionAction.model_dump Examples.box;
                    JDict [("action", JStr "create_hole")]]);
            ("total_steps", JInt 2)])
  = (None, None).
Proof.
  apply (one_invalid_action_drops_the_sequence _
           [FusionAction.model_dump Examples.box; JDict [("action", JStr "create_hole")]]
           (JDict [("action", JStr "create_hole")])
           (ValidationError "FusionAction" "params")).
  - reflexivity.
  - simpl. auto.
  - reflexivity.
Defined.

(** ** Model strings *)

Lemma contains_char_append (c : ascii) (a b : string) :
  contains_char c (a ++ b)%string = contains_char c a || contains_char c b.
Proof.
  induction a as [|x a IH]; simpl; [reflexivity|].
  now rewrite IH, orb_assoc.
Qed.

Lemma split1_at_first (c : ascii) (a b : string) :
  contains_char c a = false -> split1 c (a ++ String c b)%string = [a; b].
Proof.
  induction a as [|x a IH]; simpl.
  - intros _. now rewrite Ascii.eqb_refl.
  - destruct (Ascii.eqb x c); simpl; [discriminate|].
    intros H. now rewrite (IH H).
Qed.

(** X11. Writing a provider name that holds no colon, a colon and a model
    name, and parsing the result, gives back the provider and the model,
    whatever colons the model name holds. *)
Theorem model_string_round_trip (provider model : string) :
  contains_char ":" provider = false ->
  MCPRouter._parse_model_string (provider ++ ":" ++ model)%string = (provider, model).
Proof.
  intros H. unfold MCPRouter._parse_model_string.
  change (provider ++ ":" ++ model)%string with (provider ++ String ":" model)%string.
  rewrite contains_char_append. simpl. rewrite orb_true_r.
  now rewrite (split1_at_first _ _ _ H).
Qed.

Lemma model_string_round_trip_witness :
  MCPRouter._parse_model_string ("ollama" ++ ":" ++ "llama3:8b")%string
  = ("ollama", "llama3:8b").
Proof. apply (model_string_round_trip "ollama" "llama3:8b"). reflexivity. Defined.

(** ** The adapters *)













(** ** Payload extraction on replies that are objects

    The parser reads from the left and looks at most a few characters
    past what it consumes.  The lemmas below make this precise for every
    scanning function of [json.loads]: cutting the text anywhere in what
    a function leaves unread changes neither its value nor what it
    consumes ([cuttable]), and a function that matches a text matches
    every extension of it ([extends]). *)

Section ReadingFromTheLeft.
Import Locality.
#[local] Open Scope string_scope.

Lemma skip_ws_cut (s : string) :
  exists a, s = a ++ skip_ws s
            /\ forall t w, skip_ws s = t ++ w -> skip_ws (a ++ t) = t.
Proof.
  induction s as [|c s IH]; cbn [skip_ws].
  - exists EmptyString. split; [reflexivity|].
    intros [|] w H; [reflexivity|discriminate].
  - destruct (is_ws c) eqn:Hc.
    + destruct IH as (a & Hs & Ht). exists (String c a). split.
      * cbn. now f_equal.
      * intros t w H. cbn [append skip_ws]. rewrite Hc. now apply (Ht t w).
    + exists EmptyString. split; [reflexivity|].
      intros [|c' t] w H; [reflexivity|].
      cbn in H. injection H as <- _. cbn [append skip_ws]. now rewrite Hc.
Qed.

Lemma digits_cut (s : string) :
  forall acc len n len' r,
    digits s acc len = (n, len', r) ->
    exists a, s = a ++ r
              /\ forall t w, r = t ++ w -> digits (a ++ t) acc len = (n, len', t).
Proof.
  induction s as [|c s IH]; cbn [digits]; intros acc len n len' r H.
  - injection H as <- <- <-. exists EmptyString. split; [reflexivity|].
    intros [|] w H; [reflexivity|discriminate].
  - destruct (digit_val c) as [d|] eqn:Hc.
    + destruct (IH _ _ _ _ _ H) as (a & Hs & Ht). exists (String c a). split.
      * cbn. now f_equal.
      * intros t w Hr. cbn [append digits]. rewrite Hc. now apply (Ht t w).
    + injection H as <- <- <-. exists EmptyString. split; [reflexivity|].
      intros [|c' t] w H; [reflexivity|].
      cbn in H. injection H as <- _. cbn [append digits]. now rewrite Hc.
Qed.

Lemma digits_len_mono (s : string) :
  forall acc len, (len <= snd (fst (digits s acc len)))%nat.
Proof.
  induction s as [|c s IH]; intros acc len; cbn [digits fst snd]; [lia|].
  destruct (digit_val c); cbn [fst snd]; [|lia].
  specialize (IH (acc * 10 + n)%N (S len)). lia.
Qed.

Lemma match_int_uint (s : string) :
  match_int s
  = match s with
    | String c r => if Ascii.eqb c "-" then signed true (uint r) else signed false (uint s)
    | EmptyString => None
    end.
Proof.
  assert (Hu : forall neg s1,
             match s1 with
             | String c r =>
                 match digit_val c with
                 | Some 0%N => Some (neg, 0%N, r)
                 | Some d => let '(n, _, r') := digits r d 1 in Some (neg, n, r')
                 | None => None
                 end
             | EmptyString => None
             end = signed neg (uint s1)).
  { intros neg [|c r]; [reflexivity|]. cbn [uint].
    destruct (digit_val c) as [[|p]|]; try reflexivity.
    now destruct (digits r (N.pos p) 1) as [[n l] r']. }
  unfold match_int. destruct s as [|c r]; [reflexivity|].
  destruct (Ascii.eqb_spec c "-") as [->|Hc].
  - apply Hu.
  - rewrite <- Hu.
    destruct c as [[] [] [] [] [] [] [] []]; try reflexivity. congruence.
Qed.

Lemma uint_cut : cuttable uint.
Proof.
  intros [|c s] n r; [discriminate|]. cbn [uint].
  destruct (digit_val c) as [d|] eqn:Hd; [|discriminate].
  destruct d as [|p].
  - intros [= <- <-]. exists (String c EmptyString). split; [reflexivity|].
    intros t w _. cbn [append uint]. now rewrite Hd.
  - intros H.
    assert (Hdig : digits s (N.pos p) 1 = (n, snd (fst (digits s (N.pos p) 1)), r)).
    { destruct (digits s (N.pos p) 1) as [[? ?] ?]. now injection H as -> ->. }
    destruct (digits_cut _ _ _ _ _ _ Hdig) as (a & Hs & Ht).
    exists (String c a). split; [cbn; now f_equal|].
    intros t w Hr. cbn [append uint]. rewrite Hd, (Ht t w Hr). reflexivity.
Qed.

Lemma cut_nonempty {A} (f : string -> option (A * string)) (a t : string) (v : A) :
  Spec.consumes f -> f (a ++ t) = Some (v, t) -> a <> EmptyString.
Proof.
  intros Hf H ->. apply Hf in H. cbn in H. lia.
Qed.

Lemma uint_consumes : Spec.consumes uint.
Proof.
  intros [|c s] n r; [discriminate|]. cbn [uint String.length].
  destruct (digit_val c) as [[|p]|]; [| |discriminate].
  - intros [= <- <-]. lia.
  - destruct (digits s (N.pos p) 1) as [[n' l'] r'] eqn:Ed.
    apply digits_length in Ed. cbn [fst snd]. intros [= <- <-]. lia.
Qed.

Lemma match_int_cut : cuttable match_int.
Proof.
  intros s [neg n] r. rewrite match_int_uint.
  destruct s as [|c s]; [discriminate|].
  destruct (Ascii.eqb c "-") eqn:Hc.
  - destruct (uint s) as [[n' r']|] eqn:Hu; [|discriminate].
    cbn [signed]. intros [= <- <- <-].
    destruct (uint_cut _ _ _ Hu) as (a & Hs & Ht).
    exists (String c a). split; [cbn; now f_equal|].
    intros t w Hr. rewrite match_int_uint. cbn [append]. rewrite Hc.
    now rewrite (Ht t w Hr).
  - destruct (uint (String c s)) as [[n' r']|] eqn:Hu; [|discriminate].
    cbn [signed]. intros [= <- <- <-].
    destruct (uint_cut _ _ _ Hu) as (a & Hs & Ht).
    exists a. split; [exact Hs|].
    intros t w Hr. specialize (Ht t w Hr). rewrite match_int_uint.
    pose proof (cut_nonempty _ _ _ _ uint_consumes Ht) as Ha.
    destruct a as [|c' a']; [congruence|].
    cbn in Hs. injection Hs as <- _. cbn [append]. rewrite Hc.
    cbn [append] in Ht. now rewrite Ht.
Qed.

Lemma digits_grows (s w : string) :
  forall acc len, (snd (fst (digits s acc len)) <= snd (fst (digits (s ++ w) acc len)))%nat.
Proof.
  induction s as [|c s IH]; intros acc len.
  - cbn [append digits fst snd]. apply digits_len_mono.
  - cbn [append digits]. destruct (digit_val c); [apply IH|cbn; lia].
Qed.

Lemma uint_grows : extends uint.
Proof.
  intros [|c s] w; [cbn; congruence|]. cbn [append uint].
  destruct (digit_val c) as [[|p]|]; congruence.
Qed.

Lemma match_int_grows : extends match_int.
Proof.
  intros [|c s] w; [cbn; congruence|]. rewrite !match_int_uint. cbn [append].
  destruct (Ascii.eqb c "-").
  - pose proof (uint_grows s w) as H.
    destruct (uint s) as [[? ?]|]; cbn [signed]; [|congruence]. intros _.
    destruct (uint (s ++ w)) as [[? ?]|]; cbn [signed]; [congruence|]. exfalso. apply H; congruence.
  - pose proof (uint_grows (String c s) w) as H. cbn [append] in H.
    destruct (uint (String c s)) as [[? ?]|]; cbn [signed]; [|congruence]. intros _.
    destruct (uint (String c (s ++ w))) as [[? ?]|]; cbn [signed]; [congruence|].
    exfalso. apply H; congruence.
Qed.

Lemma match_frac_eq (s : string) :
  match_frac s
  = match s with
    | String c r =>
        if Ascii.eqb c "."
        then match snd (fst (digits r 0 0)) with
             | O => None
             | _ => Some (digits r 0 0)
             end
        else None
    | EmptyString => None
    end.
Proof.
  destruct s as [|c r]; [reflexivity|]. unfold match_frac.
  destruct (Ascii.eqb_spec c ".") as [->|Hc].
  - destruct (digits r 0 0) as [[n l] r']. reflexivity.
  - destruct c as [[] [] [] [] [] [] [] []]; try reflexivity. congruence.
Qed.

Lemma match_frac_cut : cuttable match_frac.
Proof.
  intros s [n len] r. rewrite match_frac_eq.
  destruct s as [|c s]; [discriminate|].
  destruct (Ascii.eqb c ".") eqn:Hc; [|discriminate].
  destruct (digits s 0 0) as [[n' l'] r'] eqn:Ed. cbn [fst snd].
  destruct l' as [|l']; [discriminate|]. intros [= <- <- <-].
  destruct (digits_cut _ _ _ _ _ _ Ed) as (a & Hs & Ht).
  exists (String c a). split; [cbn; now f_equal|].
  intros t w Hr. rewrite match_frac_eq. cbn [append]. rewrite Hc.
  now rewrite (Ht t w Hr).
Qed.

Lemma match_frac_grows : extends match_frac.
Proof.
  intros [|c s] w; [cbn; congruence|]. rewrite !match_frac_eq. cbn [append].
  destruct (Ascii.eqb c "."); [|congruence].
  pose proof (digits_grows s w 0%N 0%nat) as H.
  destruct (snd (fst (digits s 0 0))); [congruence|].
  destruct (snd (fst (digits (s ++ w) 0 0))); [lia|congruence].
Qed.

Lemma match_exp_eq (s : string) :
  match_exp s
  = match s with
    | String c r =>
        if Ascii.eqb c "e" || Ascii.eqb c "E" then
          match snd (fst (digits (snd (exp_sign r)) 0 0)) with
          | O => None
          | _ => Some (if fst (exp_sign r)
                       then Z.opp (Z.of_N (fst (fst (digits (snd (exp_sign r)) 0 0))))
                       else Z.of_N (fst (fst (digits (snd (exp_sign r)) 0 0))),
                       snd (digits (snd (exp_sign r)) 0 0))
          end
        else None
    | EmptyString => None
    end.
Proof.
  destruct s as [|c r]; [reflexivity|]. unfold match_exp.
  destruct (Ascii.eqb c "e" || Ascii.eqb c "E"); [|reflexivity].
  assert (Hs : match r with
               | String "-" r1 => (true, r1)
               | String "+" r1 => (false, r1)
               | _ => (false, r)
               end = exp_sign r).
  { destruct r as [|a r1]; [reflexivity|]. unfold exp_sign.
    destruct (Ascii.eqb_spec a "-") as [->|Hm]; [reflexivity|].
    destruct (Ascii.eqb_spec a "+") as [->|Hp]; [reflexivity|].
    destruct a as [[] [] [] [] [] [] [] []]; try reflexivity; exfalso; auto. }
  rewrite Hs. destruct (exp_sign r) as [neg r1]. cbn [fst snd].
  destruct (digits r1 0 0) as [[n l] r']. reflexivity.
Qed.

Lemma digits_some_nonempty (s : string) (n : N) (l : nat) (r : string) :
  digits s 0 0 = (n, S l, r) -> exists c s', s = String c s' /\ digit_val c <> None.
Proof.
  destruct s as [|c s']; [discriminate|]. cbn [digits].
  destruct (digit_val c) eqn:E; [intros _; exists c, s'; split; congruence|discriminate].
Qed.

Lemma digit_not_sign (c : ascii) :
  digit_val c <> None -> Ascii.eqb c "-" = false /\ Ascii.eqb c "+" = false.
Proof.
  intros H. split.
  - destruct (Ascii.eqb_spec c "-") as [->|]; [|reflexivity]. now contradiction H.
  - destruct (Ascii.eqb_spec c "+") as [->|]; [|reflexivity]. now contradiction H.
Qed.

Lemma match_exp_cut : cuttable match_exp.
Proof.
  intros s e r. rewrite match_exp_eq.
  destruct s as [|c s]; [discriminate|].
  destruct (Ascii.eqb c "e" || Ascii.eqb c "E") eqn:Hc; [|discriminate].
  destruct (digits (snd (exp_sign s)) 0 0) as [[n l] r'] eqn:Ed. cbn [fst snd].
  destruct l as [|l]; [discriminate|]. intros [= <- <-].
  destruct (digits_cut _ _ _ _ _ _ Ed) as (a & Hs & Ht).
  assert (Hgoal : forall a0,
             s = a0 ++ r' ->
             (forall t w, r' = t ++ w ->
                          exp_sign (a0 ++ t) = (fst (exp_sign s), a ++ t)) ->
             exists a1, String c s = a1 ++ r'
                        /\ forall t w, r' = t ++ w ->
                                       match_exp (a1 ++ t)
                                       = Some (if fst (exp_sign s)
                                               then Z.opp (Z.of_N n) else Z.of_N n, t)).
  { intros a0 Ha0 Hsign. exists (String c a0). split; [cbn; now f_equal|].
    intros t w Hr. rewrite match_exp_eq. cbn [append]. rewrite Hc.
    rewrite (Hsign t w Hr). cbn [fst snd]. now rewrite (Ht t w Hr). }
  destruct s as [|c1 s']; [cbn in Ed; discriminate|].
  destruct (Ascii.eqb c1 "-") eqn:H1.
  { assert (Hes : exp_sign (String c1 s') = (true, s'))
      by (unfold exp_sign; now rewrite H1).
    rewrite Hes in *. cbn [fst snd] in *.
    apply (Hgoal (String c1 a)).
    - cbn. now f_equal.
    - intros t w Hr. cbn [append]. unfold exp_sign. now rewrite H1. }
  destruct (Ascii.eqb c1 "+") eqn:H2.
  { assert (Hes : exp_sign (String c1 s') = (false, s'))
      by (unfold exp_sign; now rewrite H1, H2).
    rewrite Hes in *. cbn [fst snd] in *.
    apply (Hgoal (String c1 a)).
    - cbn. now f_equal.
    - intros t w Hr. cbn [append]. unfold exp_sign. now rewrite H1, H2. }
  assert (Hes : exp_sign (String c1 s') = (false, String c1 s'))
    by (unfold exp_sign; now rewrite H1, H2).
  rewrite Hes in *. cbn [fst snd] in *.
  apply (Hgoal a Hs).
  intros t w Hr. destruct a as [|c' a'].
  - specialize (Ht EmptyString r' eq_refl). cbn in Ht. discriminate.
  - cbn in Hs. injection Hs as <- _. cbn [append]. unfold exp_sign.
    now rewrite H1, H2.
Qed.

Lemma match_exp_grows : extends match_exp.
Proof.
  intros [|c s] w; [cbn; congruence|]. rewrite !match_exp_eq. cbn [append].
  destruct (Ascii.eqb c "e" || Ascii.eqb c "E"); [|congruence].
  destruct (snd (fst (digits (snd (exp_sign s)) 0 0))) as [|l] eqn:El; [congruence|].
  intros _.
  assert (Hs : snd (exp_sign (s ++ w)) = snd (exp_sign s) ++ w).
  { destruct s as [|c1 s']; [cbn in El; discriminate|].
    cbn [append]. unfold exp_sign.
    destruct (Ascii.eqb c1 "-"); [reflexivity|].
    destruct (Ascii.eqb c1 "+"); reflexivity. }
  rewrite Hs.
  pose proof (digits_grows (snd (exp_sign s)) w 0%N 0%nat) as H. rewrite El in H.
  destruct (snd (fst (digits (snd (exp_sign s) ++ w) 0 0))); [lia|congruence].
Qed.

Lemma optional_cut {A} (f : string -> option (A * string)) :
  cuttable f -> extends f ->
  forall s, exists a,
    s = a ++ match f s with Some (_, r) => r | None => s end
    /\ (f s = None -> a = EmptyString)
    /\ forall t w,
        match f s with Some (_, r) => r | None => s end = t ++ w ->
        f (a ++ t) = match f s with Some (v, _) => Some (v, t) | None => None end.
Proof.
  intros Hcut Hgrows s. destruct (f s) as [[v r]|] eqn:E.
  - destruct (Hcut _ _ _ E) as (a & Hs & Ht). exists a.
    split; [exact Hs|]. split; [discriminate|exact Ht].
  - exists EmptyString. split; [reflexivity|]. split; [reflexivity|].
    intros t w Hs. cbn [append]. destruct (f t) eqn:Et; [|reflexivity].
    exfalso. apply (Hgrows t w); [congruence|]. now rewrite <- Hs.
Qed.

Lemma match_number_cut : cuttable match_number.
Proof.
  intros s v r2. unfold match_number.
  destruct (match_int s) as [[[neg n] r]|] eqn:Ei; [|discriminate].
  destruct (match_int_cut _ _ _ Ei) as (a1 & Hs1 & Ht1).
  destruct (optional_cut _ match_frac_cut match_frac_grows r) as (a2 & Hs2 & Hn2 & Ht2).
  set (r1 := match match_frac r with Some (_, _, r1) => r1 | None => r end) in *.
  assert (Hr1 : match match_frac r with Some (_, r1) => r1 | None => r end = r1).
  { unfold r1. now destruct (match_frac r) as [[[? ?] ?]|]. }
  rewrite Hr1 in Hs2, Ht2.
  destruct (optional_cut _ match_exp_cut match_exp_grows r1) as (a3 & Hs3 & Hn3 & Ht3).
  set (r2' := match match_exp r1 with Some (_, r2) => r2 | None => r1 end) in *.
  cbv zeta. intros H.
  assert (Hr2 : r2 = r2').
  { unfold r2'.
    destruct (match_frac r) as [[[fm fl] x]|]; destruct (match_exp r1) as [[e y]|];
      now injection H. }
  subst r2'. rewrite <- Hr2 in *. clear Hr2.
  exists (a1 ++ a2 ++ a3). split.
  { rewrite !append_assoc. now rewrite <- Hs3, <- Hs2. }
  intros t w Hr. specialize (Ht3 t w Hr).
  assert (Hw2 : r1 = (a3 ++ t) ++ w) by (rewrite append_assoc, <- Hr; exact Hs3).
  specialize (Ht2 _ _ Hw2).
  assert (Hw1 : r = (a2 ++ a3 ++ t) ++ w).
  { rewrite !append_assoc, <- Hr, <- Hs3. exact Hs2. }
  specialize (Ht1 _ _ Hw1).
  rewrite !append_assoc. rewrite Ht1. clear Ht1.
  destruct (match_frac r) as [[[fm fl] x]|] eqn:Ef;
    [|rewrite (Hn2 eq_refl) in *; cbn [append] in *];
    rewrite Ht2; cbv iota zeta;
    (destruct (match_exp r1) as [[e y]|] eqn:Ee;
     [|rewrite (Hn3 eq_refl) in *; cbn [append] in *]);
    rewrite Ht3; inversion H; reflexivity.
Qed.

Lemma strip_prefix_inv (p : string) :
  forall s r, strip_prefix p s = Some r -> s = p ++ r.
Proof.
  induction p as [|a p IH]; cbn [strip_prefix]; intros s r.
  - now intros [= ->].
  - destruct s as [|b s]; [discriminate|].
    destruct (Ascii.eqb_spec a b) as [->|]; [|discriminate].
    intros H. cbn. f_equal. now apply IH.
Qed.

Lemma strip_prefix_app (p t : string) : strip_prefix p (p ++ t) = Some t.
Proof.
  induction p as [|a p IH]; cbn [append strip_prefix]; [reflexivity|].
  now rewrite Ascii.eqb_refl.
Qed.

Lemma strip_prefix_grows (p : string) : extends (strip_prefix p).
Proof.
  induction p as [|a p IH]; intros x w; cbn [strip_prefix]; [congruence|].
  destruct x as [|b x]; [congruence|]. cbn [append].
  destruct (Ascii.eqb a b); [apply IH|congruence].
Qed.

Lemma lit_cut (p : string) (v : JSON) : cuttable (lit p v).
Proof.
  intros s v' r. unfold lit.
  destruct (strip_prefix p s) as [r'|] eqn:E; [|discriminate].
  intros [= <- <-]. exists p. split; [now apply strip_prefix_inv|].
  intros t w _. now rewrite strip_prefix_app.
Qed.

Lemma lit_grows (p : string) (v : JSON) : extends (lit p v).
Proof.
  intros x w. unfold lit. pose proof (strip_prefix_grows p x w) as H.
  destruct (strip_prefix p x); [|congruence]. intros _.
  destruct (strip_prefix p (x ++ w)); [congruence|]. exfalso. apply H; congruence.
Qed.

Lemma match_number_grows : extends match_number.
Proof.
  intros x w. unfold match_number. pose proof (match_int_grows x w) as H.
  destruct (match_int x) as [[[neg n] r]|]; [|congruence]. intros _.
  destruct (match_int (x ++ w)) as [[[neg' n'] r']|]; [|exfalso; apply H; congruence].
  destruct (match_frac r') as [[[? ?] ?]|]; destruct (match_exp _) as [[? ?]|];
    congruence.
Qed.

Lemma orelse_cut {A} (f g : string -> option (A * string)) :
  cuttable f -> extends f -> cuttable g -> cuttable (orelse f g).
Proof.
  intros Hf Hgf Hg s v r. unfold orelse.
  destruct (f s) as [[v' r']|] eqn:E.
  - intros [= <- <-]. destruct (Hf _ _ _ E) as (a & Hs & Ht).
    exists a. split; [exact Hs|]. intros t w Hr. now rewrite (Ht t w Hr).
  - intros H. destruct (Hg _ _ _ H) as (a & Hs & Ht).
    exists a. split; [exact Hs|]. intros t w Hr.
    destruct (f (a ++ t)) eqn:Et.
    + exfalso. apply (Hgf (a ++ t) w); [congruence|].
      now rewrite append_assoc, <- Hr, <- Hs.
    + now apply (Ht t w).
Qed.

Lemma literal_orelse (s : string) :
  literal s
  = orelse (lit "null" JNull)
      (orelse (lit "true" (JBool true))
         (orelse (lit "false" (JBool false))
            (orelse match_number
               (orelse (lit "NaN" (JFloat FNaN))
                  (orelse (lit "Infinity" (JFloat (FInf false)))
                     (lit "-Infinity" (JFloat (FInf true)))))))) s.
Proof.
  unfold literal, orelse, lit.
  repeat match goal with
         | |- context [strip_prefix ?p s] => destruct (strip_prefix p s); try reflexivity
         | |- context [match_number s] => destruct (match_number s); try reflexivity
         end.
Qed.

Lemma literal_cut : cuttable literal.
Proof.
  intros s v r. rewrite literal_orelse. intros H.
  assert (Hc : cuttable (orelse (lit "null" JNull)
      (orelse (lit "true" (JBool true))
         (orelse (lit "false" (JBool false))
            (orelse match_number
               (orelse (lit "NaN" (JFloat FNaN))
                  (orelse (lit "Infinity" (JFloat (FInf false)))
                     (lit "-Infinity" (JFloat (FInf true)))))))))).
  { repeat first [apply orelse_cut | apply lit_cut | apply lit_grows
                 | apply match_number_cut | apply match_number_grows]. }
  destruct (Hc _ _ _ H) as (a & Hs & Ht). exists a. split; [exact Hs|].
  intros t w Hr. rewrite literal_orelse. now apply (Ht t w).
Qed.

Lemma scanstring_cut : cuttable scanstring.
Proof.
  enough (Hn : forall n s, (String.length s <= n)%nat ->
                           forall v r, scanstring s = Some (v, r) ->
                                       exists a, s = a ++ r
                                                 /\ forall t w, r = t ++ w ->
                                                                scanstring (a ++ t) = Some (v, t))
    by (intros s v r; apply (Hn (String.length s)); lia).
  induction n as [|n IH]; intros s Hle v r H.
  - destruct s; [discriminate|simpl in Hle; lia].
  - destruct s as [|c s]; [discriminate|]. cbn [String.length] in *.
    cbn [scanstring] in H.
    destruct (Ascii.eqb c dquote) eqn:Hq.
    { inversion H; subst. exists (String c EmptyString). split; [reflexivity|].
      intros t w _. cbn [append scanstring]. now rewrite Hq. }
    assert (Hrec : forall (pre : string -> string) x v r,
               (String.length x <= n)%nat ->
               match scanstring x with
               | Some (t0, rest) => Some (pre t0, rest)
               | None => None
               end = Some (v, r) ->
               exists a, x = a ++ r
                         /\ forall t w, r = t ++ w ->
                                        match scanstring (a ++ t) with
                                        | Some (t0, rest) => Some (pre t0, rest)
                                        | None => None
                                        end = Some (v, t)).
    { intros pre x v' r' Hx Hm.
      destruct (scanstring x) as [[t0 rest]|] eqn:E; [|discriminate].
      destruct (IH _ Hx _ _ E) as (a & Hs & Ht). inversion Hm; subst.
      exists a. split; [reflexivity|]. intros t w Hr. now rewrite (Ht t w Hr). }
    destruct (Ascii.eqb c "\") eqn:Hb.
    2:{ destruct (N_of_ascii c <? 32)%N eqn:Hctl; [discriminate|].
        apply (Hrec (String c)) in H; [|lia]. destruct H as (a & Hs & Ht).
        exists (String c a). split; [cbn; now f_equal|].
        intros t w Hr. cbn [append scanstring]. rewrite Hq, Hb, Hctl.
        exact (Ht t w Hr). }
    destruct s as [|e r1]; [discriminate|]. cbn [String.length] in *.
    destruct (Ascii.eqb e "u") eqn:Hu.
    2:{ destruct (simple_escape e) as [x|] eqn:He; [|discriminate].
        apply (Hrec (String x)) in H; [|lia]. destruct H as (a & Hs & Ht).
        exists (String c (String e a)). split; [cbn; now do 2 f_equal|].
        intros t w Hr. cbn [append scanstring]. rewrite Hq, Hb, Hu, He.
        exact (Ht t w Hr). }
    destruct r1 as [|h1 [|h2 [|h3 [|h4 r2]]]]; try discriminate.
    cbn [String.length] in *.
    destruct (hex4 h1 h2 h3 h4) as [uni|] eqn:Hh; [|discriminate].
    cbv zeta in H.
    (* the result came from the pair, or from the lone escape *)
    assert (Hcases :
             (exists b u g1 g2 g3 g4 r3 uni2,
                 r2 = String b (String u (String g1 (String g2 (String g3 (String g4 r3)))))
                 /\ ((55296 <=? uni)%N && (uni <=? 56319)%N) = true
                 /\ (Ascii.eqb b "\" && Ascii.eqb u "u") = true
                 /\ hex4 g1 g2 g3 g4 = Some uni2
                 /\ ((56320 <=? uni2)%N && (uni2 <=? 57343)%N) = true
                 /\ match scanstring r3 with
                    | Some (t0, rest) =>
                        Some (utf8 (65536 + ((uni - 55296) * 1024 + (uni2 - 56320)))%N
                              ++ t0, rest)
                    | None => None
                    end = Some (v, r))
             \/ (match scanstring r2 with
                 | Some (t0, rest) => Some (utf8 uni ++ t0, rest)
                 | None => None
                 end = Some (v, r)
                 /\ forall x,
                     (exists w, r2 = x ++ w) ->
                     (if (55296 <=? uni)%N && (uni <=? 56319)%N then
                        match x with
                        | String b (String u
                            (String g1 (String g2 (String g3 (String g4 r3))))) =>
                            if Ascii.eqb b "\" && Ascii.eqb u "u" then
                              match hex4 g1 g2 g3 g4 with
                              | None => None
                              | Some uni2 =>
                                  if (56320 <=? uni2)%N && (uni2 <=? 57343)%N then
                                    match scanstring r3 with
                                    | Some (t, rest) =>
                                        Some (utf8 (65536 + ((uni - 55296) * 1024
                                                             + (uni2 - 56320)))%N
                                              ++ t, rest)
                                    | None => None
                                    end
                                  else match scanstring x with
                                       | Some (t0, rest) => Some (utf8 uni ++ t0, rest)
                                       | None => None
                                       end
                              end
                            else match scanstring x with
                                 | Some (t0, rest) => Some (utf8 uni ++ t0, rest)
                                 | None => None
                                 end
                        | _ => match scanstring x with
                               | Some (t0, rest) => Some (utf8 uni ++ t0, rest)
                               | None => None
                               end
                        end
                      else match scanstring x with
                           | Some (t0, rest) => Some (utf8 uni ++ t0, rest)
                           | None => None
                           end)
                     = match scanstring x with
                       | Some (t0, rest) => Some (utf8 uni ++ t0, rest)
                       | None => None
                       end)).
    { destruct ((55296 <=? uni)%N && (uni <=? 56319)%N) eqn:Hsur.
      2:{ right. split; [exact H|]. reflexivity. }
      destruct r2 as [|b [|u [|g1 [|g2 [|g3 [|g4 r3]]]]]];
        try (right; split; [exact H|];
             intros x [w Hx];
             destruct x as [|b' [|u' [|g1' [|g2' [|g3' [|g4' r3']]]]]];
             try reflexivity; discriminate).
      destruct (Ascii.eqb b "\" && Ascii.eqb u "u") eqn:Hbu.
      2:{ right. split; [exact H|].
          intros x [w Hx].
          destruct x as [|b' [|u' [|g1' [|g2' [|g3' [|g4' r3']]]]]];
            try reflexivity.
          cbn in Hx. injection Hx as <- <- _. now rewrite Hbu. }
      destruct (hex4 g1 g2 g3 g4) as [uni2|] eqn:Hh2; [|discriminate].
      destruct ((56320 <=? uni2)%N && (uni2 <=? 57343)%N) eqn:Hlow.
      2:{ right. split; [exact H|].
          intros x [w Hx].
          destruct x as [|b' [|u' [|g1' [|g2' [|g3' [|g4' r3']]]]]];
            try reflexivity.
          cbn in Hx. injection Hx as <- <- <- <- <- <- _.
          now rewrite Hbu, Hh2, Hlow. }
      left. exists b, u, g1, g2, g3, g4, r3, uni2. repeat split; assumption. }
    destruct Hcases as [(b & u & g1 & g2 & g3 & g4 & r3 & uni2 & -> & Hsur & Hbu & Hh2
                         & Hlow & Hp)|[Hl Hsame]].
    + cbn [String.length] in *.
      apply (Hrec (fun t0 =>
                     (utf8 (65536 + ((uni - 55296) * 1024 + (uni2 - 56320)))%N ++ t0)))
        in Hp; [|lia].
      destruct Hp as (a & Hs & Ht).
      exists (String c (String e (String h1 (String h2 (String h3 (String h4
                (String b (String u (String g1 (String g2 (String g3 (String g4 a)))))))))))).
      split; [cbn; now rewrite Hs|].
      intros t w Hr. cbn [append scanstring]. rewrite Hq, Hb, Hu, Hh.
      cbv zeta. rewrite Hsur, Hbu, Hh2, Hlow. exact (Ht t w Hr).
    + apply (Hrec (fun t0 => (utf8 uni ++ t0))) in Hl; [|lia].
      destruct Hl as (a & Hs & Ht).
      exists (String c (String e (String h1 (String h2 (String h3 (String h4 a)))))).
      split; [cbn; now rewrite Hs|].
      intros t w Hr. cbn [append scanstring]. rewrite Hq, Hb, Hu, Hh.
      cbv zeta. rewrite (Hsame (a ++ t)).
      * exact (Ht t w Hr).
      * exists w. rewrite append_assoc, <- Hr. exact Hs.
Qed.

Ltac app_norm := repeat (progress (rewrite ?append_assoc; cbn [append])).
Ltac app_eq := app_norm; reflexivity.

Section ContainerCuts.
Variable f : string -> option (JSON * string).
Hypothesis f_cut : cuttable f.
Hypothesis f_consumes : Spec.consumes f.

Lemma array_items_cut (n : nat) : cuttable (array_items f n).
Proof.
  induction n as [|n IH]; intros s vs r H; [discriminate|].
  cbn [array_items] in H.
  destruct (f s) as [[v r0]|] eqn:E; [|discriminate].
  destruct (f_cut _ _ _ E) as (a0 & -> & Ht0).
  destruct (skip_ws_cut r0) as (a1 & Hs1 & Ht1).
  destruct (skip_ws r0) as [|c r1] eqn:Ew; [discriminate|].
  destruct (Ascii.eqb c "]") eqn:Hc.
  - injection H as <- <-. exists (a0 ++ a1 ++ String c EmptyString).
    split; [rewrite Hs1 at 1; app_eq|].
    intros t w ->. 
    replace ((a0 ++ a1 ++ String c EmptyString) ++ t)
      with (a0 ++ (a1 ++ String c t)) by app_eq.
    cbn [array_items].
    rewrite (Ht0 (a1 ++ String c t) w) by (rewrite Hs1 at 1; app_eq).
    rewrite (Ht1 (String c t) w) by reflexivity.
    now rewrite Hc.
  - destruct (Ascii.eqb c ",") eqn:Hm; [|discriminate].
    destruct (array_items f n (skip_ws r1)) as [[vs' rest]|] eqn:Er; [|discriminate].
    injection H as <- ->.
    destruct (IH _ _ _ Er) as (a3 & Hs3 & Ht3).
    destruct (skip_ws_cut r1) as (a2 & Hs2 & Ht2).
    exists (a0 ++ a1 ++ String c (a2 ++ a3)).
    assert (Hr1 : r1 = a2 ++ a3 ++ r) by (rewrite Hs2 at 1; now rewrite Hs3).
    split; [rewrite Hs1 at 1; rewrite Hr1; app_eq|].
    intros t w ->.
    replace ((a0 ++ a1 ++ String c (a2 ++ a3)) ++ t)
      with (a0 ++ (a1 ++ String c (a2 ++ a3 ++ t))) by app_eq.
    cbn [array_items].
    rewrite (Ht0 (a1 ++ String c (a2 ++ a3 ++ t)) w)
      by (rewrite Hs1 at 1; rewrite Hr1; app_eq).
    rewrite (Ht1 (String c (a2 ++ a3 ++ t)) w) by (rewrite Hr1; app_eq).
    rewrite Hc, Hm.
    rewrite (Ht2 (a3 ++ t) w) by (rewrite Hs3; app_eq).
    now rewrite (Ht3 t w eq_refl).
Qed.

Lemma object_pairs_cut (n : nat) :
  forall s kvs r,
    object_pairs f n s = Some (kvs, r) ->
    exists a, s = a ++ String "}" r
              /\ forall t w, r = t ++ w ->
                             object_pairs f n (a ++ String "}" t) = Some (kvs, t).
Proof.
  induction n as [|n IH]; intros s kvs r H; [discriminate|].
  cbn [object_pairs] in H.
  destruct s as [|q s0]; [discriminate|].
  destruct (Ascii.eqb q dquote) eqn:Hq; [|discriminate].
  destruct (scanstring s0) as [[key r0]|] eqn:Ek; [|discriminate].
  destruct (scanstring_cut _ _ _ Ek) as (ak & -> & Htk).
  destruct (skip_ws_cut r0) as (a1 & Hs1 & Ht1).
  destruct (skip_ws r0) as [|c r1] eqn:Ew1; [discriminate|].
  destruct (Ascii.eqb c ":") eqn:Hc; [|discriminate].
  destruct (skip_ws_cut r1) as (a2 & Hs2 & Ht2).
  destruct (f (skip_ws r1)) as [[v r2]|] eqn:Ev; [|discriminate].
  destruct (f_cut _ _ _ Ev) as (av & Hsv & Htv).
  destruct (skip_ws_cut r2) as (a3 & Hs3 & Ht3).
  destruct (skip_ws r2) as [|d r3] eqn:Ew3; [discriminate|].
  destruct (Ascii.eqb_spec d "}") as [->|Hd].
  - injection H as <- <-.
    assert (Hr1 : r1 = a2 ++ av ++ a3 ++ String "}" r3).
    { rewrite Hs2 at 1. rewrite Hsv. now rewrite Hs3 at 1. }
    exists (String q (ak ++ a1 ++ String c (a2 ++ av ++ a3))).
    split; [rewrite Hs1 at 1; rewrite Hr1; app_eq|].
    intros t w ->.
    replace (String q (ak ++ a1 ++ String c (a2 ++ av ++ a3)) ++ String "}" t)
      with (String q (ak ++ (a1 ++ String c (a2 ++ av ++ a3 ++ String "}" t))))
      by app_eq.
    cbn [object_pairs]. rewrite Hq.
    rewrite (Htk (a1 ++ String c (a2 ++ av ++ a3 ++ String "}" t)) w)
      by (rewrite Hs1 at 1; rewrite Hr1; app_eq).
    rewrite (Ht1 (String c (a2 ++ av ++ a3 ++ String "}" t)) w)
      by (rewrite Hr1; app_eq).
    rewrite Hc.
    rewrite (Ht2 (av ++ a3 ++ String "}" t) w)
      by (rewrite Hsv; rewrite Hs3 at 1; app_eq).
    rewrite (Htv (a3 ++ String "}" t) w) by (rewrite Hs3 at 1; app_eq).
    rewrite (Ht3 (String "}" t) w) by reflexivity.
    reflexivity.
  - destruct (Ascii.eqb d "}") eqn:Hd'; [now apply Ascii.eqb_eq in Hd'|].
    destruct (Ascii.eqb d ",") eqn:Hm; [|discriminate].
    destruct (object_pairs f n (skip_ws r3)) as [[kvs' rest]|] eqn:Er; [|discriminate].
    injection H as <- ->.
    destruct (IH _ _ _ Er) as (a5 & Hs5 & Ht5).
    destruct (skip_ws_cut r3) as (a4 & Hs4 & Ht4).
    assert (Hr3 : r3 = a4 ++ a5 ++ String "}" r) by (rewrite Hs4 at 1; now rewrite Hs5).
    assert (Hr2 : r2 = a3 ++ String d (a4 ++ a5 ++ String "}" r))
      by (rewrite Hs3 at 1; now rewrite Hr3).
    assert (Hr1 : r1 = a2 ++ av ++ a3 ++ String d (a4 ++ a5 ++ String "}" r)).
    { rewrite Hs2 at 1. rewrite Hsv. now rewrite Hr2. }
    exists (String q (ak ++ a1 ++ String c (a2 ++ av ++ a3 ++ String d (a4 ++ a5)))).
    split; [rewrite Hs1 at 1; rewrite Hr1; app_eq|].
    intros t w ->.
    replace (String q (ak ++ a1 ++ String c (a2 ++ av ++ a3 ++ String d (a4 ++ a5)))
             ++ String "}" t)
      with (String q (ak ++ (a1 ++ String c (a2 ++ av ++ a3
                                              ++ String d (a4 ++ a5 ++ String "}" t)))))
      by app_eq.
    cbn [object_pairs]. rewrite Hq.
    rewrite (Htk (a1 ++ String c (a2 ++ av ++ a3 ++ String d (a4 ++ a5 ++ String "}" t))) w)
      by (rewrite Hs1 at 1; rewrite Hr1; app_eq).
    rewrite (Ht1 (String c (a2 ++ av ++ a3 ++ String d (a4 ++ a5 ++ String "}" t))) w)
      by (rewrite Hr1; app_eq).
    rewrite Hc.
    rewrite (Ht2 (av ++ a3 ++ String d (a4 ++ a5 ++ String "}" t)) w)
      by (rewrite Hsv; rewrite Hr2; app_eq).
    rewrite (Htv (a3 ++ String d (a4 ++ a5 ++ String "}" t)) w)
      by (rewrite Hr2; app_eq).
    rewrite (Ht3 (String d (a4 ++ a5 ++ String "}" t)) w) by (rewrite Hr3; app_eq).
    rewrite Hd', Hm.
    rewrite (Ht4 (a5 ++ String "}" t) w) by (rewrite Hs5; app_eq).
    now rewrite (Ht5 t w eq_refl).
Qed.

Lemma JSONArray_cut : cuttable (JSONArray f).
Proof.
  intros s v r. unfold JSONArray.
  destruct (skip_ws_cut s) as (a0 & Hs0 & Ht0).
  destruct (skip_ws s) as [|c r0] eqn:Ew; [discriminate|].
  destruct (Ascii.eqb c "]") eqn:Hc.
  - intros [= <- <-]. exists (a0 ++ String c EmptyString).
    split; [rewrite Hs0 at 1; app_eq|].
    intros t w ->.
    replace ((a0 ++ String c EmptyString) ++ t) with (a0 ++ String c t) by app_eq.
    rewrite (Ht0 (String c t) w) by reflexivity. now rewrite Hc.
  - destruct (array_items f (S (String.length s)) (String c r0)) as [[vs rest]|] eqn:E;
      [|discriminate].
    intros [= <- <-].
    destruct (array_items_cut _ _ _ _ E) as (a1 & Hs1 & Ht1).
    exists (a0 ++ a1). split; [rewrite Hs0 at 1; rewrite Hs1; app_eq|].
    intros t w ->.
    pose proof (Ht1 t w eq_refl) as Hit.
    pose proof (array_items_consumes f f_consumes _ _ _ _ Hit) as Hlen.
    destruct (a1 ++ t) as [|c' x] eqn:Ea; [cbn in Hlen; lia|].
    assert (Hc' : c' = c).
    { assert (Hx : String c r0 = String c' x ++ w) by (rewrite <- Ea, Hs1; app_eq).
      cbn in Hx. now injection Hx. }
    subst c'.
    replace ((a0 ++ a1) ++ t) with (a0 ++ String c x) by (rewrite <- Ea; app_eq).
    rewrite (Ht0 (String c x) w) by (rewrite <- Ea, Hs1; app_eq).
    rewrite Hc.
    rewrite (array_items_fuel f f_consumes _ (S (String.length s)) (String c x)).
    + now rewrite Hit.
    + rewrite length_append. lia.
    + rewrite Hs0, length_append, Hs1.
      replace (a1 ++ t ++ w) with ((a1 ++ t) ++ w) by app_eq.
      rewrite Ea, length_append. lia.
Qed.

Lemma JSONObject_cut :
  forall s v r,
    JSONObject f s = Some (v, r) ->
    exists a, s = a ++ String "}" r
              /\ forall t w, r = t ++ w ->
                             JSONObject f (a ++ String "}" t) = Some (v, t).
Proof.
  intros s v r. unfold JSONObject.
  destruct (skip_ws_cut s) as (a0 & Hs0 & Ht0).
  destruct (skip_ws s) as [|c r0] eqn:Ew; [discriminate|].
  destruct (Ascii.eqb_spec c "}") as [->|Hc].
  - intros [= <- <-]. exists a0. split; [exact Hs0|].
    intros t w ->. rewrite (Ht0 (String "}" t) w) by reflexivity. reflexivity.
  - destruct (object_pairs f (S (String.length s)) (String c r0)) as [[kvs rest]|] eqn:E;
      [|discriminate].
    intros [= <- <-].
    destruct (object_pairs_cut _ _ _ _ E) as (a1 & Hs1 & Ht1).
    exists (a0 ++ a1). split; [rewrite Hs0 at 1; rewrite Hs1; app_eq|].
    intros t w ->.
    pose proof (Ht1 t w eq_refl) as Hit.
    destruct (a1 ++ String "}" t) as [|c' x] eqn:Ea; [destruct a1; discriminate|].
    assert (Hc' : c' = c).
    { assert (Hx : String c r0 = String c' x ++ w) by (rewrite <- Ea, Hs1; app_eq).
      cbn in Hx. now injection Hx. }
    subst c'.
    replace ((a0 ++ a1) ++ String "}" t) with (a0 ++ String c x)
      by (rewrite <- Ea; app_eq).
    rewrite (Ht0 (String c x) w) by (rewrite <- Ea, Hs1; app_eq).
    destruct (Ascii.eqb_spec c "}") as [|_]; [contradiction|].
    rewrite (object_pairs_fuel f f_consumes _ (S (String.length s)) (String c x)).
    + now rewrite Hit.
    + rewrite length_append. lia.
    + rewrite Hs0, length_append, Hs1.
      replace (a1 ++ String "}" (t ++ w)) with ((a1 ++ String "}" t) ++ w) by app_eq.
      rewrite Ea, length_append. lia.
Qed.
End ContainerCuts.

Lemma scan_once_cut (depth : nat) : cuttable (scan_once depth).
Proof.
  induction depth as [|d IH]; intros s v r H;
    (destruct s as [|c s]; [discriminate|]); cbn [scan_once] in H.
  - destruct (Ascii.eqb c dquote) eqn:Hq.
    { destruct (scanstring s) as [[x rest]|] eqn:E; [|discriminate].
      injection H as <- <-. destruct (scanstring_cut _ _ _ E) as (a & -> & Ht).
      exists (String c a). split; [reflexivity|].
      intros t w Hr. cbn [append scan_once]. now rewrite Hq, (Ht t w Hr). }
    destruct (Ascii.eqb c "{") eqn:Ho; [discriminate|].
    destruct (Ascii.eqb c "[") eqn:Ha; [discriminate|].
    pose proof (literal_consumes _ _ _ H) as Hlen.
    destruct (literal_cut _ _ _ H) as (a & Hs & Ht).
    exists a. split; [exact Hs|]. intros t w Hr. specialize (Ht t w Hr).
    destruct a as [|c' a']; [cbn in Hs; rewrite <- Hs in Hlen; lia|].
    cbn in Hs. injection Hs as <- _.
    cbn [append scan_once]. now rewrite Hq, Ho, Ha.
  - destruct (Ascii.eqb c dquote) eqn:Hq.
    { destruct (scanstring s) as [[x rest]|] eqn:E; [|discriminate].
      injection H as <- <-. destruct (scanstring_cut _ _ _ E) as (a & -> & Ht).
      exists (String c a). split; [reflexivity|].
      intros t w Hr. cbn [append scan_once]. now rewrite Hq, (Ht t w Hr). }
    destruct (Ascii.eqb c "{") eqn:Ho.
    { destruct (JSONObject_cut _ IH (scan_once_consumes d) _ _ _ H) as (a & -> & Ht).
      exists (String c (a ++ String "}" EmptyString)). split; [app_eq|].
      intros t w Hr.
      replace (String c (a ++ String "}" EmptyString) ++ t)
        with (String c (a ++ String "}" t)) by app_eq.
      cbn [scan_once]. rewrite Hq, Ho. exact (Ht t w Hr). }
    destruct (Ascii.eqb c "[") eqn:Ha.
    { destruct (JSONArray_cut _ IH (scan_once_consumes d) _ _ _ H) as (a & -> & Ht).
      exists (String c a). split; [reflexivity|].
      intros t w Hr. cbn [append scan_once]. rewrite Hq, Ho, Ha. exact (Ht t w Hr). }
    pose proof (literal_consumes _ _ _ H) as Hlen.
    destruct (literal_cut _ _ _ H) as (a & Hs & Ht).
    exists a. split; [exact Hs|]. intros t w Hr. specialize (Ht t w Hr).
    destruct a as [|c' a']; [cbn in Hs; rewrite <- Hs in Hlen; lia|].
    cbn in Hs. injection Hs as <- _.
    cbn [append scan_once]. now rewrite Hq, Ho, Ha.
Qed.

Lemma skip_ws_blank_prefix (s : string) :
  exists a, s = a ++ skip_ws s /\ skip_ws a = EmptyString.
Proof.
  induction s as [|c s IH]; cbn [skip_ws].
  - now exists EmptyString.
  - destruct (is_ws c) eqn:Hc.
    + destruct IH as (a & Hs & Ha). exists (String c a). split.
      * cbn. now f_equal.
      * cbn [skip_ws]. now rewrite Hc.
    + now exists EmptyString.
Qed.

Lemma blank_without (c : ascii) (a : string) :
  is_ws c = false -> skip_ws a = EmptyString -> contains_char c a = false.
Proof.
  intros Hc. induction a as [|x a IH]; [reflexivity|]. cbn [skip_ws contains_char].
  destruct (is_ws x) eqn:Hx; [|discriminate].
  intros H. rewrite (IH H).
  destruct (Ascii.eqb_spec x c) as [->|]; [congruence|reflexivity].
Qed.

Lemma match_number_not_dict (s : string) (kvs : list (string * JSON)) (r : string) :
  match_number s <> Some (JDict kvs, r).
Proof.
  unfold match_number.
  destruct (match_int s) as [[[neg n] r0]|]; [|discriminate].
  destruct (match_frac r0) as [[[? ?] ?]|]; destruct (match_exp _) as [[? ?]|];
    discriminate.
Qed.

Lemma literal_not_dict (s : string) (kvs : list (string * JSON)) (r : string) :
  literal s <> Some (JDict kvs, r).
Proof.
  unfold literal.
  repeat match goal with
         | |- context [strip_prefix ?p s] => destruct (strip_prefix p s); [discriminate|]
         | |- context [match_number s] =>
             let E := fresh "E" in
             destruct (match_number s) as [[v' r']|] eqn:E;
             [intros [= -> ->]; exact (match_number_not_dict _ _ _ E)|]
         end.
  discriminate.
Qed.

Lemma scan_once_dict (depth : nat) (s : string) (kvs : list (string * JSON)) (r : string) :
  scan_once depth s = Some (JDict kvs, r) ->
  exists d s', depth = S d /\ s = String "{" s'
               /\ JSONObject (scan_once d) s' = Some (JDict kvs, r).
Proof.
  destruct s as [|c s]; [destruct depth; discriminate|].
  destruct depth as [|d]; cbn [scan_once].
  - destruct (Ascii.eqb c dquote).
    { destruct (scanstring s) as [[? ?]|]; discriminate. }
    destruct (Ascii.eqb c "{"); [discriminate|].
    destruct (Ascii.eqb c "["); [discriminate|].
    intros H. now apply literal_not_dict in H.
  - destruct (Ascii.eqb c dquote).
    { destruct (scanstring s) as [[? ?]|]; discriminate. }
    destruct (Ascii.eqb_spec c "{") as [->|_].
    { intros H. now exists d, s. }
    destruct (Ascii.eqb c "[").
    { unfold JSONArray. destruct (skip_ws s) as [|x y]; [discriminate|].
      destruct (Ascii.eqb x "]"); [discriminate|].
      destruct (array_items _ _ _) as [[? ?]|]; discriminate. }
    intros H. now apply literal_not_dict in H.
Qed.

Lemma loads_mapping_braces (text : string) (kvs : list (string * JSON)) :
  Json.loads text = Some (JDict kvs) ->
  Spec.brace_substring text = Some (JDict kvs).
Proof.
  unfold Json.loads.
  destruct (scan_once (String.length text) (skip_ws text)) as [[v rest]|] eqn:E;
    [|discriminate].
  destruct (skip_ws rest) eqn:Hrest; [|discriminate]. intros [= ->].
  destruct (scan_once_dict _ _ _ _ E) as (d & s' & Hd & Hs & Hobj).
  destruct (JSONObject_cut _ (scan_once_cut d) (scan_once_consumes d) _ _ _ Hobj)
    as (a & -> & Ht).
  destruct (skip_ws_blank_prefix text) as (pre & Htext & Hpre).
  rewrite Hs in Htext.
  assert (Hshape : text = pre ++ "{" ++ a ++ "}" ++ rest) by exact Htext.
  rewrite Hshape at 1.
  rewrite brace_substring_between.
  - rewrite (loads_any_depth _ (String.length text)).
    + change (skip_ws ("{" ++ a ++ "}"))
        with (String "{" (a ++ String "}" EmptyString)).
      rewrite Hd. cbn [scan_once].
      change (Ascii.eqb "{" dquote) with false.
      change (Ascii.eqb "{" "{") with true. cbv iota.
      rewrite (Ht EmptyString rest eq_refl). reflexivity.
    + rewrite Hshape. rewrite !length_append. cbn [String.length]. lia.
  - apply blank_without; [reflexivity|exact Hpre].
  - apply blank_without; [reflexivity|exact Hrest].
Qed.

End ReadingFromTheLeft.

(** X15. A reply that is, as a whole, a JSON object is read alike by
    every adapter: its brace substring is the reply without the blanks
    around it and parses to the same object, so the order of the two
    stages does not matter and the payload is that object. *)
Theorem object_replies_are_read_alike (text : string) (kvs : list (string * JSON)) :
  Json.loads text = Some (JDict kvs) ->
  Spec.brace_substring text = Some (JDict kvs)
  /\ forall p, client_parse_json p text = JDict kvs.
Proof.
  intros H. pose proof (loads_mapping_braces _ _ H) as Hb.
  split; [exact Hb|]. intros p.
  assert (Hdec : p = ollama \/ p <> ollama) by (destruct p; auto; right; discriminate).
  destruct Hdec as [->|Hp].
  - rewrite ollama_parse_json. unfold Spec.braces_then_entire. now rewrite Hb.
  - rewrite (hosted_parse_json p text Hp).
    unfold Spec.entire_then_braces, Spec.entire_text. now rewrite H.
Qed.

Lemma object_replies_are_read_alike_witness :
  Spec.brace_substring (" " ++ Examples.json_text ++ nl)%string
  = Some (JDict [("action", JStr "create_box"); ("params", JDict [("width", JInt 20)])])
  /\ forall p, client_parse_json p (" " ++ Examples.json_text ++ nl)%string
               = JDict [("action", JStr "create_box");
                        ("params", JDict [("width", JInt 20)])].
Proof.
  apply (object_replies_are_read_alike (" " ++ Examples.json_text ++ nl)%string).
  vm_compute. reflexivity.
Defined.



(** ** The shape of what the router returns *)

Lemma parse_action_one (json : JSON) :
  fst (MCPRouter.parse_action json) = None \/ snd (MCPRouter.parse_action json) = None.
Proof.
  unfold MCPRouter.parse_action.
  destruct (truthy json); [|now left].
  destruct json as [| | | | | |kw]; try now left.
  destruct (dict_has kw "actions").
  - destruct (ActionSequence.new kw); now left.
  - destruct (dict_has kw "action"); [|now left].
    destruct (FusionAction.new kw); now right.
Qed.

Section Coherence.
Variables (w : World) (config : Config.t).
Variables (prompt : string) (system_prompt : option string).
Variables (temperature : Float) (max_tokens : option Z).

Lemma attempts_coherent (model : string) (client : Provider) (todo : list Z) :
  forall (last_error : option PyExc) (h h' : History) (r : LLMResponse.t),
    MCPRouter.attempts w config model prompt system_prompt temperature max_tokens
      client todo last_error h = (Ok (inl r), h') ->
    Shape.coherent config r.
Proof.
  induction todo as [|attempt rest IH]; intros last_error h h' r H.
  - discriminate.
  - cbn [MCPRouter.attempts] in H. unfold try_except in H.
    destruct (bind _ _ h) as [[out|e] h1] eqn:Hbody.
    + inversion H; subst. clear H.
      unfold bind at 1 in Hbody. unfold MCPRouter.attempt_body in Hbody.
      unfold bind, emit, history, lift, ret in Hbody.
      destruct (client_generate client w _ model) as [g|e] eqn:Hg; [|discriminate].
      pose proof (parse_action_one (Generated.json g)) as Hone.
      destruct (MCPRouter.parse_action (Generated.json g)) as [a q].
      unfold LLMResponseMetadata.new in Hbody.
      destruct (provider_of_name (Generated.provider g)) as [p|] eqn:Hp;
        [|discriminate].
      apply provider_of_name_Some in Hp.
      inversion Hbody; subst. unfold Shape.coherent. simpl. auto.
    + unfold bind at 1 in H.
      destruct (attempt <? Config.max_retries config - 1);
        unfold emit, ret in H; eapply IH; exact H.
Qed.

Lemma generate_with_retry_coherent (provider model : string) (h h' : History)
      (r : LLMResponse.t) :
  MCPRouter._generate_with_retry w config provider model prompt system_prompt
    temperature max_tokens h = (Ok r, h') ->
  Shape.coherent config r.
Proof.
  unfold MCPRouter._generate_with_retry.
  destruct (MCPRouter.lookup_client config provider) as [client|] eqn:E.
  - unfold bind.
    destruct (MCPRouter.attempts _ _ _ _ _ _ _ _ _ _ h) as [[[r'|last]|e] h1] eqn:Hrun;
      [| |discriminate].
    + apply attempts_coherent in Hrun. unfold ret. intros H. now inversion H; subst.
    + unfold lift, MCPRouter.all_failed, LLMResponseMetadata.new.
      destruct (provider_of_name provider) as [p|] eqn:Hp; [|discriminate].
      apply provider_of_name_Some in Hp.
      intros H. inversion H; subst. unfold Shape.coherent. simpl.
      repeat split; auto. eexists. split; [reflexivity|]. simpl. auto.
  - unfold lift, MCPRouter.not_available, LLMResponseMetadata.new.
    destruct (provider_of_name provider) as [p|] eqn:Hp; [|discriminate].
    apply provider_of_name_Some in Hp.
    intros H. inversion H; subst. unfold Shape.coherent. simpl.
    repeat split; auto. eexists. split; [reflexivity|]. simpl. auto.
Qed.

Lemma fallback_loop_coherent (chain : list string) :
  forall (r0 r : LLMResponse.t) (h h' : History),
    Shape.coherent config r0 ->
    MCPRouter.fallback_loop w config prompt system_prompt temperature max_tokens
      chain r0 h = (Ok r, h') ->
    Shape.coherent config r.
Proof.
  induction chain as [|fallback rest IH]; intros r0 r h h' H0 H.
  - inversion H; subst. exact H0.
  - cbn [MCPRouter.fallback_loop] in H.
    destruct (MCPRouter._parse_model_string fallback) as [fp fm].
    unfold bind at 1 in H.
    destruct (MCPRouter._generate_with_retry _ _ _ _ _ _ _ _ h) as [[r1|e] h1] eqn:Hg;
      [|discriminate].
    apply generate_with_retry_coherent in Hg.
    destruct (LLMResponse.success r1).
    + inversion H; subst. exact Hg.
    + exact (IH _ _ _ _ Hg H).
Qed.
End Coherence.

(** The envelope of an [ask_model] command carries no response when
    the parameters are missing and a coherent one otherwise. *)
Lemma ask_model_envelope
      (w : World) (config : Config.t) (command : MCPCommand.t)
      (system_prompt : option string) (h h' : History) (envelope : MCPResponse.t) :
  MCPCommand.command command = MCPCommand.ask_model ->
  MCPRouter.route_command w config command system_prompt h = (Ok envelope, h') ->
  match MCPCommand.params command with
  | None => MCPResponse.llm_response envelope = None
  | Some _ =>
      exists r,
        MCPResponse.llm_response envelope = Some r
        /\ Shape.coherent config r
        /\ (LLMResponse.success r = false ->
            MCPResponse.message envelope
            = ("All providers failed: "
               ++ match LLMResponse.error r with
                  | Some e => LLMError.message e
                  | None => "Unknown error"
                  end)%string)
  end.
Proof.
  intros Hk. unfold MCPRouter.route_command. rewrite Hk.
  unfold MCPRouter._handle_ask_model.
  destruct (MCPCommand.params command) as [params|].
  2:{ unfold ret. intros H. now inversion H. }
  unfold bind at 1.
  destruct (MCPRouter._generate_with_retry _ _ _ _ _ _ _ _ h) as [[r1|e] h1] eqn:Hg;
    [|discriminate].
  apply generate_with_retry_coherent in Hg.
  unfold bind at 1.
  match goal with
  | |- context [(if ?c then ?a else ?b) h1] =>
      destruct ((if c then a else b) h1) as [[r2|e2] h2] eqn:Hf; [|discriminate]
  end.
  assert (Hc : Shape.coherent config r2).
  { destruct (negb (LLMResponse.success r1) && _).
    - exact (fallback_loop_coherent _ _ _ _ _ _ _ _ _ _ _ Hg Hf).
    - inversion Hf; subst. exact Hg. }
  clear Hf Hg.
  destruct (LLMResponse.success r2) eqn:Hs.
  - destruct (MCPRouter.actions_of r2) as [|a l] eqn:Ha;
      unfold ret; intros H; inversion H; subst; exists r2;
      (split; [reflexivity|]); (split; [exact Hc|]); congruence.
  - unfold ret. intros H. inversion H; subst. exists r2.
    split; [reflexivity|]. split; [exact Hc|]. reflexivity.
Qed.

(** X19. The response carried by the envelope of an [ask_model] command
    is coherent: its metadata repeat its provider and model, it holds at
    most one of an action and a sequence, and its error is absent on a
    success and present on a failure.  A failed one has no raw output and
    no action, its error is of type [provider_not_available] (not
    recoverable) or [generation_failed] (recoverable, with the configured
    retry count), and the message of the envelope quotes the message of
    that error, never the placeholder for a missing one. *)
Theorem carried_response_is_coherent
        (w : World) (config : Config.t) (command : MCPCommand.t)
        (system_prompt : option string) (h h' : History)
        (envelope : MCPResponse.t) (r : LLMResponse.t) :
  MCPCommand.command command = MCPCommand.ask_model ->
  MCPRouter.route_command w config command system_prompt h = (Ok envelope, h') ->
  MCPResponse.llm_response envelope = Some r ->
  Shape.coherent config r
  /\ (LLMResponse.success r = true <-> LLMResponse.error r = None)
  /\ (LLMResponse.success r = false ->
      exists e, LLMResponse.error r = Some e
                /\ MCPResponse.message envelope
                   = ("All providers failed: " ++ LLMError.message e)%string).
Proof.
  intros Hk Hrun Hr. pose proof (ask_model_envelope _ _ _ _ _ _ _ Hk Hrun) as H.
  destruct (MCPCommand.params command); [|congruence].
  destruct H as (r' & Hr' & Hc & Hmsg).
  assert (r' = r) by congruence. subst r'.
  split; [exact Hc|].
  destruct Hc as (_ & _ & _ & Hc).
  destruct (LLMResponse.success r) eqn:Hs.
  - split; [tauto|discriminate].
  - destruct Hc as (_ & _ & _ & e & He & _). rewrite He in *.
    split; [split; discriminate|].
    intros _. exists e. split; [reflexivity|]. now apply Hmsg.
Qed.

Lemma carried_response_is_coherent_witness :
  exists envelope h' r,
    MCPRouter.route_command Examples.all_down (Examples.local_config [])
      (Examples.ask ollama "llama3") None [] = (Ok envelope, h')
    /\ MCPResponse.llm_response envelope = Some r
    /\ LLMResponse.success r = false
    /\ Shape.coherent (Examples.local_config []) r.
Proof.
  eexists. eexists. eexists.
  split; [vm_compute; reflexivity|]. split; [reflexivity|]. split; [reflexivity|].
  eapply (carried_response_is_coherent Examples.all_down (Examples.local_config [])
            (Examples.ask ollama "llama3") None []);
    [reflexivity | vm_compute; reflexivity | reflexivity].
Defined.

(** ** The action schema *)

(** X17. What the schema dumps is read back unchanged: a dumped action
    validates to the same action and a dumped sequence to the same
    sequence, whatever its step count and its actions; and the router's
    payload step reads a dumped action as that action and a dumped
    sequence as that sequence. *)
Theorem dumped_models_are_read_back (a : FusionAction.t) (q : ActionSequence.t) :
  FusionAction.validate (FusionAction.model_dump a) = Ok a
  /\ ActionSequence.model_validate (ActionSequence.model_dump q) = Ok q
  /\ MCPRouter.parse_action (FusionAction.model_dump a) = (Some a, None)
  /\ MCPRouter.parse_action (ActionSequence.model_dump q) = (None, Some q).
Proof.
  pose proof (FusionAction_round_trip a) as Ha.
  pose proof (ActionSequence_round_trip q) as Hq.
  split; [exact Ha|]. split; [exact Hq|].
  unfold FusionAction.validate, FusionAction.model_dump in Ha.
  unfold ActionSequence.model_validate, ActionSequence.model_dump in Hq.
  unfold MCPRouter.parse_action, FusionAction.model_dump, ActionSequence.model_dump.
  split.
  - cbn [truthy]. 
    change (dict_has _ "actions") with false.
    change (dict_has _ "action") with true.
    cbv iota. now rewrite Ha.
  - cbn [truthy].
    change (dict_has _ "actions") with true.
    cbv iota. now rewrite Hq.
Qed.

Lemma list_of_strings_inv (model field : string) (vs : list JSON) :
  forall l, Pydantic.list_of (Pydantic.str_field model field) vs = Ok l <-> vs = map JStr l.
Proof.
  induction vs as [|v vs IH]; intros l; cbn [Pydantic.list_of].
  - split.
    + intros [= <-]. reflexivity.
    + destruct l; [reflexivity|discriminate].
  - destruct v as [| | | |s| |]; cbn [Pydantic.str_field];
      try (split; [discriminate|destruct l; discriminate]).
    destruct (Pydantic.list_of _ vs) as [t|e] eqn:E.
    + pose proof (proj1 (IH t) eq_refl) as Hvs. split.
      * intros [= <-]. cbn [map]. now f_equal.
      * destruct l as [|x l]; [discriminate|]. cbn [map]. intros [= -> H].
        apply IH in H. now inversion H.
    + split; [discriminate|].
      destruct l as [|x l]; [discriminate|]. cbn [map]. intros [= -> H].
      apply IH in H. discriminate.
Qed.

(** X18. What the [FusionAction] constructor accepts.  It returns an
    action exactly when [action] is given as a string and [params] as a
    mapping, [explanation] is absent, null or a string, and
    [safety_checks] and [dependencies] are each absent or a list of
    strings; the action then holds these values, with [None] and the
    empty list for what was absent.  Every other key is ignored, and a
    null list is rejected. *)
Theorem fusion_action_accepts (kw : list (string * JSON)) (a : FusionAction.t) :
  FusionAction.new kw = Ok a
  <-> dict_get kw "action" = Some (JStr (FusionAction.action a))
      /\ dict_get kw "params" = Some (JDict (FusionAction.params a))
      /\ Accepts.optional_string (dict_get kw "explanation") (FusionAction.explanation a)
      /\ Accepts.strings (dict_get kw "safety_checks") (FusionAction.safety_checks a)
      /\ Accepts.strings (dict_get kw "dependencies") (FusionAction.dependencies a).
Proof.
  destruct a as [act par ex sc dp]. cbn [FusionAction.action FusionAction.params
    FusionAction.explanation FusionAction.safety_checks FusionAction.dependencies].
  unfold FusionAction.new, Pydantic.required, Pydantic.optional, Pydantic.defaulted,
    Pydantic.list_field, Pydantic.dict_field, Pydantic.invalid,
    Accepts.optional_string, Accepts.strings.
  assert (Hlist : forall field (o : option JSON) (l : list string),
             match o with
             | Some (JList vs) =>
                 Pydantic.list_of (Pydantic.str_field FusionAction.name field) vs
             | Some _ => Raise (ValidationError FusionAction.name field)
             | None => Ok []
             end = Ok l
             <-> match o with
                 | None => l = []
                 | Some (JList vs) => vs = map JStr l
                 | Some _ => False
                 end).
  { intros field [v|] l.
    - destruct v; try (split; [discriminate|contradiction]).
      apply list_of_strings_inv.
    - split; [intros [= <-]; reflexivity|intros ->; reflexivity]. }
  assert (Hlist' : forall field (o : option JSON),
             match match o with
                   | Some (JList vs) =>
                       Pydantic.list_of (Pydantic.str_field FusionAction.name field) vs
                   | Some _ => Raise (ValidationError FusionAction.name field)
                   | None => Ok []
                   end with
             | Ok l => match o with
                       | None => l = []
                       | Some (JList vs) => vs = map JStr l
                       | Some _ => False
                       end
             | Raise _ => forall l, ~ match o with
                                      | None => l = []
                                      | Some (JList vs) => vs = map JStr l
                                      | Some _ => False
                                      end
             end).
  { intros field o.
    destruct (match o with
              | Some (JList vs) =>
                  Pydantic.list_of (Pydantic.str_field FusionAction.name field) vs
              | Some _ => Raise (ValidationError FusionAction.name field)
              | None => Ok []
              end) as [l|e] eqn:E.
    - now apply Hlist in E.
    - intros l Hl. apply (Hlist field) in Hl. congruence. }
  pose proof (Hlist' "safety_checks" (dict_get kw "safety_checks")) as Hsc.
  pose proof (Hlist' "dependencies" (dict_get kw "dependencies")) as Hdp.
  pose proof (Hlist "safety_checks" (dict_get kw "safety_checks")) as Hsc2.
  pose proof (Hlist "dependencies" (dict_get kw "dependencies")) as Hdp2.
  change (match dict_get kw "safety_checks" with
          | Some v =>
              match v with
              | JList l =>
                  Pydantic.list_of (Pydantic.str_field FusionAction.name "safety_checks") l
              | _ => Raise (ValidationError FusionAction.name "safety_checks")
              end
          | None => Ok []
          end)
    with (match dict_get kw "safety_checks" with
          | Some (JList vs) =>
              Pydantic.list_of (Pydantic.str_field FusionAction.name "safety_checks") vs
          | Some _ => Raise (ValidationError FusionAction.name "safety_checks")
          | None => Ok []
          end).
  change (match dict_get kw "dependencies" with
          | Some v =>
              match v with
              | JList l =>
                  Pydantic.list_of (Pydantic.str_field FusionAction.name "dependencies") l
              | _ => Raise (ValidationError FusionAction.name "dependencies")
              end
          | None => Ok []
          end)
    with (match dict_get kw "dependencies" with
          | Some (JList vs) =>
              Pydantic.list_of (Pydantic.str_field FusionAction.name "dependencies") vs
          | Some _ => Raise (ValidationError FusionAction.name "dependencies")
          | None => Ok []
          end).
  destruct (dict_get kw "action") as [[| | | |s| |]|]; cbn [Pydantic.str_field];
    try (split; [discriminate|intros (H1 & _); discriminate]).
  destruct (dict_get kw "params") as [[| | | | | |p]|];
    try (split; [discriminate|intros (_ & H2 & _); discriminate]).
  destruct (dict_get kw "explanation") as [[| | | |x| |]|]; cbn [Pydantic.str_field];
    try (split; [discriminate|intros (_ & _ & H3 & _); contradiction]);
    (destruct (match dict_get kw "safety_checks" with
               | Some (JList vs) =>
                   Pydantic.list_of (Pydantic.str_field FusionAction.name "safety_checks") vs
               | Some _ => Raise (ValidationError FusionAction.name "safety_checks")
               | None => Ok []
               end) as [sc'|e1];
     [|split; [discriminate|intros (_ & _ & _ & H4 & _); exfalso; exact (Hsc _ H4)]];
     destruct (match dict_get kw "dependencies" with
               | Some (JList vs) =>
                   Pydantic.list_of (Pydantic.str_field FusionAction.name "dependencies") vs
               | Some _ => Raise (ValidationError FusionAction.name "dependencies")
               | None => Ok []
               end) as [dp'|e2];
     [|split; [discriminate|intros (_ & _ & _ & _ & H5); exfalso; exact (Hdp _ H5)]];
     (split;
      [ intros H; inversion H; subst; repeat split; try reflexivity; assumption
      | intros (H1 & H2 & H3 & H4 & H5);
        inversion H1; inversion H2; subst;
        apply Hsc2 in H4; inversion H4; subst;
        apply Hdp2 in H5; inversion H5; subst;
        try discriminate; try (inversion H3; subst); reflexivity ])).
Qed.

Lemma fusion_action_accepts_witness :
  FusionAction.new [("action", JStr "create_box"); ("params", JDict []);
                    ("explanation", JNull); ("priority", JInt 3)]
  = Ok (FusionAction.mk "create_box" [] None [] []).
Proof.
  apply (proj2 (fusion_action_accepts
                  [("action", JStr "create_box"); ("params", JDict []);
                   ("explanation", JNull); ("priority", JInt 3)]
                  (FusionAction.mk "create_box" [] None [] []))).
  repeat split.
Defined.

(** ** Commands that reach no provider *)

(** X20. A command that is neither [ask_model] nor [list_models] is
    answered without any provider being called and whatever the providers
    would do: the history is unchanged and the envelope carries no
    response and no action.  [health_check] reports success and names the
    configured providers without probing them; the four other kinds the
    command schema accepts ([suggest_action], [context_update],
    [execute_action], [validate_action]) are answered with status
    [error] and the message [Unknown command: ] followed by the kind. *)
Theorem commands_without_provider
        (w : World) (config : Config.t) (command : MCPCommand.t)
        (system_prompt : option string) (h : History) :
  MCPCommand.command command <> MCPCommand.ask_model ->
  MCPCommand.command command <> MCPCommand.list_models ->
  exists envelope,
    MCPRouter.route_command w config command system_prompt h = (Ok envelope, h)
    /\ MCPResponse.llm_response envelope = None
    /\ MCPResponse.actions_to_execute envelope = []
    /\ (MCPCommand.command command = MCPCommand.health_check ->
        MCPResponse.status envelope = MCPResponse.success
        /\ MCPResponse.message envelope
           = ("Healthy providers: "
              ++ MCPRouter.repr_list (map provider_name (MCPRouter.clients config)))%string)
    /\ (MCPCommand.command command <> MCPCommand.health_check ->
        MCPResponse.status envelope = MCPResponse.error
        /\ MCPResponse.message envelope
           = ("Unknown command: "
              ++ MCPCommand.kind_name (MCPCommand.command command))%string).
Proof.
  intros Hask Hlist. unfold MCPRouter.route_command.
  assert (Hnames : map fst (map (fun p => (provider_name p, "available"))
                              (MCPRouter.clients config))
                   = map provider_name (MCPRouter.clients config))
    by (rewrite map_map; reflexivity).
  destruct (MCPCommand.command command) eqn:Hk; try congruence.
  5:{ eexists. split; [reflexivity|]. cbn [MCPResponse.llm_response
        MCPResponse.actions_to_execute MCPResponse.status MCPResponse.message].
      rewrite Hnames. repeat split; congruence. }
  all: eexists; (split; [reflexivity|]); repeat split; discriminate.
Qed.

Lemma commands_without_provider_witness :
  exists envelope,
    MCPRouter.route_command Examples.all_down (Examples.config_with [])
      (MCPCommand.mk MCPCommand.execute_action None None None []) None []
    = (Ok envelope, [])
    /\ MCPResponse.status envelope = MCPResponse.error
    /\ MCPResponse.message envelope = "Unknown command: execute_action".
Proof.
  destruct (commands_without_provider Examples.all_down (Examples.config_with [])
              (MCPCommand.mk MCPCommand.execute_action None None None []) None [])
    as (envelope & Hrun & _ & _ & _ & Hunknown); [discriminate|discriminate|].
  exists envelope. split; [exact Hrun|]. apply Hunknown. discriminate.
Defined.

(** ** The command endpoint *)

Lemma call_sound (c : Server.Cache) (x : Server.CacheCall)
      (calls : list Server.CacheCall) :
  (forall l, Server.raises c l = None) ->
  Server.call c x calls = (Ok tt, calls ++ [x]).
Proof. intros H. unfold Server.call. now rewrite H. Qed.

(** X21. With a cache that accepts its writes, the endpoint returns the
    router's envelope for an [ask_model] command and records the exchange
    as the caller worded it: the user input is the prompt of the command,
    without the design context the router put in front of it for the
    provider, and the text, provider and model are those of the response
    the envelope carries.  A failed response is recorded too, with an
    empty text.  Nothing is recorded for a command without parameters, so
    the empty user input the endpoint provides for that case is never
    stored.  The design context of the command, when there is one, is
    saved after the exchange. *)
Theorem conversation_is_cached_as_asked
        (w : World) (g : Server.Globals) (config : Config.t) (c : Server.Cache)
        (command : MCPCommand.t) (h h' : History) (calls : list Server.CacheCall)
        (envelope : MCPResponse.t) :
  Server.router g = Some config ->
  Server.cache g = Some c ->
  (forall l, Server.raises c l = None) ->
  MCPCommand.command command = MCPCommand.ask_model ->
  MCPRouter.route_command w config command (Server.system_prompt g) h
  = (Ok envelope, h') ->
  exists saved,
    Server.execute_command w g command h calls
    = (Server.Returns envelope, h',
       calls ++ saved
       ++ match MCPCommand.context command with
          | Some context => [Server.SaveDesignState (Server.dump_context context)]
          | None => []
          end)
    /\ match MCPCommand.params command with
       | None => saved = []
       | Some p =>
           exists r,
             MCPResponse.llm_response envelope = Some r
             /\ saved = [Server.SaveConversation (ModelParams.prompt p)
                           (LLMResponse.raw_output r) (LLMResponse.provider r)
                           (LLMResponse.model r)]
             /\ (LLMResponse.success r = false ->
                 LLMResponse.raw_output r = EmptyString)
       end.
Proof.
  intros Hrouter Hcache Hsound Hk Hrun.
  pose proof (ask_model_envelope _ _ _ _ _ _ _ Hk Hrun) as Henv.
  unfold Server.execute_command. rewrite Hrouter, Hrun, Hcache.
  unfold Server.after_routing, Server.conversation. rewrite Hk.
  destruct (MCPCommand.params command) as [p|].
  - destruct Henv as (r & Hr & Hc & _). rewrite Hr.
    exists [Server.SaveConversation (ModelParams.prompt p) (LLMResponse.raw_output r)
              (LLMResponse.provider r) (LLMResponse.model r)].
    split.
    + rewrite (call_sound _ _ _ Hsound).
      destruct (MCPCommand.context command) as [context|].
      * rewrite (call_sound _ _ _ Hsound). now rewrite <- app_assoc.
      * now rewrite app_nil_r.
    + exists r. split; [reflexivity|]. split; [reflexivity|].
      intros Hs. destruct Hc as (_ & _ & _ & Hc). rewrite Hs in Hc. tauto.
  - rewrite Henv. exists []. split; [|reflexivity]. cbn [app].
    destruct (MCPCommand.context command) as [context|].
    + now rewrite (call_sound _ _ _ Hsound).
    + now rewrite app_nil_r.
Qed.

Lemma conversation_is_cached_as_asked_witness :
  exists envelope h' saved,
    MCPRouter.route_command Examples.local_only (Examples.local_config [])
      ServerScenes.ask_in_context
      (Some "You are FusionMCP, a parametric CAD design assistant.") []
    = (Ok envelope, h')
    /\ Server.execute_command Examples.local_only
         (ServerScenes.globals (Examples.local_config []) (Some ServerScenes.sound_cache))
         ServerScenes.ask_in_context [] []
       = (Server.Returns envelope, h',
          [] ++ saved
          ++ [Server.SaveDesignState (Server.dump_context ServerScenes.context)])
    /\ exists r,
         MCPResponse.llm_response envelope = Some r
         /\ saved = [Server.SaveConversation "Create a 20mm cube"
                       (LLMResponse.raw_output r) (LLMResponse.provider r)
                       (LLMResponse.model r)]
         /\ (LLMResponse.success r = false -> LLMResponse.raw_output r = EmptyString).
Proof.
  assert (Hrun : exists envelope h',
             MCPRouter.route_command Examples.local_only (Examples.local_config [])
               ServerScenes.ask_in_context
               (Some "You are FusionMCP, a parametric CAD design assistant.") []
             = (Ok envelope, h'))
    by (vm_compute; eexists; eexists; reflexivity).
  destruct Hrun as (envelope & h' & Hrun).
  destruct (conversation_is_cached_as_asked Examples.local_only
              (ServerScenes.globals (Examples.local_config [])
                 (Some ServerScenes.sound_cache))
              (Examples.local_config []) ServerScenes.sound_cache
              ServerScenes.ask_in_context [] h' [] envelope
              eq_refl eq_refl (fun _ => eq_refl) eq_refl Hrun)
    as (saved & Hexec & Hsaved).
  exists envelope, h', saved. split; [exact Hrun|]. split; [exact Hexec|exact Hsaved].
Defined.

(** X22. The endpoint answers with an exception only with status 500,
    and in three situations: the router is not initialised; routing
    raised, and then no cache method was called; or routing returned an
    envelope and a cache write raised, and then the envelope is lost
    although the providers were called, the detail being the text of the
    cache's exception.  When it returns a body, that body is the router's
    envelope and no cache write raised. *)
Theorem command_endpoint_outcomes
        (w : World) (g : Server.Globals) (command : MCPCommand.t)
        (h h' : History) (calls calls' : list Server.CacheCall)
        (out : Server.Http MCPResponse.t) :
  Server.execute_command w g command h calls = (out, h', calls') ->
  match out with
  | Server.Returns envelope =>
      exists config,
        Server.router g = Some config
        /\ MCPRouter.route_command w config command (Server.system_prompt g) h
           = (Ok envelope, h')
        /\ match Server.cache g with
           | None => calls' = calls
           | Some c => Server.after_routing c command envelope calls = (Ok tt, calls')
           end
  | Server.HTTPException status_code detail =>
      status_code = 500
      /\ ((Server.router g = None /\ h' = h /\ calls' = calls)
          \/ (exists config e,
                 Server.router g = Some config
                 /\ MCPRouter.route_command w config command (Server.system_prompt g) h
                    = (Raise e, h')
                 /\ detail = str_exc e
                 /\ calls' = calls)
          \/ (exists config c envelope e,
                 Server.router g = Some config
                 /\ Server.cache g = Some c
                 /\ MCPRouter.route_command w config command (Server.system_prompt g) h
                    = (Ok envelope, h')
                 /\ Server.raises c calls' = Some e
                 /\ detail = str_exc e
                 /\ calls' <> calls))
  end.
Proof.
  unfold Server.execute_command.
  destruct (Server.router g) as [config|].
  2:{ intros [= <- <- <-]. split; [reflexivity|]. left. repeat split. }
  destruct (MCPRouter.route_command w config command (Server.system_prompt g) h)
    as [[envelope|e] h1] eqn:Hroute.
  2:{ intros [= <- <- <-]. split; [reflexivity|]. right. left.
      exists config, e. repeat split. exact Hroute. }
  destruct (Server.cache g) as [c|].
  2:{ intros [= <- <- <-]. exists config. repeat split. exact Hroute. }
  destruct (Server.after_routing c command envelope calls) as [[[]|e] calls1] eqn:Hafter.
  - intros [= <- <- <-]. exists config. repeat split; [exact Hroute|exact Hafter].
  - intros [= <- <- <-]. split; [reflexivity|]. right. right.
    exists config, c, envelope, e.
    split; [reflexivity|]. split; [reflexivity|]. split; [exact Hroute|].
    split; [|split; [reflexivity|]].
    + unfold Server.after_routing in Hafter.
      assert (Hcall : forall x l out l',
                 Server.call c x l = (out, l') ->
                 l' = l ++ [x]
                 /\ match out with
                    | Raise e0 => Server.raises c l' = Some e0
                    | Ok _ => True
                    end).
      { intros x l out0 l'. unfold Server.call.
        destruct (Server.raises c (l ++ [x])) eqn:Hr; intros [= <- <-]; auto. }
      destruct (Server.conversation command envelope) as [x|].
      * destruct (Server.call c x calls) as [[[]|e1] calls2] eqn:Hc1.
        -- destruct (MCPCommand.context command) as [context|]; [|discriminate].
           apply Hcall in Hafter. tauto.
        -- apply Hcall in Hc1. inversion Hafter; subst. tauto.
      * destruct (MCPCommand.context command) as [context|]; [|discriminate].
        apply Hcall in Hafter. tauto.
    + unfold Server.after_routing in Hafter.
      assert (Hgrow : forall x l out l', Server.call c x l = (out, l') -> l' = l ++ [x]).
      { intros x l out0 l'. unfold Server.call.
        destruct (Server.raises c (l ++ [x])); now intros [= <- <-]. }
      assert (Hlen : (length calls < length calls1)%nat).
      { destruct (Server.conversation command envelope) as [x|].
        - destruct (Server.call c x calls) as [[[]|e1] calls2] eqn:Hc1.
          + destruct (MCPCommand.context command) as [context|]; [|discriminate].
            apply Hgrow in Hafter. apply Hgrow in Hc1. subst.
            rewrite !length_app. simpl. lia.
          + apply Hgrow in Hc1. inversion Hafter; subst.
            rewrite length_app. simpl. lia.
        - destruct (MCPCommand.context command) as [context|]; [|discriminate].
          apply Hgrow in Hafter. subst. rewrite length_app. simpl. lia. }
      intros ->. lia.
Qed.

Lemma command_endpoint_outcomes_witness :
  exists h' calls' envelope,
    Server.execute_command Examples.local_only
      (ServerScenes.globals (Examples.local_config []) (Some ServerScenes.broken_cache))
      ServerScenes.ask_in_context [] []
    = (Server.HTTPException 500 "disk full", h', calls')
    /\ MCPRouter.route_command Examples.local_only (Examples.local_config [])
         ServerScenes.ask_in_context
         (Some "You are FusionMCP, a parametric CAD design assistant.") []
       = (Ok envelope, h')
    /\ MCPResponse.status envelope = MCPResponse.success
    /\ Spec.generate_calls h' = 1%nat.
Proof.
  assert (Hrun : exists h' calls',
             Server.execute_command Examples.local_only
               (ServerScenes.globals (Examples.local_config [])
                  (Some ServerScenes.broken_cache))
               ServerScenes.ask_in_context [] []
             = (Server.HTTPException 500 "disk full", h', calls'))
    by (vm_compute; eexists; eexists; reflexivity).
  destruct Hrun as (h' & calls' & Hrun).
  pose proof (command_endpoint_outcomes _ _ _ _ _ _ _ _ Hrun) as H.
  cbv beta iota in H. destruct H as (_ & [H|[H|H]]).
  - destruct H as (H & _). discriminate.
  - destruct H as (config & e & Hconfig & Hroute & _).
    injection Hconfig as <-. exfalso. revert Hroute. vm_compute. 
    intros Hroute. discriminate.
  - destruct H as (config & c & envelope & e & Hconfig & _ & Hroute & _).
    injection Hconfig as <-.
    exists h', calls', envelope. split; [exact Hrun|]. split; [exact Hroute|].
    revert Hroute. vm_compute. intros [= <- <-]. split; reflexivity.
Defined.

(** ** The router's clients *)

Lemma nonempty_true (s : string) :
  MCPRouter.nonempty s = true <-> s <> EmptyString.
Proof.
  unfold MCPRouter.nonempty. destruct (String.eqb_spec s EmptyString); simpl.
  - split; [discriminate|contradiction].
  - split; auto.
Qed.

Lemma present_true (k : option string) :
  MCPRouter.present k = true <-> exists s, k = Some s /\ s <> EmptyString.
Proof.
  destruct k as [s|]; simpl.
  - rewrite nonempty_true. split.
    + intros H. now exists s.
    + intros (s' & [= <-] & H). exact H.
  - split; [discriminate|]. intros (s & H & _). discriminate.
Qed.

(** X23. The router has a client for a provider exactly when the
    provider's URL or API key is given and not empty, so an empty key
    counts as no key; the clients are kept without repetition in the
    order ollama, openai, gemini, claude, whatever the configuration; and
    a name finds a client exactly when it is the name of a provider that
    has one. *)
Theorem clients_are_the_configured_providers (config : Config.t) :
  (forall p, In p (MCPRouter.clients config) <-> Configured.given config p)
  /\ NoDup (MCPRouter.clients config)
  /\ (forall before p after q,
         MCPRouter.clients config = before ++ p :: after -> In q after ->
         (Configured.rank p < Configured.rank q)%nat)
  /\ (forall name p,
         MCPRouter.lookup_client config name = Some p
         <-> name = provider_name p /\ In p (MCPRouter.clients config)).
Proof.
  split; [|split; [|split]].
  - intros p. unfold MCPRouter.clients, Configured.given.
    rewrite !in_app_iff.
    pose proof (nonempty_true (Config.ollama_url config)) as Ho.
    pose proof (present_true (Config.openai_api_key config)) as Ha.
    pose proof (present_true (Config.gemini_api_key config)) as Hg.
    pose proof (present_true (Config.claude_api_key config)) as Hc.
    destruct (MCPRouter.nonempty (Config.ollama_url config));
      destruct (MCPRouter.present (Config.openai_api_key config));
      destruct (MCPRouter.present (Config.gemini_api_key config));
      destruct (MCPRouter.present (Config.claude_api_key config));
      destruct p; simpl;
      intuition (try discriminate; try congruence).
  - unfold MCPRouter.clients.
    destruct (MCPRouter.nonempty (Config.ollama_url config));
      destruct (MCPRouter.present (Config.openai_api_key config));
      destruct (MCPRouter.present (Config.gemini_api_key config));
      destruct (MCPRouter.present (Config.claude_api_key config)); simpl;
      repeat constructor; simpl; intuition discriminate.
  - intros before p after q. unfold MCPRouter.clients.
    destruct (MCPRouter.nonempty (Config.ollama_url config));
      destruct (MCPRouter.present (Config.openai_api_key config));
      destruct (MCPRouter.present (Config.gemini_api_key config));
      destruct (MCPRouter.present (Config.claude_api_key config)); simpl;
      intros Heq Hin;
      repeat (destruct before as [|? before];
              [injection Heq as <- <-; simpl in Hin; intuition (subst; simpl; lia)
              |try discriminate; injection Heq as <- Heq]);
      try discriminate; destruct before; discriminate.
  - intros name p. split.
    + intros H. apply lookup_client_Some in H. destruct H as [Hin <-]. auto.
    + intros [-> Hin]. now apply lookup_client_configured.
Qed.
